(** * Whatomate: event delivery subsystem

    A shallow embedding of the Go handlers that sign, validate, deliver and
    retry outbound webhooks, sweep stale media, render interactive buttons
    and authenticate WebSocket upgrades, together with the properties the
    specification states about them.

    Go strings and byte slices are [string]s (sequences of 8-bit
    characters); Go [int], [time.Duration] and [time.Time] are [Z]
    (durations and instants in nanoseconds); database tables are finite
    maps from row ids to records. *)

From Stdlib Require Import ZArith Lia List Ascii String Bool DecimalString.
From stdpp Require Import base option list gmap strings sorting.

Local Open Scope string_scope.
Local Open Scope list_scope.
Local Open Scope Z_scope.

(** ** Byte strings *)

Module Bytes.

Definition is_byte (b : Z) : Prop := 0 <= b < 256.

Definition of_string (s : string) : list Z :=
  map (fun c => Z.of_N (N_of_ascii c)) (list_ascii_of_string s).

(** [strings.HasPrefix]. *)
Fixpoint HasPrefix (s p : string) {struct p} : bool :=
  match p, s with
  | EmptyString, _ => true
  | String c p', String d s' => if Ascii.eqb c d then HasPrefix s' p' else false
  | String _ _, EmptyString => false
  end.

(** [s[n:]] for [n <= len(s)]. *)
Fixpoint drop (n : nat) (s : string) : string :=
  match n, s with
  | O, _ => s
  | S n', String _ s' => drop n' s'
  | S _, EmptyString => EmptyString
  end.

(** [s[:n]] for [n <= len(s)]. *)
Fixpoint take (n : nat) (s : string) : string :=
  match n, s with
  | O, _ => EmptyString
  | S n', String c s' => String c (take n' s')
  | S _, EmptyString => EmptyString
  end.

(** [strings.Contains]. *)
Fixpoint Contains (s sub : string) : bool :=
  HasPrefix s sub ||
  match s with
  | EmptyString => false
  | String _ s' => Contains s' sub
  end.

(** [strings.HasSuffix]. *)
Definition HasSuffix (s suf : string) : bool :=
  (String.length suf <=? String.length s)%nat &&
  String.eqb (drop (String.length s - String.length suf) s) suf.

(** The ASCII branch of [strings.ToLower]: [c += 'a' - 'A'] on the
    bytes ['A'..'Z']; other bytes are kept. *)
Definition lower_ascii (c : ascii) : ascii :=
  let n := N_of_ascii c in
  if ((65 <=? n) && (n <=? 90))%N then ascii_of_N (n + 32) else c.

Fixpoint lowerASCII (s : string) : string :=
  match s with
  | EmptyString => EmptyString
  | String c s' => String (lower_ascii c) (lowerASCII s')
  end.

(** The two flags [strings.ToLower] computes first: every byte is below
    [utf8.RuneSelf], and some byte is an upper-case ASCII letter. *)
Fixpoint isASCII (s : string) : bool :=
  match s with
  | EmptyString => true
  | String c s' => (N_of_ascii c <? 128)%N && isASCII s'
  end.

Fixpoint hasUpper (s : string) : bool :=
  match s with
  | EmptyString => false
  | String c s' => ((65 <=? N_of_ascii c) && (N_of_ascii c <=? 90))%N || hasUpper s'
  end.

End Bytes.

(** ** crypto/sha256, crypto/hmac, crypto/subtle and encoding/hex

    The Go standard library routines the handlers call, over 32-bit words
    held in [Z] with the wrap-around written out. *)

Module Sha256.

Definition mask32 : Z := 0xffffffff.
Definition w32 (x : Z) : Z := Z.land x mask32.
Definition add32 (x y : Z) : Z := w32 (x + y).
Definition rotr (n x : Z) : Z :=
  w32 (Z.lor (Z.shiftr x n) (Z.shiftl x (32 - n))).
Definition not32 (x : Z) : Z := Z.lxor x mask32.

Definition Ch (x y z : Z) : Z := Z.lxor (Z.land x y) (Z.land (not32 x) z).
Definition Maj (x y z : Z) : Z :=
  Z.lxor (Z.lxor (Z.land x y) (Z.land x z)) (Z.land y z).
Definition bsig0 (x : Z) : Z := Z.lxor (Z.lxor (rotr 2 x) (rotr 13 x)) (rotr 22 x).
Definition bsig1 (x : Z) : Z := Z.lxor (Z.lxor (rotr 6 x) (rotr 11 x)) (rotr 25 x).
Definition ssig0 (x : Z) : Z := Z.lxor (Z.lxor (rotr 7 x) (rotr 18 x)) (Z.shiftr x 3).
Definition ssig1 (x : Z) : Z := Z.lxor (Z.lxor (rotr 17 x) (rotr 19 x)) (Z.shiftr x 10).

(** The round constants are the first 32 bits of the fractional parts
    of the cube roots of the first 64 primes, and the initial hash value
    those of the square roots of the first 8 primes. *)
Definition is_prime (n : nat) : bool :=
  forallb (fun d => negb (Nat.eqb (Nat.modulo n d) 0)) (seq 2 (n - 2)).

Definition primes : list Z :=
  Eval vm_compute in map Z.of_nat (List.filter is_prime (seq 2 310)).

(** The integer cube root, bit by bit from the top. *)
Definition cube_root (n : Z) : Z :=
  fold_left (fun r k => let r' := r + 2 ^ Z.of_nat k in
                        if r' * r' * r' <=? n then r' else r)
            (rev (seq 0 40)) 0.

Definition K : list Z :=
  Eval vm_compute in map (fun p => w32 (cube_root (p * 2 ^ 96))) primes.

Definition init : list Z :=
  Eval vm_compute in map (fun p => w32 (Z.sqrt (p * 2 ^ 64))) (firstn 8 primes).

(** Big-endian words of a block. *)
Fixpoint words (bs : list Z) : list Z :=
  match bs with
  | a :: b :: c :: d :: rest =>
      Z.lor (Z.lor (Z.shiftl a 24) (Z.shiftl b 16)) (Z.lor (Z.shiftl c 8) d)
      :: words rest
  | _ => []
  end.

Definition word_bytes (w : Z) : list Z :=
  [ Z.land (Z.shiftr w 24) 0xff; Z.land (Z.shiftr w 16) 0xff;
    Z.land (Z.shiftr w 8) 0xff; Z.land w 0xff ].

(** The message schedule, most recent word first. *)
Fixpoint extend (n : nat) (rev_w : list Z) : list Z :=
  match n with
  | O => rev_w
  | S n' =>
      let w := add32 (add32 (ssig1 (nth 1 rev_w 0)) (nth 6 rev_w 0))
                     (add32 (ssig0 (nth 14 rev_w 0)) (nth 15 rev_w 0)) in
      extend n' (w :: rev_w)
  end.

Definition schedule (block : list Z) : list Z :=
  rev (extend 48 (rev (words block))).

Record regs := Regs { ra : Z; rb : Z; rc : Z; rd : Z; re : Z; rf : Z; rg : Z; rh : Z }.

Definition round (r : regs) (kw : Z * Z) : regs :=
  let t1 := add32 (add32 (add32 (rh r) (bsig1 (re r))) (Ch (re r) (rf r) (rg r)))
                  (add32 (fst kw) (snd kw)) in
  let t2 := add32 (bsig0 (ra r)) (Maj (ra r) (rb r) (rc r)) in
  Regs (add32 t1 t2) (ra r) (rb r) (rc r) (add32 (rd r) t1) (re r) (rf r) (rg r).

Definition regs_of (h : list Z) : regs :=
  Regs (nth 0 h 0) (nth 1 h 0) (nth 2 h 0) (nth 3 h 0)
       (nth 4 h 0) (nth 5 h 0) (nth 6 h 0) (nth 7 h 0).

Definition compress (h : list Z) (block : list Z) : list Z :=
  let r := fold_left round (combine K (schedule block)) (regs_of h) in
  [ add32 (nth 0 h 0) (ra r); add32 (nth 1 h 0) (rb r);
    add32 (nth 2 h 0) (rc r); add32 (nth 3 h 0) (rd r);
    add32 (nth 4 h 0) (re r); add32 (nth 5 h 0) (rf r);
    add32 (nth 6 h 0) (rg r); add32 (nth 7 h 0) (rh r) ].

(** [digest.Write]: bytes are buffered and every full 64-byte block is
    compressed into the chaining value. *)
Record digest := Digest { h : list Z; buf : list Z; nx : nat; len : Z }.

Definition New : digest := Digest init [] 0 0.

Definition write_byte (d : digest) (b : Z) : digest :=
  if Nat.eqb (S (nx d)) 64
  then Digest (compress (h d) (rev (b :: buf d))) [] 0 (len d + 1)
  else Digest (h d) (b :: buf d) (S (nx d)) (len d + 1).

Definition Write (d : digest) (p : list Z) : digest := fold_left write_byte p d.

Definition len_bytes (bits : Z) : list Z :=
  word_bytes (Z.shiftr bits 32) ++ word_bytes (w32 bits).

(** [digest.Sum]: pad with 0x80, zeros up to 56 mod 64, and the bit
    length as a 64-bit big-endian integer. *)
Definition Sum (d : digest) : list Z :=
  let zeros := if Nat.ltb (nx d) 56 then (55 - nx d)%nat else (119 - nx d)%nat in
  let d' := Write d (0x80 :: repeat 0 zeros ++ len_bytes (8 * len d)) in
  concat (map word_bytes (h d')).

Definition Sum256 (data : list Z) : list Z := Sum (Write New data).

Definition BlockSize : nat := 64.

End Sha256.

Module Hex.

Definition digit (n : Z) : ascii :=
  if n <? 10 then ascii_of_N (Z.to_N (48 + n)) else ascii_of_N (Z.to_N (87 + n)).

(** [hex.EncodeToString]: two lower-case digits per byte. *)
Fixpoint EncodeToString (bs : list Z) : string :=
  match bs with
  | [] => EmptyString
  | b :: rest =>
      String (digit (Z.shiftr b 4)) (String (digit (Z.land b 0xf)) (EncodeToString rest))
  end.



End Hex.

Module Hmac.

(** [hmac.New(sha256.New, key)]: a key longer than the block size is
    replaced by its hash, then the key is zero-padded to the block size. *)
Definition block_key (key : list Z) : list Z :=
  let k := if Nat.ltb Sha256.BlockSize (length key) then Sha256.Sum256 key else key in
  k ++ repeat 0 (Sha256.BlockSize - length k).

Definition ipad (key : list Z) : list Z := map (Z.lxor 0x36) (block_key key).
Definition opad (key : list Z) : list Z := map (Z.lxor 0x5c) (block_key key).

(** [h.Write(data); h.Sum(nil)]. *)
Definition Sum (key data : list Z) : list Z :=
  Sha256.Sum256 (opad key ++ Sha256.Sum256 (ipad key ++ data)).

End Hmac.

Module Subtle.

(** [subtle.ConstantTimeCompare]: unequal lengths give 0 at once;
    otherwise the XOR of every byte pair is OR-ed into one accumulator,
    with no early exit. *)
Fixpoint xor_acc (v : Z) (x y : list Z) : Z :=
  match x, y with
  | a :: x', b :: y' => xor_acc (Z.lor v (Z.lxor a b)) x' y'
  | _, _ => v
  end.

Definition ConstantTimeCompare (x y : list Z) : bool :=
  if Nat.eqb (length x) (length y) then xor_acc 0 x y =? 0 else false.

End Subtle.

(** ** Webhook signatures *)

Module Signature.

(** [computeHMACSignature] (outbound webhook sender). *)
Definition computeHMACSignature (data : string) (secret : string) : string :=
  "sha256=" +:+ Hex.EncodeToString (Hmac.Sum (Bytes.of_string secret) (Bytes.of_string data)).

(** Modelled from the spec: [verifyWebhookSignature], the inbound
    verifier, whose body is not among the sources (only its test is).
    The spec computes the HMAC-SHA-256 of the raw body with the app
    secret and compares it in constant time against a header of the form
    [sha256=<hex>]; a missing prefix, another scheme or a mismatch is
    refused. *)
Definition verifyWebhookSignature (body signature appSecret : string) : bool :=
  if negb (Bytes.HasPrefix signature "sha256=") then false
  else
    let expected := Hex.EncodeToString (Hmac.Sum (Bytes.of_string appSecret) (Bytes.of_string body)) in
    Subtle.ConstantTimeCompare (Bytes.of_string (Bytes.drop 7 signature)) (Bytes.of_string expected).




End Signature.

(** The data of [TestVerifyWebhookSignature]: the application secret,
    the body, the modified body, and the table of its cases as body,
    signature, secret and expected result. *)
Module SignatureTest.

Import Signature.

Definition q : string := String (ascii_of_nat 34) EmptyString.

Definition appSecret : string := "test_app_secret_12345".

Definition body : string :=
  "{" +:+ q +:+ "object" +:+ q +:+ ":" +:+ q +:+ "whatsapp_business_account" +:+ q +:+ ","
  +:+ q +:+ "entry" +:+ q +:+ ":[{" +:+ q +:+ "id" +:+ q +:+ ":" +:+ q +:+ "123" +:+ q +:+ ","
  +:+ q +:+ "changes" +:+ q +:+ ":[]}]}".




End SignatureTest.

(** ** net: IP addresses and the address classes the SSRF guard tests *)

Module Net.

(** A [net.IP] as [net.ParseIP] returns it: 16 bytes, an IPv4 address
    in its IPv4-mapped form [::ffff:a.b.c.d]. *)
Abbreviation IP := (list Z) (only parsing).

Definition v4 (a b c d : Z) : IP := repeat 0 10 ++ [0xff; 0xff; a; b; c; d].

Definition IPv4zero : IP := v4 0 0 0 0.
Definition IPv6unspecified : IP := repeat 0 16.
Definition IPv6loopback : IP := repeat 0 15 ++ [1].

Definition bytes_eqb (x y : list Z) : bool :=
  Nat.eqb (length x) (length y) && forallb (fun p => fst p =? snd p) (combine x y).

Definition v4InV6Prefix : list Z := repeat 0 10 ++ [0xff; 0xff].

(** [IP.Equal]: an IPv4 address and its IPv4-mapped form are equal. *)
Definition Equal (ip x : IP) : bool :=
  if Nat.eqb (length ip) (length x) then bytes_eqb ip x
  else if Nat.eqb (length ip) 4 && Nat.eqb (length x) 16
  then bytes_eqb (firstn 12 x) v4InV6Prefix && bytes_eqb ip (skipn 12 x)
  else if Nat.eqb (length ip) 16 && Nat.eqb (length x) 4
  then bytes_eqb (firstn 12 ip) v4InV6Prefix && bytes_eqb (skipn 12 ip) x
  else false.

Definition at_ (ip : IP) (i : nat) : Z := nth i ip 0.

(** [IP.To4]: the last four bytes of an IPv4-mapped address. *)
Definition To4 (ip : IP) : option (list Z) :=
  if Nat.eqb (length ip) 4 then Some ip
  else if Nat.eqb (length ip) 16 && forallb (Z.eqb 0) (firstn 10 ip)
          && (at_ ip 10 =? 0xff) && (at_ ip 11 =? 0xff)
       then Some (skipn 12 ip)
       else None.

Definition IsUnspecified (ip : IP) : bool :=
  Equal ip IPv4zero || Equal ip IPv6unspecified.

Definition IsLoopback (ip : IP) : bool :=
  match To4 ip with
  | Some ip4 => at_ ip4 0 =? 127
  | None => Equal ip IPv6loopback
  end.

Definition IsPrivate (ip : IP) : bool :=
  match To4 ip with
  | Some ip4 =>
      (at_ ip4 0 =? 10)
      || ((at_ ip4 0 =? 172) && (Z.land (at_ ip4 1) 0xf0 =? 16))
      || ((at_ ip4 0 =? 192) && (at_ ip4 1 =? 168))
  | None => Nat.eqb (length ip) 16 && (Z.land (at_ ip 0) 0xfe =? 0xfc)
  end.

Definition IsLinkLocalUnicast (ip : IP) : bool :=
  match To4 ip with
  | Some ip4 => (at_ ip4 0 =? 169) && (at_ ip4 1 =? 254)
  | None => Nat.eqb (length ip) 16 && (at_ ip 0 =? 0xfe) && (Z.land (at_ ip 1) 0xc0 =? 0x80)
  end.

Definition IsLinkLocalMulticast (ip : IP) : bool :=
  match To4 ip with
  | Some ip4 => (at_ ip4 0 =? 224) && (at_ ip4 1 =? 0) && (at_ ip4 2 =? 0)
  | None => Nat.eqb (length ip) 16 && (at_ ip 0 =? 0xff) && (Z.land (at_ ip 1) 0x0f =? 0x02)
  end.

(** *** Address literals ([net.ParseIP], after net/netip) *)

(** The pieces of [s] between occurrences of [sep]. *)
Fixpoint split (sep : ascii) (s : string) : list string :=
  match s with
  | EmptyString => [EmptyString]
  | String c s' =>
      if Ascii.eqb c sep then EmptyString :: split sep s'
      else match split sep s' with
           | [] => [String c EmptyString]
           | p :: ps => String c p :: ps
           end
  end.

Definition code (c : ascii) : Z := Z.of_N (N_of_ascii c).

Definition is_digit (c : ascii) : bool := (48 <=? code c) && (code c <=? 57).

Definition hex_val (c : ascii) : option Z :=
  let n := code c in
  if (48 <=? n) && (n <=? 57) then Some (n - 48)
  else if (97 <=? n) && (n <=? 102) then Some (n - 87)
  else if (65 <=? n) && (n <=? 70) then Some (n - 55)
  else None.

(** One decimal octet: digits only, no leading zero, at most 255. *)
Definition octet (f : string) : option Z :=
  let cs := list_ascii_of_string f in
  match cs with
  | [] => None
  | c :: rest =>
      if forallb is_digit cs
         && negb (Ascii.eqb c "0"%char && negb (Nat.eqb (length rest) 0))
         && Nat.leb (length cs) 3
      then let v := fold_left (fun acc d => acc * 10 + (code d - 48)) cs 0 in
           if v <=? 255 then Some v else None
      else None
  end.

Definition parseIPv4Fields (s : string) : option (list Z) :=
  match split "."%char s with
  | [a; b; c; d] =>
      match octet a, octet b, octet c, octet d with
      | Some a, Some b, Some c, Some d => Some [a; b; c; d]
      | _, _, _, _ => None
      end
  | _ => None
  end.

(** One group of one to four hexadecimal digits, as two bytes. *)
Definition group (g : string) : option (list Z) :=
  let cs := list_ascii_of_string g in
  if Nat.leb 1 (length cs) && Nat.leb (length cs) 4 then
    (fix go (cs : list ascii) (acc : Z) : option (list Z) :=
       match cs with
       | [] => Some [Z.shiftr acc 8; Z.land acc 0xff]
       | c :: cs' =>
           match hex_val c with
           | Some v => go cs' (Z.shiftl acc 4 + v)
           | None => None
           end
       end) cs 0
  else None.

(** Colon-separated groups; the last one may be a dotted quad. *)
Fixpoint groups (gs : list string) : option (list Z) :=
  match gs with
  | [] => Some []
  | [g] =>
      if Bytes.Contains g "." then parseIPv4Fields g else group g
  | g :: rest =>
      match group g, groups rest with
      | Some b, Some bs => Some (b ++ bs)
      | _, _ => None
      end
  end.

Definition groups_of (s : string) : option (list Z) :=
  if String.eqb s "" then Some [] else groups (split ":"%char s).

(** Cuts [s] at its first [::]. *)
Fixpoint cut_ellipsis (s : string) : option (string * string) :=
  match s with
  | String c1 ((String c2 rest) as s') =>
      if Ascii.eqb c1 ":" && Ascii.eqb c2 ":" then Some (EmptyString, rest)
      else match cut_ellipsis s' with
           | Some (l, r) => Some (String c1 l, r)
           | None => None
           end
  | _ => None
  end.

Definition parseIPv6 (s : string) : option IP :=
  match cut_ellipsis s with
  | None =>
      match groups_of s with
      | Some bs => if Nat.eqb (length bs) 16 then Some bs else None
      | None => None
      end
  | Some (l, r) =>
      match groups_of l, groups_of r with
      | Some lb, Some rb =>
          if Bytes.Contains l "." then None
          else if Nat.ltb (length lb + length rb) 16
          then Some (lb ++ repeat 0 (16 - (length lb + length rb)) ++ rb)
          else None
      | _, _ => None
      end
  end.

(** The first of [.], [:] and [%] in the text picks the syntax; a zone
    is never accepted. *)
Fixpoint first_mark (s : string) : option ascii :=
  match s with
  | EmptyString => None
  | String c s' =>
      if Ascii.eqb c "." || Ascii.eqb c ":" || Ascii.eqb c "%" then Some c
      else first_mark s'
  end.

Definition ParseIP (s : string) : option IP :=
  match first_mark s with
  | Some "."%char =>
      match parseIPv4Fields s with
      | Some [a; b; c; d] => Some (v4 a b c d)
      | _ => None
      end
  | Some ":"%char => if Bytes.Contains s "%" then None else parseIPv6 s
  | _ => None
  end.

End Net.

(** ** SSRF guard: [validateWebhookURL] and [SSRFSafeDialer] *)

Module Ssrf.

(** What the handlers read off a parsed [url.URL]: the scheme and
    [URL.Hostname()], the host without port and without the brackets of
    an IPv6 literal. *)
Record URL := { Scheme : string; Hostname : string }.

(** The library and resolver calls of the two functions. DNS answers
    belong to the environment; the parsers are Go's. [url_Parse],
    [net_SplitHostPort] and [LookupHost] give their result or the text
    of their error. *)
Class NetLib := {
  url_Parse : string -> URL + string;
  net_ParseIP : string -> option Net.IP;
  net_SplitHostPort : string -> (string * string) + string;
  LookupHost : string -> list string + string;
  Map_unicode_ToLower : string -> string;
}.

(** [strings.ToLower]. A string of ASCII bytes is returned as it is
    when it has no upper-case letter and lowered byte by byte
    otherwise; any other string goes through
    [strings.Map(unicode.ToLower, s)], which decodes UTF-8 and reads
    the library's case tables. *)
Definition ToLower `{NetLib} (s : string) : string :=
  if Bytes.isASCII s
  then if Bytes.hasUpper s then Bytes.lowerASCII s else s
  else Map_unicode_ToLower s.

(** [net.JoinHostPort]. *)
Definition JoinHostPort (host port : string) : string :=
  if Bytes.Contains host ":" || Bytes.Contains host "%"
  then "[" +:+ host +:+ "]:" +:+ port
  else host +:+ ":" +:+ port.

(** A Go [error]: [None] is [nil]. *)
Definition error := option string.

(** The address test both functions apply to a parsed IP. *)
Definition internalIP (ip : Net.IP) : bool :=
  Net.IsLoopback ip || Net.IsPrivate ip || Net.IsLinkLocalUnicast ip ||
  Net.IsLinkLocalMulticast ip || Net.IsUnspecified ip.

Definition validateWebhookURL `{NetLib} (rawURL : string) (allowInternal : bool) : error :=
  match url_Parse rawURL with
  | inr err => Some ("invalid URL: " +:+ err)
  | inl u =>
      if negb (String.eqb (Scheme u) "https") && negb (String.eqb (Scheme u) "http")
      then Some "URL scheme must be http or https"
      else
        let hostname := Hostname u in
        if String.eqb hostname "" then Some "URL must have a hostname"
        else if negb allowInternal then
          let lower := ToLower hostname in
          if String.eqb lower "localhost" || String.eqb lower "0.0.0.0"
             || Bytes.HasSuffix lower ".local" || Bytes.HasSuffix lower ".internal"
          then Some "URL must not point to internal addresses"
          else
            match net_ParseIP hostname with
            | Some ip =>
                if internalIP ip then Some "URL must not point to internal addresses"
                else None
            | None => None
            end
        else None
  end.

(** The hostnames the submit-time check refuses when internal targets
    are not allowed. *)
Definition internal_host `{NetLib} (hostname : string) : Prop :=
  ToLower hostname = "localhost"
  \/ ToLower hostname = "0.0.0.0"
  \/ Bytes.HasSuffix (ToLower hostname) ".local" = true
  \/ Bytes.HasSuffix (ToLower hostname) ".internal" = true
  \/ exists ip, net_ParseIP hostname = Some ip /\ internalIP ip = true.

(** What a dial function does with a connection request: hand it to
    [net.Dialer.DialContext] for some address, return an error without
    dialling, or index an empty slice. *)
Inductive dial_result :=
| Dial (network addr : string)
| DialError (msg : string)
| DialPanic.

(** The first resolved address that parses and is internal. *)
Definition first_internal `{NetLib} (ips : list string) : option string :=
  List.find (fun ipStr =>
               match net_ParseIP ipStr with
               | Some ip => internalIP ip
               | None => false
               end) ips.

Definition SSRFSafeDialer `{NetLib} (allowInternal : bool) (network addr : string) : dial_result :=
  if allowInternal then Dial network addr
  else
    match net_SplitHostPort addr with
    | inr err => DialError err
    | inl (host, port) =>
        match LookupHost host with
        | inr err => DialError err
        | inl ips =>
            match first_internal ips with
            | Some ipStr =>
                DialError ("connection to private address " +:+ ipStr +:+ " is not allowed")
            | None =>
                match ips with
                | ip0 :: _ => Dial network (JoinHostPort ip0 port)
                | [] => DialPanic
                end
            end
        end
    end.

(** *** A small resolver for examples

    URLs with or without a scheme and an authority, host:port pairs,
    and a table of DNS records. *)

Fixpoint cut_at (sep : string) (s : string) : option (string * string) :=
  if Bytes.HasPrefix s sep then Some (EmptyString, Bytes.drop (String.length sep) s)
  else match s with
       | EmptyString => None
       | String c s' =>
           match cut_at sep s' with
           | Some (l, r) => Some (String c l, r)
           | None => None
           end
       end.

Definition until_any (stops : list ascii) (s : string) : string :=
  (fix go (s : string) : string :=
     match s with
     | EmptyString => EmptyString
     | String c s' => if existsb (Ascii.eqb c) stops then EmptyString else String c (go s')
     end) s.

(** The zone of a bracketed IPv6 literal is written [%25zone] in a URL
    and kept as [%zone] in the host. *)
Definition unescape_zone (host : string) : string :=
  match cut_at "%25" host with
  | Some (l, r) => l +:+ "%" +:+ r
  | None => host
  end.

Definition strip_port (host : string) : string :=
  if Bytes.HasPrefix host "[" then
    match cut_at "]" (Bytes.drop 1 host) with
    | Some (inner, _) => unescape_zone inner
    | None => host
    end
  else
    match Net.split ":"%char host with
    | [h; _] => h
    | _ => host
    end.

Definition is_letter (c : ascii) : bool :=
  let n := N_of_ascii c in
  (((65 <=? n) && (n <=? 90)) || ((97 <=? n) && (n <=? 122)))%N.

(** [getScheme]: the position of the colon that ends a scheme of
    letters, digits, [+], [-] and [.], the first of them a letter. *)
Fixpoint scheme_end (i : nat) (s : string) : option nat :=
  match s with
  | EmptyString => None
  | String c s' =>
      if is_letter c then scheme_end (S i) s'
      else if Net.is_digit c || existsb (Ascii.eqb c) ["+"; "-"; "."]%char
           then if Nat.eqb i 0 then None else scheme_end (S i) s'
           else if Ascii.eqb c ":" then Some i else None
  end.

(** The part of an authority after its user information, which ends
    at the last [@]. *)
Fixpoint after_last_at (s : string) : option string :=
  match s with
  | EmptyString => None
  | String c s' =>
      match after_last_at s' with
      | Some rest => Some rest
      | None => if Ascii.eqb c "@" then Some s' else None
      end
  end.

Definition after_userinfo (authority : string) : string :=
  match after_last_at authority with
  | Some rest => rest
  | None => authority
  end.

(** [url.Error.Error()] for a failed parse. *)
Definition parse_error (raw msg : string) : string :=
  "parse " +:+ String (ascii_of_nat 34) raw +:+ String (ascii_of_nat 34) "" +:+ ": " +:+ msg.

(** The scheme in lower case and the host of the authority, empty
    when the URL has no [//authority]. A URL that starts with a colon
    does not parse, nor does one without a scheme whose first path
    segment holds a colon. *)
Definition simple_Parse (raw : string) : URL + string :=
  let u := until_any ["#"]%char raw in
  match scheme_end 0 u with
  | Some O => inr (parse_error raw "missing protocol scheme")
  | found =>
      let scheme := match found with Some i => Bytes.take i u | None => "" end in
      let rest := match found with Some i => Bytes.drop (S i) u | None => u end in
      let rest := until_any ["?"]%char rest in
      if Bytes.HasPrefix rest "//"
      then
        let authority := until_any ["/"]%char (Bytes.drop 2 rest) in
        inl {| Scheme := Bytes.lowerASCII scheme;
               Hostname := strip_port (after_userinfo authority) |}
      else if String.eqb scheme "" && negb (Bytes.HasPrefix rest "/")
              && Bytes.Contains (until_any ["/"]%char rest) ":"
      then inr (parse_error raw "first path segment in URL cannot contain colon")
      else inl {| Scheme := Bytes.lowerASCII scheme; Hostname := "" |}
  end.

Definition simple_SplitHostPort (addr : string) : (string * string) + string :=
  if Bytes.HasPrefix addr "[" then
    match cut_at "]:" (Bytes.drop 1 addr) with
    | Some (h, p) => inl (h, p)
    | None => inr ("address " +:+ addr +:+ ": missing port in address")
    end
  else
    match Net.split ":"%char addr with
    | [h; p] => inl (h, p)
    | [_] => inr ("address " +:+ addr +:+ ": missing port in address")
    | _ => inr ("address " +:+ addr +:+ ": too many colons in address")
    end.

(** An IPv6 literal without its zone. *)
Definition without_zone (host : string) : string :=
  if Bytes.Contains host ":" then
    match cut_at "%" host with
    | Some (l, _) => l
    | None => host
    end
  else host.

(** The resolver answers an address literal, with or without a zone,
    with the literal itself, and a name from the table. *)
Definition table_Lookup (records : list (string * list string)) (host : string)
  : list string + string :=
  match Net.ParseIP (without_zone host) with
  | Some _ => inl [host]
  | None =>
      match List.find (fun r => String.eqb (fst r) host) records with
      | Some r => inl (snd r)
      | None => inr ("lookup " +:+ host +:+ ": no such host")
      end
  end.

(** A stand-in for the case tables: the two letters outside ASCII
    whose lower case is an ASCII letter, U+0130 (bytes C4 B0, lower
    case [i]) and U+212A (bytes E2 84 AA, lower case [k]), and the
    ASCII letters; every other byte is kept. *)
Fixpoint fold_lower (s : string) : string :=
  match s with
  | String c1 ((String c2 s2) as s1) =>
      if Ascii.eqb c1 (ascii_of_nat 196) && Ascii.eqb c2 (ascii_of_nat 176)
      then String "i"%char (fold_lower s2)
      else
        match s2 with
        | String c3 s3 =>
            if Ascii.eqb c1 (ascii_of_nat 226) && Ascii.eqb c2 (ascii_of_nat 132)
               && Ascii.eqb c3 (ascii_of_nat 170)
            then String "k"%char (fold_lower s3)
            else String (Bytes.lower_ascii c1) (fold_lower s1)
        | EmptyString => String (Bytes.lower_ascii c1) (fold_lower s1)
        end
  | String c1 EmptyString => String (Bytes.lower_ascii c1) EmptyString
  | EmptyString => EmptyString
  end.

Definition example_net (records : list (string * list string)) : NetLib :=
  {| url_Parse := simple_Parse;
     net_ParseIP := Net.ParseIP;
     net_SplitHostPort := simple_SplitHostPort;
     LookupHost := table_Lookup records;
     Map_unicode_ToLower := fold_lower |}.

End Ssrf.

(** ** Values shared by the handlers *)

Module GoInt.

(** Go's 64-bit [int]: sums wrap around. *)
Definition wrap (x : Z) : Z := (x + 2 ^ 63) mod 2 ^ 64 - 2 ^ 63.
Definition add (a b : Z) : Z := wrap (a + b).

End GoInt.

Module Time.

(** [time.Duration] constants, in nanoseconds. *)
Definition Second : Z := 1000000000.
Definition Minute : Z := 60 * Second.
Definition Hour : Z := 60 * Minute.

End Time.

Module Json.

(** A decoded JSON document ([interface{}] after [json.Unmarshal]);
    the fields of an object in the order a [range] visits them. *)
#[warnings="-register-all"]
Inductive value :=
| Null
| Bool (b : bool)
| Num (n : Z)
| Str (s : string)
| Arr (items : list value)
| Obj (fields : list (string * value)).

End Json.

(** [models.JSONB], a [map[string]interface{}]. *)
Abbreviation JSONB := (list (string * Json.value)) (only parsing).

(** A [uuid.UUID] in its textual form. *)
Abbreviation UUID := string (only parsing).

Module Webhook.

Record t := {
  ID : UUID;
  OrganizationID : UUID;
  Name : string;
  URL : string;
  Events : list string;
  Headers : JSONB;
  Secret : string;
  IsActive : bool;
}.

End Webhook.

Module WebhookDelivery.

Record t := {
  ID : UUID;
  OrganizationID : UUID;
  WebhookID : UUID;
  Event : string;
  URL : string;
  Headers : JSONB;
  Secret : string;
  Payload : Json.value;
  Status : string;
  Attempts : Z;
  MaxAttempts : Z;
  NextAttemptAt : Z;
  LastError : string;
  LastStatusCode : Z;
  ProcessingStartedAt : option Z;
  DeliveredAt : option Z;
}.

(** Column assignments of a GORM [Updates] map. *)
Definition set_Status (v : string) (d : t) : t :=
  Build_t (ID d) (OrganizationID d) (WebhookID d) (Event d) (URL d) (Headers d) (Secret d)
    (Payload d) v (Attempts d) (MaxAttempts d) (NextAttemptAt d) (LastError d)
    (LastStatusCode d) (ProcessingStartedAt d) (DeliveredAt d).
Definition set_Attempts (v : Z) (d : t) : t :=
  Build_t (ID d) (OrganizationID d) (WebhookID d) (Event d) (URL d) (Headers d) (Secret d)
    (Payload d) (Status d) v (MaxAttempts d) (NextAttemptAt d) (LastError d)
    (LastStatusCode d) (ProcessingStartedAt d) (DeliveredAt d).
Definition set_NextAttemptAt (v : Z) (d : t) : t :=
  Build_t (ID d) (OrganizationID d) (WebhookID d) (Event d) (URL d) (Headers d) (Secret d)
    (Payload d) (Status d) (Attempts d) (MaxAttempts d) v (LastError d)
    (LastStatusCode d) (ProcessingStartedAt d) (DeliveredAt d).
Definition set_LastError (v : string) (d : t) : t :=
  Build_t (ID d) (OrganizationID d) (WebhookID d) (Event d) (URL d) (Headers d) (Secret d)
    (Payload d) (Status d) (Attempts d) (MaxAttempts d) (NextAttemptAt d) v
    (LastStatusCode d) (ProcessingStartedAt d) (DeliveredAt d).
Definition set_LastStatusCode (v : Z) (d : t) : t :=
  Build_t (ID d) (OrganizationID d) (WebhookID d) (Event d) (URL d) (Headers d) (Secret d)
    (Payload d) (Status d) (Attempts d) (MaxAttempts d) (NextAttemptAt d) (LastError d)
    v (ProcessingStartedAt d) (DeliveredAt d).
Definition set_ProcessingStartedAt (v : option Z) (d : t) : t :=
  Build_t (ID d) (OrganizationID d) (WebhookID d) (Event d) (URL d) (Headers d) (Secret d)
    (Payload d) (Status d) (Attempts d) (MaxAttempts d) (NextAttemptAt d) (LastError d)
    (LastStatusCode d) v (DeliveredAt d).
Definition set_DeliveredAt (v : option Z) (d : t) : t :=
  Build_t (ID d) (OrganizationID d) (WebhookID d) (Event d) (URL d) (Headers d) (Secret d)
    (Payload d) (Status d) (Attempts d) (MaxAttempts d) (NextAttemptAt d) (LastError d)
    (LastStatusCode d) (ProcessingStartedAt d) v.

End WebhookDelivery.

(** The two tables of the outbox, keyed by primary key. Statements on the
    store are taken to succeed: a failed statement is only logged by the
    handlers and leaves the tables as they were. *)
Record DB := {
  webhooks : gmap UUID Webhook.t;
  webhook_deliveries : gmap UUID WebhookDelivery.t;
}.

Definition with_deliveries (db : DB) (ds : gmap UUID WebhookDelivery.t) : DB :=
  {| webhooks := webhooks db; webhook_deliveries := ds |}.

Definition with_webhooks (db : DB) (ws : gmap UUID Webhook.t) : DB :=
  {| webhooks := ws; webhook_deliveries := webhook_deliveries db |}.

(** ** net/http requests *)

Module Http.

(** [validHeaderFieldByte]: the token characters of RFC 7230. *)
Definition validHeaderFieldByte (c : ascii) : bool :=
  let n := Net.code c in
  ((48 <=? n) && (n <=? 57)) || ((65 <=? n) && (n <=? 90)) || ((97 <=? n) && (n <=? 122))
  || existsb (Ascii.eqb c)
       (list_ascii_of_string "!#$%&'*+-.^_`|~").

Definition upper_ascii (c : ascii) : ascii :=
  let n := N_of_ascii c in
  if ((97 <=? n) && (n <=? 122))%N then ascii_of_N (n - 32) else c.

Fixpoint canon (upper : bool) (s : string) : string :=
  match s with
  | EmptyString => EmptyString
  | String c s' =>
      let c' := if upper then upper_ascii c else Bytes.lower_ascii c in
      String c' (canon (Ascii.eqb c' "-") s')
  end.

(** [textproto.CanonicalMIMEHeaderKey]: a key with a byte outside the
    token characters is kept as it is. *)
Definition CanonicalMIMEHeaderKey (s : string) : string :=
  if forallb validHeaderFieldByte (list_ascii_of_string s) then canon true s else s.

(** [http.Header] with one value per key, as [Header.Set] leaves it. *)
Abbreviation Header := (gmap string string) (only parsing).

Definition Set_ (h : Header) (key value : string) : Header :=
  <[CanonicalMIMEHeaderKey key := value]> h.

Definition Get (h : Header) (key : string) : option string :=
  h !! CanonicalMIMEHeaderKey key.

Record Request := {
  Method : string;
  URL : string;
  Head : Header;
  Body : string;
}.

(** The outcome of [Client.Do]: a transport error (DNS, connect, TLS,
    timeout, refused dial) or a response with its status code. *)
Inductive result :=
| TransportError (msg : string)
| Response (StatusCode : Z).

End Http.

(** ** The webhook delivery outbox *)

Module Outbox.

Import WebhookDelivery.

Definition webhookStatusPending : string := "pending".
Definition webhookStatusInProgress : string := "in_progress".
Definition webhookStatusDelivered : string := "delivered".
Definition webhookStatusFailed : string := "failed".

Definition webhookRetrySchedule : list Z :=
  [ Time.Minute; 5 * Time.Minute; 15 * Time.Minute;
    Time.Hour; 6 * Time.Hour; 24 * Time.Hour ].

(** A Go [error] of the sender: a [*WebhookError] carrying the status
    code, or any other error with its message. *)
Inductive error :=
| WebhookError (StatusCode : Z)
| OtherError (msg : string).

(** The calls that leave the process or depend on the encoder. *)
Class Runtime := {
  json_Marshal : Json.value -> string + string;
  time_Format : Z -> string;
  http_NewRequest : string -> option string;
  http_Do : Http.Request -> Http.result;
  http_StatusText : Z -> string;
}.

Definition Error `{Runtime} (e : error) : string :=
  match e with
  | WebhookError code => "webhook returned non-2xx status: " +:+ http_StatusText code
  | OtherError msg => msg
  end.

(** [OutboundWebhookPayload] as [json.Marshal] lays it out. *)
Record OutboundWebhookPayload := {
  DeliveryID : string;
  PEvent : string;
  Timestamp : Z;
  Data : Json.value;
}.

Definition envelope `{Runtime} (p : OutboundWebhookPayload) : Json.value :=
  Json.Obj [ ("delivery_id", Json.Str (DeliveryID p));
             ("event", Json.Str (PEvent p));
             ("timestamp", Json.Str (time_Format (Timestamp p)));
             ("data", Data p) ].

Definition containsEvent (events : list string) (event : string) : bool :=
  existsb (fun e => String.eqb e event) events.

(** The custom headers of the webhook: entries whose value is a string
    are set, in the order the [range] visits them. *)
Fixpoint set_custom (h : Http.Header) (headers : JSONB) : Http.Header :=
  match headers with
  | [] => h
  | (key, Json.Str strValue) :: rest => set_custom (Http.Set_ h key strValue) rest
  | (_, _) :: rest => set_custom h rest
  end.

(** The request [sendWebhookRequest] hands to the HTTP client. *)
Definition buildWebhookRequest (url : string) (headers : JSONB) (secret : string)
           (jsonData : string) : Http.Request :=
  let h0 := Http.Set_ (Http.Set_ ∅ "Content-Type" "application/json")
                      "User-Agent" "Whatomate-Webhook/1.0" in
  let h1 := set_custom h0 headers in
  let h2 := if negb (String.eqb secret "")
            then Http.Set_ h1 "X-Webhook-Signature"
                           (Signature.computeHMACSignature jsonData secret)
            else h1 in
  {| Http.Method := "POST"; Http.URL := url; Http.Head := h2; Http.Body := jsonData |}.

Definition sendWebhookRequest `{Runtime} (url : string) (headers : JSONB) (secret : string)
           (jsonData : string) : option error :=
  match http_NewRequest url with
  | Some msg => Some (OtherError msg)
  | None =>
      match http_Do (buildWebhookRequest url headers secret jsonData) with
      | Http.TransportError msg => Some (OtherError msg)
      | Http.Response code =>
          if (code <? 200) || (code >=? 300) then Some (WebhookError code) else None
      end
  end.

Definition nextWebhookAttemptDelay (attempt : Z) : Z :=
  if attempt <=? 0 then nth 0 webhookRetrySchedule 0
  else
    let idx := attempt - 1 in
    if idx >=? Z.of_nat (length webhookRetrySchedule)
    then nth (length webhookRetrySchedule - 1) webhookRetrySchedule 0
    else nth (Z.to_nat idx) webhookRetrySchedule 0.

(** [Model(...).Where("id = ?", id).Updates(...)]. *)
Definition update_delivery (db : DB) (id : UUID) (f : WebhookDelivery.t -> WebhookDelivery.t) : DB :=
  with_deliveries db (alter f id (webhook_deliveries db)).

(** The [updates] map of [failWebhookDelivery], as a change of the row. *)
Definition fail_updates (now : Z) (delivery : WebhookDelivery.t)
           (statusCode : Z) (errMsg : string) (row : WebhookDelivery.t) : WebhookDelivery.t :=
  let attempts := GoInt.add (Attempts delivery) 1 in
  let maxAttempts :=
    if MaxAttempts delivery <=? 0 then Z.of_nat (length webhookRetrySchedule)
    else MaxAttempts delivery in
  let nextAttempt := now + nextWebhookAttemptDelay attempts in
  let status := if attempts >=? maxAttempts then webhookStatusFailed else webhookStatusPending in
  let row := set_ProcessingStartedAt None
               (set_LastStatusCode statusCode
                  (set_LastError errMsg
                     (set_Attempts attempts (set_Status status row)))) in
  if String.eqb status webhookStatusPending then set_NextAttemptAt nextAttempt row
  else row.

Definition failWebhookDelivery (db : DB) (now : Z) (delivery : WebhookDelivery.t)
           (statusCode : Z) (errMsg : string) : DB :=
  update_delivery db (ID delivery) (fail_updates now delivery statusCode errMsg).

(** The [updates] map of a successful delivery. *)
Definition delivered_updates (now : Z) (row : WebhookDelivery.t) : WebhookDelivery.t :=
  set_LastStatusCode 0
    (set_LastError ""
       (set_ProcessingStartedAt None
          (set_DeliveredAt (Some now) (set_Status webhookStatusDelivered row)))).

Definition processWebhookDelivery `{Runtime} (db : DB) (now : Z) (delivery : WebhookDelivery.t) : DB :=
  let delivery :=
    match webhook_deliveries db !! ID delivery with
    | Some fresh => fresh
    | None => delivery
    end in
  match json_Marshal (Payload delivery) with
  | inr msg => failWebhookDelivery db now delivery 0 ("failed to marshal payload: " +:+ msg)
  | inl jsonData =>
      match sendWebhookRequest (URL delivery) (Headers delivery) (Secret delivery) jsonData with
      | None =>
          update_delivery db (ID delivery) (delivered_updates now)
      | Some err =>
          let statusCode := match err with WebhookError code => code | OtherError _ => 0 end in
          failWebhookDelivery db now delivery statusCode (Error err)
      end
  end.

(** The request the delivery attempt sends, when it gets that far. *)
Definition delivery_request `{Runtime} (db : DB) (delivery : WebhookDelivery.t)
  : option Http.Request :=
  let delivery :=
    match webhook_deliveries db !! ID delivery with
    | Some fresh => fresh
    | None => delivery
    end in
  match json_Marshal (Payload delivery) with
  | inr _ => None
  | inl jsonData =>
      match http_NewRequest (URL delivery) with
      | Some _ => None
      | None => Some (buildWebhookRequest (URL delivery) (Headers delivery) (Secret delivery) jsonData)
      end
  end.

(** The [WHERE] clause of the processor's claim query. *)
Definition claimable (now : Z) (d : WebhookDelivery.t) : bool :=
  let staleCutoff := now - 15 * Time.Minute in
  (String.eqb (Status d) webhookStatusPending && (NextAttemptAt d <=? now))
  || (String.eqb (Status d) webhookStatusInProgress
      && match ProcessingStartedAt d with
         | Some t => t <=? staleCutoff
         | None => false
         end).

Definition mark_in_progress (now : Z) (row : WebhookDelivery.t) : WebhookDelivery.t :=
  set_ProcessingStartedAt (Some now) (set_Status webhookStatusInProgress row).

(** Some custom header with a string value has this canonical name. *)
Definition custom_header (headers : JSONB) (name : string) : Prop :=
  exists k v, (k, Json.Str v) ∈ headers /\ Http.CanonicalMIMEHeaderKey k = name.

(** The endpoint answered the delivery's request with a 2xx status. *)
Definition answered_2xx `{Runtime} (d : WebhookDelivery.t) : Prop :=
  exists jsonData code,
    json_Marshal (Payload d) = inl jsonData
    /\ http_NewRequest (URL d) = None
    /\ http_Do (buildWebhookRequest (URL d) (Headers d) (Secret d) jsonData) = Http.Response code
    /\ 200 <= code < 300.

(** The ceiling [failWebhookDelivery] compares the counter with. *)
Definition effective_max (d : WebhookDelivery.t) : Z :=
  if MaxAttempts d <=? 0 then 6 else MaxAttempts d.

(** Successive attempts on one delivery, at the given instants. *)
Definition attempts_at `{Runtime} (db : DB) (d : WebhookDelivery.t) (times : list Z) : DB :=
  fold_left (fun db t => processWebhookDelivery db t d) times db.

(** [http.StatusText] on the codes the examples use; the empty text
    for any other code, as for a code the library does not know. *)
Definition StatusText (code : Z) : string :=
  if code =? 400 then "Bad Request"
  else if code =? 401 then "Unauthorized"
  else if code =? 403 then "Forbidden"
  else if code =? 404 then "Not Found"
  else if code =? 500 then "Internal Server Error"
  else if code =? 502 then "Bad Gateway"
  else if code =? 503 then "Service Unavailable"
  else if code =? 504 then "Gateway Timeout"
  else "".

(** A runtime for examples: the payload always encodes, every URL is
    well formed and the endpoint answers as [respond] says. *)
Definition example_runtime (respond : Http.Request -> Http.result) : Runtime :=
  {| json_Marshal := fun _ => inl "{}";
     time_Format := fun _ => "2026-01-01T00:00:00Z";
     http_NewRequest := fun _ => None;
     http_Do := respond;
     http_StatusText := StatusText |}.

End Outbox.

(** ** Webhook CRUD handlers and the retry action *)

Module Handlers.

Import Outbox.

(** [WebhookRequest], the decoded request body. [Headers] is [None]
    for a body without the field (a nil map). *)
Record WebhookRequest := {
  Name : string;
  URL : string;
  Events : list string;
  Headers : option (list (string * string));
  Secret : string;
  IsActive : bool;
}.

(** What the helpers in front of each handler extracted from the HTTP
    request: the caller's organization ([getOrgID]), the [id] path
    parameter ([parsePathUUID]) and the decoded body ([decodeRequest]);
    [None] where the helper failed. *)
Record request := {
  org : option UUID;
  path_id : option UUID;
  body : option WebhookRequest;
}.

Record WebhookResponse := {
  RID : UUID;
  RName : string;
  RURL : string;
  REvents : list string;
  RHeaders : list (string * string);
  RIsActive : bool;
  HasSecret : bool;
  FailedCount : Z;
  RetryingCount : Z;
}.

Inductive payload :=
| WebhookPayload (w : WebhookResponse)
| RetryPayload (message : string) (count : Z)
| MessagePayload (message : string).

(** A handler answers with an envelope, with an error envelope, or
    returns after a helper has already written the error response. *)
Inductive response :=
| SendEnvelope (p : payload)
| SendErrorEnvelope (status : Z) (message : string)
| HelperReplied.

Definition StatusBadRequest : Z := 400.
Definition StatusUnauthorized : Z := 401.
Definition StatusInternalServerError : Z := 500.
Definition StatusNotFound : Z := 404.

Fixpoint string_headers (h : JSONB) : list (string * string) :=
  match h with
  | [] => []
  | (k, Json.Str v) :: rest => (k, v) :: string_headers rest
  | _ :: rest => string_headers rest
  end.

Definition webhookToResponse (wh : Webhook.t) (failedCount retryingCount : Z) : WebhookResponse :=
  {| RID := Webhook.ID wh;
     RName := Webhook.Name wh;
     RURL := Webhook.URL wh;
     REvents := Webhook.Events wh;
     RHeaders := string_headers (Webhook.Headers wh);
     RIsActive := Webhook.IsActive wh;
     HasSecret := negb (String.eqb (Webhook.Secret wh) "");
     FailedCount := failedCount;
     RetryingCount := retryingCount |}.

(** Modelled from the spec: [findByIDAndOrg], not among the sources.
    Every lookup is scoped to the caller's tenant; a row of another
    tenant is reported as not found. *)
Definition findByIDAndOrg (db : DB) (id orgID : UUID) : option Webhook.t :=
  match webhooks db !! id with
  | Some wh => if String.eqb (Webhook.OrganizationID wh) orgID then Some wh else None
  | None => None
  end.

(** Modelled from the spec: [generateVerifyToken], not among the
    sources; its caller describes it as the 32-byte hex generator. The
    random bytes are read from [entropy]. *)
Definition generateVerifyToken (entropy : nat -> Z) : string :=
  Hex.EncodeToString (map (fun i => entropy i mod 256) (seq 0 32)).

Definition to_JSONB (h : list (string * string)) : JSONB :=
  map (fun kv => (fst kv, Json.Str (snd kv))) h.

Section WithConfig.

Context `{Ssrf.NetLib}.
(** [Config.App.AllowInternalWebhookURLs]. *)
Variable AllowInternalWebhookURLs : bool.

(** [newID] is the primary key the store assigns to the new row and
    [entropy] the random source of the secret generator. *)
Definition CreateWebhook (db : DB) (newID : UUID) (entropy : nat -> Z) (r : request)
  : response * DB :=
  match org r with
  | None => (SendErrorEnvelope StatusUnauthorized "Unauthorized", db)
  | Some orgID =>
      match body r with
      | None => (HelperReplied, db)
      | Some req =>
          if String.eqb (Name req) "" || String.eqb (URL req) ""
          then (SendErrorEnvelope StatusBadRequest "name and url are required", db)
          else
            match Ssrf.validateWebhookURL (URL req) AllowInternalWebhookURLs with
            | Some msg => (SendErrorEnvelope StatusBadRequest msg, db)
            | None =>
                if Nat.eqb (length (Events req)) 0
                then (SendErrorEnvelope StatusBadRequest "at least one event must be selected", db)
                else
                  let headers := to_JSONB (default [] (Headers req)) in
                  let secret :=
                    if String.eqb (Secret req) "" then generateVerifyToken entropy
                    else Secret req in
                  let webhook :=
                    {| Webhook.ID := newID;
                       Webhook.OrganizationID := orgID;
                       Webhook.Name := Name req;
                       Webhook.URL := URL req;
                       Webhook.Events := Events req;
                       Webhook.Headers := headers;
                       Webhook.Secret := secret;
                       Webhook.IsActive := true |} in
                  match webhooks db !! newID with
                  | Some _ =>
                      (SendErrorEnvelope StatusInternalServerError "Failed to create webhook", db)
                  | None =>
                      (SendEnvelope (WebhookPayload (webhookToResponse webhook 0 0)),
                       with_webhooks db (<[newID := webhook]> (webhooks db)))
                  end
            end
      end
  end.

Definition UpdateWebhook (db : DB) (r : request) : response * DB :=
  match org r with
  | None => (SendErrorEnvelope StatusUnauthorized "Unauthorized", db)
  | Some orgID =>
      match path_id r with
      | None => (HelperReplied, db)
      | Some webhookID =>
          match findByIDAndOrg db webhookID orgID with
          | None => (HelperReplied, db)
          | Some webhook =>
              match body r with
              | None => (HelperReplied, db)
              | Some req =>
                  let name := if negb (String.eqb (Name req) "") then Name req
                              else Webhook.Name webhook in
                  let url_check :=
                    if negb (String.eqb (URL req) "")
                    then Ssrf.validateWebhookURL (URL req) AllowInternalWebhookURLs
                    else None in
                  match url_check with
                  | Some msg => (SendErrorEnvelope StatusBadRequest msg, db)
                  | None =>
                      let url := if negb (String.eqb (URL req) "") then URL req
                                 else Webhook.URL webhook in
                      let events := if Nat.ltb 0 (length (Events req)) then Events req
                                    else Webhook.Events webhook in
                      let headers := match Headers req with
                                     | Some h => to_JSONB h
                                     | None => Webhook.Headers webhook
                                     end in
                      let secret := if negb (String.eqb (Secret req) "") then Secret req
                                    else Webhook.Secret webhook in
                      let webhook' :=
                        {| Webhook.ID := Webhook.ID webhook;
                           Webhook.OrganizationID := Webhook.OrganizationID webhook;
                           Webhook.Name := name;
                           Webhook.URL := url;
                           Webhook.Events := events;
                           Webhook.Headers := headers;
                           Webhook.Secret := secret;
                           Webhook.IsActive := IsActive req |} in
                      (SendEnvelope (WebhookPayload (webhookToResponse webhook' 0 0)),
                       with_webhooks db (<[Webhook.ID webhook := webhook']> (webhooks db)))
                  end
              end
          end
      end
  end.

End WithConfig.

Definition DeleteWebhook (db : DB) (r : request) : response * DB :=
  match org r with
  | None => (SendErrorEnvelope StatusUnauthorized "Unauthorized", db)
  | Some orgID =>
      match path_id r with
      | None => (HelperReplied, db)
      | Some webhookID =>
          match findByIDAndOrg db webhookID orgID with
          | None => (SendErrorEnvelope StatusNotFound "Webhook not found", db)
          | Some _ =>
              (SendEnvelope (MessagePayload "Webhook deleted successfully"),
               with_webhooks db (delete webhookID (webhooks db)))
          end
      end
  end.

(** The [WHERE] clause of the retry action. *)
Definition retry_selects (orgID webhookID : UUID) (d : WebhookDelivery.t) : bool :=
  String.eqb (WebhookDelivery.OrganizationID d) orgID
  && String.eqb (WebhookDelivery.WebhookID d) webhookID
  && (String.eqb (WebhookDelivery.Status d) "failed"
      || ((String.eqb (WebhookDelivery.Status d) "pending"
           || String.eqb (WebhookDelivery.Status d) "in_progress")
          && negb (String.eqb (WebhookDelivery.LastError d) ""))).

(** Its [Updates] map. *)
Definition retry_reset (now : Z) (d : WebhookDelivery.t) : WebhookDelivery.t :=
  WebhookDelivery.set_LastStatusCode 0
    (WebhookDelivery.set_LastError ""
       (WebhookDelivery.set_ProcessingStartedAt None
          (WebhookDelivery.set_NextAttemptAt now
             (WebhookDelivery.set_Status "pending" d)))).

(** The request reaches the update and its [WHERE] clause takes the row. *)
Definition retry_applies (db : DB) (r : request) (d : WebhookDelivery.t) : Prop :=
  exists orgID webhookID wh,
    org r = Some orgID /\ path_id r = Some webhookID
    /\ findByIDAndOrg db webhookID orgID = Some wh
    /\ WebhookDelivery.OrganizationID d = orgID
    /\ WebhookDelivery.WebhookID d = webhookID
    /\ (WebhookDelivery.Status d = "failed"
        \/ ((WebhookDelivery.Status d = "pending" \/ WebhookDelivery.Status d = "in_progress")
            /\ WebhookDelivery.LastError d <> "")).

Definition RetryFailedWebhookDeliveries (db : DB) (now : Z) (r : request) : response * DB :=
  match org r with
  | None => (SendErrorEnvelope StatusUnauthorized "Unauthorized", db)
  | Some orgID =>
      match path_id r with
      | None => (HelperReplied, db)
      | Some webhookID =>
          match findByIDAndOrg db webhookID orgID with
          | None => (HelperReplied, db)
          | Some _ =>
              let hit := retry_selects orgID webhookID in
              let rows := webhook_deliveries db in
              (SendEnvelope
                 (RetryPayload "Retry scheduled"
                    (Z.of_nat (size (filter (fun kv => hit kv.2 = true) rows)))),
               with_deliveries db
                 ((fun d => if hit d then retry_reset now d else d) <$> rows))
          end
      end
  end.

End Handlers.

(** ** Enqueueing deliveries *)

Module Dispatch.

Import Outbox.

(** Modelled from the spec: [getWebhooksCached], not among the sources.
    The enabled webhooks of the tenant; the cache in front of the table
    is dropped on every create, update and delete, so the table itself
    is read. *)
Definition getWebhooksCached (db : DB) (orgID : UUID) : list Webhook.t :=
  List.filter (fun w => String.eqb (Webhook.OrganizationID w) orgID && Webhook.IsActive w)
              (map snd (map_to_list (webhooks db))).

(** The row [enqueueWebhookDeliveries] creates for one webhook. The
    envelope is encoded and decoded again into a generic map; the
    decoded document is kept. [stamped] and [due] are the two readings
    of the clock, for the envelope and for [NextAttemptAt]. *)
Definition newDelivery `{Runtime} (orgID : UUID) (webhook : Webhook.t) (deliveryID : UUID)
           (stamped due : Z) (eventType : string) (data : Json.value) : WebhookDelivery.t :=
  {| WebhookDelivery.ID := deliveryID;
     WebhookDelivery.OrganizationID := orgID;
     WebhookDelivery.WebhookID := Webhook.ID webhook;
     WebhookDelivery.Event := eventType;
     WebhookDelivery.URL := Webhook.URL webhook;
     WebhookDelivery.Headers := Webhook.Headers webhook;
     WebhookDelivery.Secret := Webhook.Secret webhook;
     WebhookDelivery.Payload :=
       envelope {| DeliveryID := deliveryID; PEvent := eventType;
                   Timestamp := stamped; Data := data |};
     WebhookDelivery.Status := "pending";
     WebhookDelivery.Attempts := 0;
     WebhookDelivery.MaxAttempts := 6;
     WebhookDelivery.NextAttemptAt := due;
     WebhookDelivery.LastError := "";
     WebhookDelivery.LastStatusCode := 0;
     WebhookDelivery.ProcessingStartedAt := None;
     WebhookDelivery.DeliveredAt := None |}.

(** What the surroundings answer during one turn of the loop, for a
    webhook that subscribes to the event: whether the context is
    cancelled by then, the identifier [uuid.New] hands out, the three
    readings of the clock, and whether decoding the envelope, the
    insert and the update fail. *)
Record Turn := {
  ctx_Err : bool;
  uuid_New : UUID;
  stamped : Z;
  unmarshal_err : bool;
  due : Z;
  create_err : bool;
  startedAt : Z;
  update_err : bool;
}.

(** [a.DB.Create(&delivery)]: the insert fails when the surroundings
    say so, and on a primary key that is taken. *)
Definition Create (fails : bool) (db : DB) (delivery : WebhookDelivery.t) : option DB :=
  match webhook_deliveries db !! WebhookDelivery.ID delivery with
  | Some _ => None
  | None =>
      if fails then None
      else Some (with_deliveries db (<[WebhookDelivery.ID delivery := delivery]>
                                       (webhook_deliveries db)))
  end.

(** The loop over the tenant's webhooks. [turns] are the answers of
    the surroundings and [n] the number of turns taken so far; the
    result carries the rows given to the delivery goroutines. A webhook
    that does not subscribe is passed over; a cancelled context ends
    the loop; a failed encoding, decoding or insert leaves nothing
    behind; a failed update leaves the inserted row pending and starts
    no goroutine. *)
Fixpoint enqueue_each `{Runtime} (db : DB) (orgID : UUID) (eventType : string)
         (data : Json.value) (whs : list Webhook.t) (turns : nat -> Turn) (n : nat)
  : DB * list WebhookDelivery.t :=
  match whs with
  | [] => (db, [])
  | webhook :: rest =>
      if negb (containsEvent (Webhook.Events webhook) eventType)
      then enqueue_each db orgID eventType data rest turns n
      else
        let t := turns n in
        if ctx_Err t then (db, [])
        else
          let deliveryID := uuid_New t in
          let delivery :=
            newDelivery orgID webhook deliveryID (stamped t) (due t) eventType data in
          match json_Marshal (WebhookDelivery.Payload delivery) with
          | inr _ => enqueue_each db orgID eventType data rest turns (S n)
          | inl _ =>
              if unmarshal_err t
              then enqueue_each db orgID eventType data rest turns (S n)
              else
                match Create (create_err t) db delivery with
                | None => enqueue_each db orgID eventType data rest turns (S n)
                | Some db1 =>
                    if update_err t
                    then enqueue_each db1 orgID eventType data rest turns (S n)
                    else
                      let db2 :=
                        update_delivery db1 (WebhookDelivery.ID delivery)
                                        (mark_in_progress (startedAt t)) in
                      let started := mark_in_progress (startedAt t) delivery in
                      let '(db3, spawned) :=
                        enqueue_each db2 orgID eventType data rest turns (S n) in
                      (db3, started :: spawned)
                end
          end
  end.

(** [cache_err] says that [getWebhooksCached] returned an error, in
    which case nothing is enqueued. *)
Definition enqueueWebhookDeliveries `{Runtime} (db : DB) (orgID : UUID) (eventType : string)
           (data : Json.value) (cache_err : bool) (turns : nat -> Turn)
  : DB * list WebhookDelivery.t :=
  if cache_err then (db, [])
  else enqueue_each db orgID eventType data (getWebhooksCached db orgID) turns 0.



(** The store as the handlers and the outbox can make it, from an empty
    one: webhooks change through the CRUD handlers only, deliveries are
    enqueued from webhooks, attempted, and reset by the retry action. *)
Inductive reachable `{Runtime} `{Ssrf.NetLib} (allowInternal : bool) : DB -> Prop :=
| reach_empty :
    reachable allowInternal {| webhooks := ∅; webhook_deliveries := ∅ |}
| reach_create db newID entropy r :
    reachable allowInternal db ->
    reachable allowInternal (Handlers.CreateWebhook allowInternal db newID entropy r).2
| reach_update db r :
    reachable allowInternal db ->
    reachable allowInternal (Handlers.UpdateWebhook allowInternal db r).2
| reach_delete db r :
    reachable allowInternal db ->
    reachable allowInternal (Handlers.DeleteWebhook db r).2
| reach_retry db now r :
    reachable allowInternal db ->
    reachable allowInternal (Handlers.RetryFailedWebhookDeliveries db now r).2
| reach_enqueue db orgID eventType data cache_err turns :
    reachable allowInternal db ->
    reachable allowInternal
              (enqueueWebhookDeliveries db orgID eventType data cache_err turns).1
| reach_claim db now id :
    reachable allowInternal db ->
    reachable allowInternal (update_delivery db id (mark_in_progress now))
| reach_process db now id d :
    reachable allowInternal db ->
    webhook_deliveries db !! id = Some d ->
    reachable allowInternal (processWebhookDelivery db now d).

End Dispatch.

(** ** Sample data for the examples *)

Module Examples.

(** An endpoint that answers every request with the same status. *)
Definition always (code : Z) : Outbox.Runtime :=
  Outbox.example_runtime (fun _ => Http.Response code).

Definition hook : Webhook.t :=
  {| Webhook.ID := "w1";
     Webhook.OrganizationID := "org1";
     Webhook.Name := "orders";
     Webhook.URL := "https://hooks.example.com/in";
     Webhook.Events := ["message.incoming"];
     Webhook.Headers := [];
     Webhook.Secret := "s3cret";
     Webhook.IsActive := true |}.

(** The row the enqueue step creates for [hook] at instant 0. *)
Definition delivery : WebhookDelivery.t :=
  @Dispatch.newDelivery (always 500) "org1" hook "d1" 0 0 "message.incoming" Json.Null.

Definition store (d : WebhookDelivery.t) : DB :=
  {| webhooks := {[ "w1" := hook ]};
     webhook_deliveries := {[ WebhookDelivery.ID d := d ]} |}.

(** The instants at which the row falls due when every attempt fails
    and the processor claims it at once. *)
(** A caller of tenant [org1] addressing [hook]. *)
Definition on_hook : Handlers.request :=
  {| Handlers.org := Some "org1"; Handlers.path_id := Some "w1"; Handlers.body := None |}.

Definition due_times : list Z :=
  [ 0; Time.Minute; 6 * Time.Minute; 21 * Time.Minute;
    Time.Hour + 21 * Time.Minute; 7 * Time.Hour + 21 * Time.Minute ].

End Examples.

(** ** WebSocket upgrade *)

Module WS.

Definition uuid_Nil : UUID := "00000000-0000-0000-0000-000000000000".

(** [middleware.JWTClaims], the two identifiers the handler reads. *)
Record JWTClaims := { UserID : UUID; OrganizationID : UUID }.

Record Token := { Valid : bool; Claims : JWTClaims }.

(** [jwt.ParseWithClaims] under a key: the token and the error. The
    library returns a nil error only together with a token it has
    verified and marked valid. *)
Class JwtLib := {
  ParseWithClaims : string -> string -> Token * option string;
  parse_nil_valid :
    forall tokenString secret token,
      ParseWithClaims tokenString secret = (token, None) -> Valid token = true;
}.

Definition validateWSToken `{JwtLib} (secret : string) (tokenString : string)
  : UUID * UUID * option string :=
  let '(token, err) := ParseWithClaims tokenString secret in
  if bool_decide (err <> None) || negb (Valid token)
  then (uuid_Nil, uuid_Nil, err)
  else (UserID (Claims token), OrganizationID (Claims token), None).

(** [ws.Client] as the hub keys it. *)
Record Client := { conn : nat; userID : UUID; orgID : UUID }.

(** The hub's registry. *)
Abbreviation Hub := (list Client) (only parsing).

(** Modelled from the spec: [Hub.Register], not among the sources: the
    client enters the registry with its user and tenant. *)
Definition Register (hub : Hub) (c : Client) : Hub := c :: hub.

(** Modelled from the spec: [middleware.IsOriginAllowed], not among the
    sources: the origin has to be in the allow-list, and an empty
    allow-list allows every origin. *)
Definition IsOriginAllowed (origin : string) (allowedOrigins : list string) : bool :=
  match allowedOrigins with
  | [] => true
  | _ => existsb (String.eqb origin) allowedOrigins
  end.

(** The parts of the upgrade request the handler and the upgrader look
    at: the [token] query parameter, the [Origin] header, whether the
    request is a well-formed WebSocket handshake, and the connection it
    arrived on. *)
Record Request := {
  token : string;
  Origin : string;
  handshake : bool;
  connection : nat;
}.

Inductive response :=
| Upgraded
| ErrorEnvelope (status : Z) (message : string).

(** [FastHTTPUpgrader.Upgrade] with the handler's [CheckOrigin]. *)
Definition Upgrade (allowedOrigins : list string) (r : Request) : bool :=
  handshake r && IsOriginAllowed (Origin r) allowedOrigins.

Definition WebSocketHandler `{JwtLib} (secret : string) (allowedOrigins : list string)
           (hub : Hub) (r : Request) : response * Hub :=
  if String.eqb (token r) "" then (ErrorEnvelope 401 "Missing token", hub)
  else
    let '(userID, orgID, err) := validateWSToken secret (token r) in
    match err with
    | Some _ => (ErrorEnvelope 401 "Invalid token", hub)
    | None =>
        if Upgrade allowedOrigins r
        then (Upgraded, Register hub {| conn := connection r; userID := userID; orgID := orgID |})
        else (ErrorEnvelope 500 "WebSocket upgrade failed", hub)
    end.

(** A token parser for examples: the text [good] is a verified token
    of user [u1] in tenant [org1]; every other text is malformed. *)
Definition example_parse (tokenString secret : string) : Token * option string :=
  if String.eqb tokenString "good"
  then ({| Valid := true; Claims := {| UserID := "u1"; OrganizationID := "org1" |} |}, None)
  else ({| Valid := false; Claims := {| UserID := uuid_Nil; OrganizationID := uuid_Nil |} |},
        Some "token is malformed").

Definition example_jwt : JwtLib.
Proof.
  refine {| ParseWithClaims := example_parse |}.
  intros tokenString secret token. unfold example_parse.
  destruct (String.eqb tokenString "good"); intros Heq; inversion Heq; reflexivity.
Defined.

End WS.

(** ** path/filepath on a slash-separated file system *)

Module Filepath.

Definition Separator : string := "/".

Definition IsAbs (path : string) : bool := Bytes.HasPrefix path "/".

Fixpoint join_with (sep : string) (parts : list string) : string :=
  match parts with
  | [] => EmptyString
  | [p] => p
  | p :: rest => p +:+ sep +:+ join_with sep rest
  end.

(** One element of the path against the elements kept so far (last
    first): empty and [.] elements vanish, [..] takes back the element
    before it, and cannot climb above the root. *)
Definition clean_step (rooted : bool) (kept : list string) (elem : string) : list string :=
  if String.eqb elem "" || String.eqb elem "." then kept
  else if String.eqb elem ".." then
    match kept with
    | top :: kept' => if String.eqb top ".." then elem :: kept else kept'
    | [] => if rooted then [] else [elem]
    end
  else elem :: kept.

(** [filepath.Clean]. *)
Definition Clean (path : string) : string :=
  let rooted := IsAbs path in
  let kept := fold_left (clean_step rooted) (Net.split "/"%char path) [] in
  let body := join_with Separator (rev kept) in
  if rooted then "/" +:+ body
  else if String.eqb body "" then "." else body.

(** [filepath.Join] of two elements. *)
Definition Join (a b : string) : string :=
  if negb (String.eqb a "") then Clean (a +:+ Separator +:+ b)
  else if negb (String.eqb b "") then Clean b
  else "".

(** [filepath.Abs]; [cwd] is what [os.Getwd] reports, [None] when it
    fails. *)
Definition Abs (cwd : option string) (path : string) : option string :=
  if IsAbs path then Some (Clean path)
  else match cwd with
       | Some wd => Some (Join wd path)
       | None => None
       end.

End Filepath.

(** ** The media cleanup sweeper *)

Module Media.

(** [os.FileInfo]: what the sweeper reads of it. *)
Record FileInfo := { IsDir : bool; ModTime : Z }.

(** The file system: the entries by absolute path. *)
Abbreviation FS := (gmap string FileInfo) (only parsing).

(** [os.Stat]; [None] is the not-exist error. *)
Definition Stat (fs : FS) (name : string) : option FileInfo := fs !! name.

(** [os.Remove]: removes a file or an empty directory, and fails on
    a missing entry or on a directory that still has entries. *)
Definition Remove (fs : FS) (name : string) : option FS :=
  match fs !! name with
  | None => None
  | Some info =>
      if IsDir info
         && existsb (fun kv => Bytes.HasPrefix (fst kv) (name +:+ "/")) (map_to_list fs)
      then None
      else Some (delete name fs)
  end.

Record Message := { OrganizationID : UUID; MediaURL : string }.
Record BulkMessageCampaign := { COrganizationID : UUID; HeaderMediaLocalPath : string }.

(** The two [Pluck] queries. *)
Definition message_paths (messages : list Message) (orgID : UUID) : list string :=
  map MediaURL
      (List.filter (fun m => String.eqb (OrganizationID m) orgID
                             && negb (String.eqb (MediaURL m) "")) messages).

Definition campaign_paths (campaigns : list BulkMessageCampaign) (orgID : UUID) : list string :=
  map HeaderMediaLocalPath
      (List.filter (fun c => String.eqb (COrganizationID c) orgID
                             && negb (String.eqb (HeaderMediaLocalPath c) "")) campaigns).

(** The [paths] set: every non-empty path of either list. *)
Definition collect (paths : gset string) (found : list string) : gset string :=
  fold_left (fun acc path => if negb (String.eqb path "") then {[path]} ∪ acc else acc)
            found paths.

Record sweep := { fs_of : FS; deleted : Z; checked : Z }.

(** The absolute path the sweeper derives for a stored path, when it
    accepts it: no [..] anywhere in the stored path, and the result
    under the base directory (or the base directory itself). *)
Definition resolve (cwd : option string) (baseAbs relPath : string) : option string :=
  if Bytes.Contains relPath ".." then None
  else
    let fullPath := Filepath.Join baseAbs relPath in
    match Filepath.Abs cwd fullPath with
    | None => None
    | Some fullAbs =>
        if negb (Bytes.HasPrefix fullAbs (baseAbs +:+ Filepath.Separator))
           && negb (String.eqb fullAbs baseAbs)
        then None
        else Some fullAbs
    end.

(** One iteration of the loop over [paths]. *)
Definition visit (cwd : option string) (baseAbs : string) (cutoff : Z) (st : sweep)
           (relPath : string) : sweep :=
  let st := {| fs_of := fs_of st; deleted := deleted st; checked := checked st + 1 |} in
  match resolve cwd baseAbs relPath with
  | None => st
  | Some fullAbs =>
      match Stat (fs_of st) fullAbs with
      | None => st
      | Some info =>
          if IsDir info then st
          else if cutoff <? ModTime info then st
          else match Remove (fs_of st) fullAbs with
               | None => st
               | Some fs' => {| fs_of := fs'; deleted := deleted st + 1; checked := checked st |}
               end
      end
  end.

Section Sweeper.

(** The order in which a [range] over a Go map visits its keys: some
    enumeration of the key set. *)
Variable range : gset string -> list string.

(** [basePath] is the configured media root ([getMediaStoragePath])
    and [cwd] the working directory. *)
Definition cleanupOrganizationMedia (messages : list Message)
           (campaigns : list BulkMessageCampaign) (basePath : string)
           (cwd : option string) (orgID : UUID) (cutoff : Z) (fs : FS) : sweep :=
  let paths := collect (collect ∅ (message_paths messages orgID))
                       (campaign_paths campaigns orgID) in
  match Filepath.Abs cwd basePath with
  | None => {| fs_of := fs; deleted := 0; checked := 0 |}
  | Some baseAbs =>
      fold_left (visit cwd baseAbs cutoff) (range paths)
                {| fs_of := fs; deleted := 0; checked := 0 |}
  end.

End Sweeper.

(** Sample tables and files for the examples: tenant [org1] references
    an old upload, a path that climbs out of the root, and a file whose
    name has two dots in a row. *)
Definition example_messages : list Message :=
  [ {| OrganizationID := "org1"; MediaURL := "org1/a.jpg" |};
    {| OrganizationID := "org1"; MediaURL := "../../etc/passwd" |};
    {| OrganizationID := "org1"; MediaURL := "org1/scan..1.jpg" |};
    {| OrganizationID := "org2"; MediaURL := "org2/b.jpg" |} ].

Definition example_fs : gmap string FileInfo :=
  list_to_map
    [ ("/srv/media/org1/a.jpg", {| IsDir := false; ModTime := 10 |});
      ("/srv/media/org1/scan..1.jpg", {| IsDir := false; ModTime := 10 |});
      ("/srv/media/org2/b.jpg", {| IsDir := false; ModTime := 10 |});
      ("/srv/media/org1", {| IsDir := true; ModTime := 10 |});
      ("/etc/passwd", {| IsDir := false; ModTime := 1 |}) ].

(** Under the media root, as the sweeper tests it. *)
Definition under_root (baseAbs fullAbs : string) : bool :=
  Bytes.HasPrefix fullAbs (baseAbs +:+ Filepath.Separator) || String.eqb fullAbs baseAbs.

End Media.

(** ** WhatsApp interactive messages *)

Module WhatsApp.

Record Button := { ID : string; Title : string }.

Record Account := { PhoneID : string; AccessToken : string }.

(** The client's transport: [buildMessagesURL], [doRequest] (the
    response body or an error) and [json.Unmarshal] into a
    [MetaAPIResponse], read as the ids of its [Messages] or the
    decoder's error. *)
Class Api := {
  buildMessagesURL : Account -> string;
  doRequest : string -> string -> Json.value -> string -> string + string;
  response_ids : string -> list string + string;
}.

(** [title[:n]] when [len(title) > n]. *)
Definition truncate (n : nat) (title : string) : string :=
  if Nat.ltb n (String.length title) then Bytes.take n title else title.

Definition reply_button (btn : Button) : Json.value :=
  Json.Obj [ ("type", Json.Str "reply");
             ("reply", Json.Obj [ ("id", Json.Str (ID btn));
                                  ("title", Json.Str (truncate 20 (Title btn))) ]) ].

Definition list_row (btn : Button) : Json.value :=
  Json.Obj [ ("id", Json.Str (ID btn)); ("title", Json.Str (truncate 24 (Title btn))) ].

Definition interactive (bodyText : string) (buttons : list Button) : Json.value :=
  if Nat.leb (length buttons) 3 then
    Json.Obj [ ("type", Json.Str "button");
               ("body", Json.Obj [ ("text", Json.Str bodyText) ]);
               ("action", Json.Obj [ ("buttons", Json.Arr (map reply_button buttons)) ]) ]
  else
    Json.Obj [ ("type", Json.Str "list");
               ("body", Json.Obj [ ("text", Json.Str bodyText) ]);
               ("action",
                Json.Obj [ ("button", Json.Str "Select an option");
                           ("sections",
                            Json.Arr [ Json.Obj [ ("title", Json.Str "Options");
                                                  ("rows", Json.Arr (map list_row buttons)) ] ]) ]) ].

Definition interactive_payload (phoneNumber bodyText : string) (buttons : list Button) : Json.value :=
  Json.Obj [ ("messaging_product", Json.Str "whatsapp");
             ("recipient_type", Json.Str "individual");
             ("to", Json.Str phoneNumber);
             ("type", Json.Str "interactive");
             ("interactive", interactive bodyText buttons) ].

(** What the sender makes of the transport's answer: the message id,
    or the error. *)
Definition finish `{Api} (answer : string + string) : string + string :=
  match answer with
  | inr err => inr ("failed to send interactive message: " +:+ err)
  | inl respBody =>
      match response_ids respBody with
      | inr err => inr ("failed to parse response: " +:+ err)
      | inl [] => inr "no message ID in response"
      | inl (messageID :: _) => inl messageID
      end
  end.

Definition SendInteractiveButtons `{Api} (account : Account) (phoneNumber bodyText : string)
           (buttons : list Button) : string + string :=
  if Nat.eqb (length buttons) 0 then inr "at least one button is required"
  else if Nat.ltb 10 (length buttons) then inr "maximum 10 buttons allowed"
  else
    let payload := interactive_payload phoneNumber bodyText buttons in
    let url := buildMessagesURL account in
    finish (doRequest "POST" url payload (AccessToken account)).

(** A transport for examples: every request is answered with one
    message id. *)
Definition example_api : Api :=
  {| buildMessagesURL := fun a => "https://graph.example.com/" +:+ PhoneID a +:+ "/messages";
     doRequest := fun _ _ _ _ => inl "ok";
     response_ids := fun _ => inl ["wamid.1"] |}.

(** A payload written out on one line, strings as they are. *)
Fixpoint show (v : Json.value) : string :=
  match v with
  | Json.Null => "null"
  | Json.Bool b => if b then "true" else "false"
  | Json.Num n => DecimalString.NilZero.string_of_int (Z.to_int n)
  | Json.Str s => s
  | Json.Arr items =>
      "[" +:+ (fix each (l : list Json.value) : string :=
                 match l with
                 | [] => ""
                 | [x] => show x
                 | x :: rest => show x +:+ "," +:+ each rest
                 end) items +:+ "]"
  | Json.Obj fields =>
      "{" +:+ (fix each (l : list (string * Json.value)) : string :=
                 match l with
                 | [] => ""
                 | [(k, x)] => k +:+ ":" +:+ show x
                 | (k, x) :: rest => k +:+ ":" +:+ show x +:+ "," +:+ each rest
                 end) fields +:+ "}"
  end.

(** A transport for examples that hands back what it was asked to
    send: the method, the URL and the payload come back as the message
    id, so that a sender's result shows the request it made. *)
Definition echo_api : Api :=
  {| buildMessagesURL := fun a => "https://graph.example.com/" +:+ PhoneID a +:+ "/messages";
     doRequest := fun method url payload _ => inl (method +:+ " " +:+ url +:+ " " +:+ show payload);
     response_ids := fun respBody => inl [respBody] |}.

End WhatsApp.

(** ** The delivery processor's tick *)

Module Processor.

Import WebhookDelivery Outbox.

Definition batchSize : nat := 50.

(** [ORDER BY next_attempt_at ASC]. *)
Definition earlier (a b : WebhookDelivery.t) : Prop := NextAttemptAt a <= NextAttemptAt b.

#[global] Instance earlier_dec (a b : WebhookDelivery.t) : Decision (earlier a b) :=
  Z_le_dec (NextAttemptAt a) (NextAttemptAt b).

(** The claim query: the rows that are due, or whose attempt went
    stale, in the order of [next_attempt_at], at most [batchSize] of
    them. Rows with the same [next_attempt_at] come in the order the
    table yields them. *)
Definition claim_query (now : Z) (db : DB) : list WebhookDelivery.t :=
  take batchSize
       (merge_sort earlier
                   (List.filter (claimable now) (map snd (map_to_list (webhook_deliveries db))))).

(** [Where("id IN ?", ids).Updates(...)] of the claiming transaction. *)
Definition claim (now : Z) (db : DB) (ids : list UUID) : DB :=
  with_deliveries db
    ((fun d => if existsb (String.eqb (ID d)) ids then mark_in_progress now d else d)
       <$> webhook_deliveries db).

(** The loop over one batch. [clock n] is what [time.Now] returns in
    the [n]-th attempt the processor makes, and the result carries the
    number of attempts made so far. *)
Fixpoint process_batch `{Runtime} (clock : nat -> Z) (n : nat) (db : DB)
         (deliveries : list WebhookDelivery.t) : DB * nat :=
  match deliveries with
  | [] => (db, n)
  | delivery :: rest =>
      process_batch clock (S n) (processWebhookDelivery db (clock n) delivery) rest
  end.

(** [processPendingDeliveries]: batches are claimed and attempted until
    the claim query comes back empty. [fuel] bounds the number of
    batches; [None] stands for a loop that has not ended within it. A
    single processor works on the table. *)
Fixpoint processPendingDeliveries `{Runtime} (fuel : nat) (now : Z) (clock : nat -> Z)
         (n : nat) (db : DB) : option DB :=
  match fuel with
  | O => None
  | S fuel' =>
      match claim_query now db with
      | [] => Some db
      | deliveries =>
          let db1 := claim now db (map ID deliveries) in
          let '(db2, n') := process_batch clock n db1 deliveries in
          processPendingDeliveries fuel' now clock n' db2
      end
  end.

End Processor.

(** ** Reading a webhook and testing it *)

Module WebhookQueries.

Import Outbox Handlers.

Definition StatusBadGateway : Z := 502.

(** [Model(&WebhookDelivery{}).Where(...).Count(...)]. *)
Definition count_where (db : DB) (p : WebhookDelivery.t -> bool) : Z :=
  Z.of_nat (size (filter (fun kv => p kv.2 = true) (webhook_deliveries db))).

(** The two [WHERE] clauses of [GetWebhook]. *)
Definition failed_where (orgID webhookID : UUID) (d : WebhookDelivery.t) : bool :=
  String.eqb (WebhookDelivery.OrganizationID d) orgID
  && String.eqb (WebhookDelivery.WebhookID d) webhookID
  && String.eqb (WebhookDelivery.Status d) "failed".

Definition retrying_where (orgID webhookID : UUID) (d : WebhookDelivery.t) : bool :=
  String.eqb (WebhookDelivery.OrganizationID d) orgID
  && String.eqb (WebhookDelivery.WebhookID d) webhookID
  && existsb (String.eqb (WebhookDelivery.Status d)) ["pending"; "in_progress"]
  && negb (String.eqb (WebhookDelivery.LastError d) "").

Definition GetWebhook (db : DB) (r : request) : response :=
  match org r with
  | None => SendErrorEnvelope StatusUnauthorized "Unauthorized"
  | Some orgID =>
      match path_id r with
      | None => HelperReplied
      | Some webhookID =>
          match findByIDAndOrg db webhookID orgID with
          | None => HelperReplied
          | Some webhook =>
              let failedCount := count_where db (failed_where orgID webhookID) in
              let retryingCount := count_where db (retrying_where orgID webhookID) in
              SendEnvelope (WebhookPayload (webhookToResponse webhook failedCount retryingCount))
          end
      end
  end.

(** The payload of the test event. [stamp] is the instant formatted
    into the test data and [now] the one of the envelope;
    [format_RFC3339] is [Time.Format(time.RFC3339)]. *)
Definition test_payload `{Runtime} (format_RFC3339 : Z -> string) (deliveryID : UUID)
           (stamp now : Z) : Json.value :=
  let testData :=
    Json.Obj [ ("test", Json.Bool true);
               ("message", Json.Str "This is a test webhook from Whatomate");
               ("timestamp", Json.Str (format_RFC3339 stamp)) ] in
  envelope {| DeliveryID := deliveryID; PEvent := "test"; Timestamp := now; Data := testData |}.

(** [newUUID] is the identifier [uuid.New] hands out. The handler
    reads the store and leaves it as it is. *)
Definition TestWebhook `{Runtime} (format_RFC3339 : Z -> string) (db : DB) (newUUID : UUID)
           (stamp now : Z) (r : request) : response :=
  match org r with
  | None => SendErrorEnvelope StatusUnauthorized "Unauthorized"
  | Some orgID =>
      match path_id r with
      | None => HelperReplied
      | Some webhookID =>
          match findByIDAndOrg db webhookID orgID with
          | None => HelperReplied
          | Some webhook =>
              match json_Marshal (test_payload format_RFC3339 newUUID stamp now) with
              | inr _ =>
                  SendErrorEnvelope StatusInternalServerError "Failed to create test payload"
              | inl jsonData =>
                  match sendWebhookRequest (Webhook.URL webhook) (Webhook.Headers webhook)
                                           (Webhook.Secret webhook) jsonData with
                  | Some _ => SendErrorEnvelope StatusBadGateway "Webhook test failed"
                  | None => SendEnvelope (MessagePayload "Test webhook sent successfully")
                  end
              end
          end
      end
  end.

End WebhookQueries.

(** ** The media cleanup pass over the tenants *)

Module MediaCleanup.

(** [time.Duration] arithmetic on 64-bit integers. *)
Definition neg (a : Z) : Z := GoInt.wrap (- a).
Definition mul (a b : Z) : Z := GoInt.wrap (a * b).

(** [now.Add(-time.Duration(days) * 24 * time.Hour)]. *)
Definition cutoff (now days : Z) : Z :=
  now + mul (mul (neg days) 24) Time.Hour.

(** [models.Organization], as the pass selects it. *)
Record Organization := { ID : UUID; Settings : option JSONB }.

Section Pass.

Variable range : gset string -> list string.

(** [getOrgMediaCleanupSettings]: whether the cleanup is enabled for
    the tenant, and the retention in days. The day count is read from
    a [float64] of the settings document; the result is taken as
    given. *)
Variable getOrgMediaCleanupSettings : Organization -> bool * Z.

(** [orgs] are the rows the query over the organizations returns. *)
Definition processStaleMedia (now : Z) (orgs : list Organization)
           (messages : list Media.Message) (campaigns : list Media.BulkMessageCampaign)
           (basePath : string) (cwd : option string) (fs : Media.FS) : Media.FS :=
  fold_left
    (fun fs org =>
       let '(enabled, days) := getOrgMediaCleanupSettings org in
       if negb enabled || (days <=? 0) then fs
       else
         Media.fs_of (Media.cleanupOrganizationMedia range messages campaigns basePath cwd
                                                     (ID org) (cutoff now days) fs))
    orgs fs.

End Pass.

End MediaCleanup.

(** ** The other WhatsApp senders *)

Module Messages.

Import WhatsApp.

(** A key of a [map[string]interface{}]. *)
Definition field (key : string) (v : Json.value) : option Json.value :=
  match v with
  | Json.Obj fields =>
      match List.find (fun kv => String.eqb (fst kv) key) fields with
      | Some kv => Some (snd kv)
      | None => None
      end
  | _ => None
  end.

(** The tail every sender shares: the transport's error is wrapped
    under the sender's own text, and the first message id of the
    response is the result. *)
Definition finish_as `{Api} (what : string) (answer : string + string) : string + string :=
  match answer with
  | inr err => inr ("failed to send " +:+ what +:+ ": " +:+ err)
  | inl respBody =>
      match response_ids respBody with
      | inr err => inr ("failed to parse response: " +:+ err)
      | inl [] => inr "no message ID in response"
      | inl (messageID :: _) => inl messageID
      end
  end.

Definition post `{Api} (what : string) (account : Account) (payload : Json.value)
  : string + string :=
  finish_as what (doRequest "POST" (buildMessagesURL account) payload (AccessToken account)).

Definition SendTextMessage `{Api} (account : Account) (phoneNumber text : string)
  : string + string :=
  let payload :=
    Json.Obj [ ("messaging_product", Json.Str "whatsapp");
               ("recipient_type", Json.Str "individual");
               ("to", Json.Str phoneNumber);
               ("type", Json.Str "text");
               ("text", Json.Obj [ ("preview_url", Json.Bool false);
                                   ("body", Json.Str text) ]) ] in
  post "text message" account payload.

Definition SendCTAURLButton `{Api} (account : Account)
           (phoneNumber bodyText buttonText url : string) : string + string :=
  if String.eqb buttonText "" || String.eqb url ""
  then inr "button text and URL are required"
  else
    let buttonText := truncate 20 buttonText in
    let interactive :=
      Json.Obj [ ("type", Json.Str "cta_url");
                 ("body", Json.Obj [ ("text", Json.Str bodyText) ]);
                 ("action",
                  Json.Obj [ ("name", Json.Str "cta_url");
                             ("parameters",
                              Json.Obj [ ("display_text", Json.Str buttonText);
                                         ("url", Json.Str url) ]) ]) ] in
    let payload :=
      Json.Obj [ ("messaging_product", Json.Str "whatsapp");
                 ("recipient_type", Json.Str "individual");
                 ("to", Json.Str phoneNumber);
                 ("type", Json.Str "interactive");
                 ("interactive", interactive) ] in
    post "CTA URL button message" account payload.

(** One entry of [params]. *)
Definition text_param (p : string) : Json.value :=
  Json.Obj [ ("type", Json.Str "text"); ("text", Json.Str p) ].

Definition SendTemplateMessage `{Api} (account : Account)
           (phoneNumber templateName languageCode : string) (bodyParams : list string)
  : string + string :=
  let template :=
    [ ("name", Json.Str templateName);
      ("language", Json.Obj [ ("code", Json.Str languageCode) ]) ] in
  let template :=
    if Nat.ltb 0 (length bodyParams)
    then
      let params := map text_param bodyParams in
      template ++ [ ("components",
                     Json.Arr [ Json.Obj [ ("type", Json.Str "body");
                                           ("parameters", Json.Arr params) ] ]) ]
    else template in
  let payload :=
    Json.Obj [ ("messaging_product", Json.Str "whatsapp");
               ("to", Json.Str phoneNumber);
               ("type", Json.Str "template");
               ("template", Json.Obj template) ] in
  post "template message" account payload.

Definition SendTemplateMessageWithComponents `{Api} (account : Account)
           (phoneNumber templateName languageCode : string) (components : list Json.value)
  : string + string :=
  let template :=
    [ ("name", Json.Str templateName);
      ("language", Json.Obj [ ("code", Json.Str languageCode) ]) ] in
  let template :=
    if Nat.ltb 0 (length components)
    then template ++ [ ("components", Json.Arr components) ]
    else template in
  let payload :=
    Json.Obj [ ("messaging_product", Json.Str "whatsapp");
               ("to", Json.Str phoneNumber);
               ("type", Json.Str "template");
               ("template", Json.Obj template) ] in
  post "template message" account payload.

(** [fmt.Sprintf("%d", n)]. *)
Definition Itoa (n : Z) : string := DecimalString.NilZero.string_of_int (Z.to_int n).

(** [now] is [time.Now().UnixNano()]. *)
Definition SendFlowMessage `{Api} (now : Z) (account : Account)
           (phoneNumber flowID headerText bodyText ctaText flowToken firstScreen : string)
  : string + string :=
  if String.eqb flowID "" then inr "flow ID is required"
  else if String.eqb bodyText "" then inr "body text is required"
  else
    let ctaText := if String.eqb ctaText "" then "Open" else ctaText in
    let flowToken := if String.eqb flowToken "" then "flow_" +:+ Itoa now else flowToken in
    let firstScreen := if String.eqb firstScreen "" then "FIRST_SCREEN" else firstScreen in
    let ctaText := truncate 20 ctaText in
    let interactive :=
      [ ("type", Json.Str "flow");
        ("body", Json.Obj [ ("text", Json.Str bodyText) ]);
        ("action",
         Json.Obj [ ("name", Json.Str "flow");
                    ("parameters",
                     Json.Obj [ ("flow_message_version", Json.Str "3");
                                ("flow_token", Json.Str flowToken);
                                ("flow_id", Json.Str flowID);
                                ("flow_cta", Json.Str ctaText);
                                ("flow_action", Json.Str "navigate");
                                ("flow_action_payload",
                                 Json.Obj [ ("screen", Json.Str firstScreen) ]) ]) ]) ] in
    let interactive :=
      if negb (String.eqb headerText "")
      then interactive ++ [ ("header", Json.Obj [ ("type", Json.Str "text");
                                                  ("text", Json.Str headerText) ]) ]
      else interactive in
    let payload :=
      Json.Obj [ ("messaging_product", Json.Str "whatsapp");
                 ("recipient_type", Json.Str "individual");
                 ("to", Json.Str phoneNumber);
                 ("type", Json.Str "interactive");
                 ("interactive", Json.Obj interactive) ] in
    post "flow message" account payload.

End Messages.

(** ** More sample data for the examples *)

Module Samples.

Fixpoint tally (k : nat) : string :=
  match k with
  | O => EmptyString
  | S k' => String "x" (tally k')
  end.

(** A supply of distinct identifiers: [n-], [n-x], [n-xx], ... *)
Definition fresh (k : nat) : UUID := "n-" +:+ tally k.

(** Surroundings in which nothing fails: the context stays live, the
    identifiers are [newUUID]'s and the clock reads [now], [now + 1]
    and [now + 2] during each turn. *)
Definition calm (newUUID : nat -> UUID) (now : Z) (k : nat) : Dispatch.Turn :=
  {| Dispatch.ctx_Err := false;
     Dispatch.uuid_New := newUUID k;
     Dispatch.stamped := now;
     Dispatch.unmarshal_err := false;
     Dispatch.due := now + 1;
     Dispatch.create_err := false;
     Dispatch.startedAt := now + 2;
     Dispatch.update_err := false |}.

(** The same surroundings with the context cancelled from turn [c] on
    and the update of turn [u] failing. *)
Definition rough (c u : nat) (newUUID : nat -> UUID) (now : Z) (k : nat) : Dispatch.Turn :=
  {| Dispatch.ctx_Err := Nat.leb c k;
     Dispatch.uuid_New := newUUID k;
     Dispatch.stamped := now;
     Dispatch.unmarshal_err := false;
     Dispatch.due := now + 1;
     Dispatch.create_err := false;
     Dispatch.startedAt := now + 2;
     Dispatch.update_err := Nat.eqb k u |}.

End Samples.

(** ** The shape of a stored delivery *)

Module Lifecycle.

Import WebhookDelivery Outbox.

(** What is expected of the row stored under [id]: it carries that id,
    one of the four statuses, the ceiling of six attempts, and the
    envelope it was enqueued with. *)
Definition sound `{Runtime} (id : UUID) (d : WebhookDelivery.t) : Prop :=
  ID d = id
  /\ In (Status d) [ webhookStatusPending; webhookStatusInProgress;
                     webhookStatusDelivered; webhookStatusFailed ]
  /\ MaxAttempts d = 6
  /\ exists now data,
      Payload d = envelope {| DeliveryID := id; PEvent := Event d;
                              Timestamp := now; Data := data |}.

End Lifecycle.

(** * Properties *)

(** ** Byte strings *)

Section BytesFacts.


Lemma append_cons (c : ascii) (p s : string) : String c p +:+ s = String c (p +:+ s).
Proof. reflexivity. Qed.

Lemma HasPrefix_append (p s : string) : Bytes.HasPrefix (p +:+ s) p = true.
Proof. induction p as [|c p IH]; simpl; [reflexivity|]. by rewrite Ascii.eqb_refl. Qed.

Lemma drop_append (p s : string) : Bytes.drop (String.length p) (p +:+ s) = s.
Proof. induction p as [|c p IH]; simpl; auto. Qed.

Lemma HasPrefix_split (s p : string) :
  Bytes.HasPrefix s p = true -> s = p +:+ Bytes.drop (String.length p) s.
Proof.
  revert s. induction p as [|c p IH]; intros s; simpl; [reflexivity|].
  destruct s as [|d s]; [discriminate|].
  destruct (Ascii.eqb c d) eqn:E; [|discriminate].
  apply Ascii.eqb_eq in E. subst d. intros Hp. rewrite append_cons. f_equal. auto.
Qed.

Lemma append_length (s t : string) :
  String.length (s +:+ t) = (String.length s + String.length t)%nat.
Proof. induction s; [reflexivity|]. rewrite append_cons. simpl. auto. Qed.

Lemma append_inj_l (p s t : string) : p +:+ s = p +:+ t -> s = t.
Proof.
  induction p; intros Heq; [assumption|].
  rewrite !append_cons in Heq. injection Heq. auto.
Qed.

End BytesFacts.

(** ** Constant-time comparison *)



(** ** Hex encoding *)

Lemma byte_cases (p : Z -> bool) :
  forallb p (map Z.of_nat (seq 0 256)) = true -> forall b, Bytes.is_byte b -> p b = true.
Proof.
  intros Hall b [Hlo Hhi]. rewrite forallb_forall in Hall. apply Hall.
  apply in_map_iff. exists (Z.to_nat b). split; [lia|].
  apply in_seq. lia.
Qed.




Lemma EncodeToString_length (bs : list Z) :
  String.length (Hex.EncodeToString bs) = (2 * length bs)%nat.
Proof. induction bs; simpl; lia. Qed.

(** ** The digest is a list of bytes *)

Lemma word_bytes_bytes (w : Z) : Forall Bytes.is_byte (Sha256.word_bytes w).
Proof.
  unfold Sha256.word_bytes, Bytes.is_byte.
  repeat constructor;
    (change 255 with (Z.ones 8); rewrite Z.land_ones by lia;
     pose proof (Z.mod_pos_bound) as Hm; apply Z.mod_pos_bound; lia).
Qed.

Lemma Sum_bytes (d : Sha256.digest) : Forall Bytes.is_byte (Sha256.Sum d).
Proof.
  unfold Sha256.Sum.
  generalize (Sha256.h (Sha256.Write d
    (128 :: repeat 0 (if Nat.ltb (Sha256.nx d) 56 then (55 - Sha256.nx d)%nat
                      else (119 - Sha256.nx d)%nat)
         ++ Sha256.len_bytes (8 * Sha256.len d)))).
  intros ws. induction ws as [|w ws IH]; [constructor|].
  change (Forall Bytes.is_byte (Sha256.word_bytes w ++ concat (map Sha256.word_bytes ws))).
  apply Forall_app. split; [apply word_bytes_bytes | exact IH].
Qed.

Lemma Hmac_Sum_bytes (key data : list Z) : Forall Bytes.is_byte (Hmac.Sum key data).
Proof. apply Sum_bytes. Qed.

(** ** Webhook signatures *)

Section SignatureFacts.

Import Signature.
















End SignatureFacts.




(** ** SSRF guard *)

Section SsrfFacts.

Import Ssrf.
Context `{NetLib}.

Lemma validate_scheme (rawURL : string) (u : URL) (allowInternal : bool) :
  url_Parse rawURL = inl u ->
  Scheme u <> "http" -> Scheme u <> "https" ->
  validateWebhookURL rawURL allowInternal = Some "URL scheme must be http or https".
Proof.
  intros Hu Hhttp Hhttps. unfold validateWebhookURL. rewrite Hu.
  apply String.eqb_neq in Hhttp, Hhttps. by rewrite Hhttp, Hhttps.
Qed.

Lemma validate_unparsed (rawURL err : string) (allowInternal : bool) :
  url_Parse rawURL = inr err ->
  validateWebhookURL rawURL allowInternal = Some ("invalid URL: " +:+ err).
Proof. intros Hu. unfold validateWebhookURL. by rewrite Hu. Qed.

Lemma validate_no_host (rawURL : string) (u : URL) (allowInternal : bool) :
  url_Parse rawURL = inl u -> Hostname u = "" ->
  validateWebhookURL rawURL allowInternal <> None.
Proof.
  intros Hu Hh. unfold validateWebhookURL. rewrite Hu, Hh.
  destruct (negb (Scheme u =? "https")%string && negb (Scheme u =? "http")%string);
    simpl; discriminate.
Qed.

Lemma validate_internal_host (rawURL : string) (u : URL) :
  url_Parse rawURL = inl u -> internal_host (Hostname u) ->
  validateWebhookURL rawURL false <> None.
Proof.
  intros Hu Hint. unfold validateWebhookURL. rewrite Hu.
  destruct (negb (Scheme u =? "https")%string && negb (Scheme u =? "http")%string);
    [discriminate|].
  destruct (Hostname u =? "")%string; [discriminate|]. cbn [negb].
  destruct Hint as [Hl | [Hz | [Hs | [Hs | (ip & Hip & Hin)]]]].
  - rewrite Hl. discriminate.
  - rewrite Hz. discriminate.
  - rewrite Hs, !orb_true_r. discriminate.
  - rewrite Hs, !orb_true_r. discriminate.
  - rewrite Hip, Hin.
    destruct (_ || _ || _ || _); discriminate.
Qed.

Lemma validate_allow_internal (rawURL : string) (u : URL) :
  url_Parse rawURL = inl u ->
  Scheme u = "http" \/ Scheme u = "https" ->
  Hostname u <> "" ->
  validateWebhookURL rawURL true = None.
Proof.
  intros Hu Hs Hh. unfold validateWebhookURL. rewrite Hu.
  apply String.eqb_neq in Hh. rewrite Hh.
  destruct Hs as [-> | ->]; reflexivity.
Qed.

Lemma first_internal_found (ips : list string) (ipStr : string) (ip : Net.IP) :
  ipStr ∈ ips -> net_ParseIP ipStr = Some ip -> internalIP ip = true ->
  exists blocked, first_internal ips = Some blocked.
Proof.
  intros Hin Hip Hint. unfold first_internal.
  destruct (List.find _ ips) as [b|] eqn:Hf; [eauto|].
  apply list_elem_of_In in Hin.
  pose proof (find_none _ _ Hf _ Hin) as Hno. cbv beta in Hno.
  rewrite Hip, Hint in Hno. discriminate.
Qed.

Lemma dialer_refuses (network addr host port : string) (ips : list string)
      (ipStr : string) (ip : Net.IP) :
  net_SplitHostPort addr = inl (host, port) ->
  LookupHost host = inl ips ->
  ipStr ∈ ips -> net_ParseIP ipStr = Some ip -> internalIP ip = true ->
  exists msg, SSRFSafeDialer false network addr = DialError msg.
Proof.
  intros Hsp Hl Hin Hip Hint. unfold SSRFSafeDialer. rewrite Hsp, Hl.
  destruct (first_internal_found _ _ _ Hin Hip Hint) as [b ->]. eauto.
Qed.

End SsrfFacts.

(** C2, as amended. Without [allow_internal], validation refuses a URL
    that does not parse, whose scheme is neither http nor https, whose
    hostname is empty, or whose hostname, lowered by [strings.ToLower],
    is localhost or 0.0.0.0 or ends in .local or .internal, or whose
    hostname [net.ParseIP] reads as an address in the loopback, private,
    link-local or unspecified ranges; and the dialer returns an error
    without dialling when a resolved address that [net.ParseIP] reads is
    in those ranges. With [allow_internal] the dialer dials the address
    as given and validation drops the hostname and address tests only:
    the scheme and the empty hostname are refused under either
    setting. *)
Theorem ssrf_guard `{Ssrf.NetLib} :
  (forall rawURL err allowInternal,
      Ssrf.url_Parse rawURL = inr err ->
      Ssrf.validateWebhookURL rawURL allowInternal = Some ("invalid URL: " +:+ err))
  /\ (forall rawURL u allowInternal,
         Ssrf.url_Parse rawURL = inl u ->
         (Ssrf.Scheme u <> "http" /\ Ssrf.Scheme u <> "https") \/ Ssrf.Hostname u = "" ->
         Ssrf.validateWebhookURL rawURL allowInternal <> None)
  /\ (forall rawURL u,
         Ssrf.url_Parse rawURL = inl u -> Ssrf.internal_host (Ssrf.Hostname u) ->
         Ssrf.validateWebhookURL rawURL false <> None)
  /\ (forall rawURL u,
         Ssrf.url_Parse rawURL = inl u ->
         Ssrf.Scheme u = "http" \/ Ssrf.Scheme u = "https" -> Ssrf.Hostname u <> "" ->
         Ssrf.validateWebhookURL rawURL true = None)
  /\ (forall network addr host port ips ipStr ip,
         Ssrf.net_SplitHostPort addr = inl (host, port) ->
         Ssrf.LookupHost host = inl ips ->
         ipStr ∈ ips -> Ssrf.net_ParseIP ipStr = Some ip -> Ssrf.internalIP ip = true ->
         exists msg, Ssrf.SSRFSafeDialer false network addr = Ssrf.DialError msg)
  /\ (forall network addr, Ssrf.SSRFSafeDialer true network addr = Ssrf.Dial network addr).
Proof.
  split; [|split; [|split; [|split; [|split]]]].
  - intros rawURL err allowInternal Hu. by apply validate_unparsed.
  - intros rawURL u allowInternal Hu [[Hhttp Hhttps] | Hh].
    + by rewrite (validate_scheme _ _ _ Hu Hhttp Hhttps).
    + by apply (validate_no_host _ _ _ Hu).
  - intros rawURL u Hu. by apply validate_internal_host.
  - intros rawURL u Hu. by apply validate_allow_internal.
  - intros. by eapply dialer_refuses.
  - reflexivity.
Qed.

Lemma ssrf_guard_witness :
  let net := Ssrf.example_net [("rebind.example.com", ["93.184.216.34"; "10.0.0.1"])] in
  @Ssrf.validateWebhookURL net "http://169.254.169.254/latest/meta-data" false <> None
  /\ @Ssrf.validateWebhookURL net "https://[::1]:8443/hook" false <> None
  /\ @Ssrf.validateWebhookURL net "gopher://example.com/" false <> None
  /\ @Ssrf.validateWebhookURL net "http://10.1.2.3/hook" true = None
  /\ exists msg, @Ssrf.SSRFSafeDialer net false "tcp" "rebind.example.com:443" = Ssrf.DialError msg.
Proof.
  intros net.
  destruct (@ssrf_guard net) as (_ & Hshape & Hhost & Hallow & Hdial & _).
  split; [|split; [|split; [|split]]].
  - apply (Hhost _ {| Ssrf.Scheme := "http"; Ssrf.Hostname := "169.254.169.254" |}).
    + reflexivity.
    + do 4 right. exists (Net.v4 169 254 169 254). split; reflexivity.
  - apply (Hhost _ {| Ssrf.Scheme := "https"; Ssrf.Hostname := "::1" |}).
    + reflexivity.
    + do 4 right. exists Net.IPv6loopback. split; reflexivity.
  - apply (Hshape _ {| Ssrf.Scheme := "gopher"; Ssrf.Hostname := "example.com" |}).
    + reflexivity.
    + left. split; discriminate.
  - apply (Hallow _ {| Ssrf.Scheme := "http"; Ssrf.Hostname := "10.1.2.3" |}).
    + reflexivity.
    + left. reflexivity.
    + discriminate.
  - apply (Hdial "tcp" "rebind.example.com:443" "rebind.example.com" "443"
                 ["93.184.216.34"; "10.0.0.1"] "10.0.0.1" (Net.v4 10 0 0 1));
      try reflexivity.
    apply list_elem_of_In. simpl. auto.
Defined.

(** C2, the claim as stated fails twice. With [allow_internal] set the
    submit-time check is not bypassed as a whole: a URL with another
    scheme is still refused. And without it not every link-local literal
    is refused: [net.ParseIP] reads no address with a zone, so
    [fe80::1%eth0], unlike [fe80::1], passes the submit-time check and is
    dialled. *)
Lemma guard_not_bypassed_and_zone_not_refused :
  let net := Ssrf.example_net [] in
  @Ssrf.validateWebhookURL net "ftp://example.com/hook" true
  = Some "URL scheme must be http or https"
  /\ @Ssrf.validateWebhookURL net "http://[fe80::1]/hook" false
     = Some "URL must not point to internal addresses"
  /\ @Ssrf.url_Parse net "http://[fe80::1%25eth0]/hook"
     = inl {| Ssrf.Scheme := "http"; Ssrf.Hostname := "fe80::1%eth0" |}
  /\ @Ssrf.net_ParseIP net "fe80::1%eth0" = None
  /\ @Ssrf.validateWebhookURL net "http://[fe80::1%25eth0]/hook" false = None
  /\ @Ssrf.SSRFSafeDialer net false "tcp" "[fe80::1%eth0]:80"
     = Ssrf.Dial "tcp" "[fe80::1%eth0]:80".
Proof. vm_compute. repeat split. Qed.

(** ** The outbox *)

Section OutboxFacts.

Import WebhookDelivery Outbox.
Context `{Runtime}.

Lemma update_delivery_eq (db : DB) (id : UUID) (f : WebhookDelivery.t -> WebhookDelivery.t)
      (r : WebhookDelivery.t) :
  webhook_deliveries db !! id = Some r ->
  webhook_deliveries (update_delivery db id f) !! id = Some (f r).
Proof. intros Hr. unfold update_delivery. simpl. rewrite lookup_alter_eq. by rewrite Hr. Qed.

Lemma update_delivery_ne (db : DB) (id id' : UUID) (f : WebhookDelivery.t -> WebhookDelivery.t) :
  id <> id' ->
  webhook_deliveries (update_delivery db id f) !! id' = webhook_deliveries db !! id'.
Proof. intros Hne. unfold update_delivery. simpl. by rewrite lookup_alter_ne. Qed.

(** The delay is the schedule entry for the attempt just made, the
    first entry below one attempt and the last one beyond six. *)
Lemma nextWebhookAttemptDelay_clamp (attempt : Z) :
  nextWebhookAttemptDelay attempt
  = nth (Z.to_nat (Z.min (Z.max attempt 1) 6 - 1))
        [ 60000000000; 300000000000; 900000000000;
          3600000000000; 21600000000000; 86400000000000 ] 0.
Proof.
  unfold nextWebhookAttemptDelay.
  destruct (attempt <=? 0) eqn:E0.
  - apply Z.leb_le in E0. replace (Z.min (Z.max attempt 1) 6 - 1) with 0 by lia. reflexivity.
  - apply Z.leb_gt in E0.
    change (Z.of_nat (length webhookRetrySchedule)) with 6.
    destruct (attempt - 1 >=? 6) eqn:E6.
    + apply Z.geb_le in E6. replace (Z.min (Z.max attempt 1) 6 - 1) with 5 by lia. reflexivity.
    + rewrite Z.geb_leb in E6. apply Z.leb_gt in E6.
      replace (Z.min (Z.max attempt 1) 6 - 1) with (attempt - 1) by lia. reflexivity.
Qed.

Lemma nextWebhookAttemptDelay_clamp_schedule (attempt : Z) :
  nextWebhookAttemptDelay attempt
  = nth (Z.to_nat (Z.min (Z.max attempt 1) 6 - 1))
        [ Time.Minute; 5 * Time.Minute; 15 * Time.Minute;
          Time.Hour; 6 * Time.Hour; 24 * Time.Hour ] 0.
Proof. apply nextWebhookAttemptDelay_clamp. Qed.

(** What one attempt does to the table. *)
Lemma process_step (db : DB) (now : Z) (d r : WebhookDelivery.t) :
  webhook_deliveries db !! ID d = Some r -> ID r = ID d ->
  (answered_2xx r
   /\ processWebhookDelivery db now d = update_delivery db (ID d) (delivered_updates now))
  \/ (~ answered_2xx r
      /\ exists statusCode errMsg,
          processWebhookDelivery db now d
          = update_delivery db (ID d) (fail_updates now r statusCode errMsg)).
Proof.
  intros Hr Hid. unfold processWebhookDelivery, failWebhookDelivery, sendWebhookRequest, answered_2xx.
  rewrite Hr, Hid.
  destruct (json_Marshal (Payload r)) as [jsonData|msg] eqn:Hm.
  2:{ right. split; [intros (? & ? & [=] & _)|eauto]. }
  destruct (http_NewRequest (URL r)) as [msg|] eqn:Hn.
  { right. split; [intros (? & ? & _ & [=] & _)|eauto]. }
  destruct (http_Do _) as [msg|code] eqn:Hd.
  { right. split; [intros (j & c & [= <-] & _ & Hd' & _); congruence|eauto]. }
  destruct ((code <? 200) || (code >=? 300)) eqn:Hc.
  - right. split; [|eauto].
    intros (j & c & [= <-] & _ & Hd' & Hr2). rewrite Hd in Hd'. injection Hd' as <-.
    rewrite Z.geb_leb in Hc. apply orb_true_iff in Hc.
    destruct Hc as [Hc|Hc]; [apply Z.ltb_lt in Hc|apply Z.leb_le in Hc]; lia.
  - left. split; [|reflexivity]. exists jsonData, code.
    rewrite Z.geb_leb in Hc. apply orb_false_iff in Hc. destruct Hc as [Hc1 Hc2].
    apply Z.ltb_ge in Hc1. apply Z.leb_gt in Hc2. repeat split; auto; lia.
Qed.

(** The columns a failed attempt writes. *)
Lemma fail_updates_fields (now : Z) (r : WebhookDelivery.t) (statusCode : Z) (errMsg : string) :
  let r' := fail_updates now r statusCode errMsg r in
  Attempts r' = GoInt.add (Attempts r) 1
  /\ ProcessingStartedAt r' = None
  /\ LastError r' = errMsg /\ LastStatusCode r' = statusCode
  /\ ID r' = ID r /\ MaxAttempts r' = MaxAttempts r /\ DeliveredAt r' = DeliveredAt r
  /\ (if GoInt.add (Attempts r) 1 >=? effective_max r
      then Status r' = "failed" /\ NextAttemptAt r' = NextAttemptAt r
      else Status r' = "pending"
           /\ NextAttemptAt r' = now + nextWebhookAttemptDelay (GoInt.add (Attempts r) 1)).
Proof.
  unfold fail_updates, effective_max.
  change (Z.of_nat (length webhookRetrySchedule)) with 6.
  destruct (GoInt.add (Attempts r) 1 >=? (if MaxAttempts r <=? 0 then 6 else MaxAttempts r));
    simpl; repeat split; reflexivity.
Qed.

End OutboxFacts.

Section BackoffFacts.

Import WebhookDelivery Outbox.
Context `{Runtime}.

Lemma always_500_not_2xx (r : WebhookDelivery.t) :
  (forall req, http_Do req = Http.Response 500) -> ~ answered_2xx r.
Proof.
  intros H500 (jsonData & code & _ & _ & Hd & Hc). rewrite H500 in Hd.
  injection Hd as <-. lia.
Qed.

Lemma add_small (a : Z) : 0 <= a < 100 -> GoInt.add a 1 = a + 1.
Proof.
  intros Ha. unfold GoInt.add, GoInt.wrap.
  rewrite Z.mod_small; lia.
Qed.

(** One more failure of a delivery that allows six attempts. *)
Lemma failure_step (db : DB) (t : Z) (d r : WebhookDelivery.t) (a : Z) :
  (forall req, http_Do req = Http.Response 500) ->
  webhook_deliveries db !! ID d = Some r -> ID r = ID d ->
  MaxAttempts r = 6 -> Attempts r = a -> 0 <= a <= 5 ->
  exists r',
    webhook_deliveries (processWebhookDelivery db t d) !! ID d = Some r'
    /\ ID r' = ID d /\ MaxAttempts r' = 6 /\ Attempts r' = a + 1
    /\ (if a + 1 <? 6
        then Status r' = "pending" /\ NextAttemptAt r' = t + nextWebhookAttemptDelay (a + 1)
        else Status r' = "failed").
Proof.
  intros H500 Hr Hid Hmax Ha Hrange.
  destruct (process_step db t d r Hr Hid) as [[Hok _] | [_ (code & msg & ->)]];
    [by apply always_500_not_2xx in Hok|].
  eexists. split; [by apply update_delivery_eq|].
  pose proof (fail_updates_fields t r code msg) as (Hatt & _ & _ & _ & Hid' & Hmax' & _ & Hst).
  cbv zeta in *. rewrite Hatt, Hid', Hmax'.
  unfold effective_max in Hst. rewrite Hmax, Ha in Hst. cbn [Z.leb Z.compare] in Hst.
  rewrite Ha, add_small in * by lia.
  repeat split; auto.
  rewrite Z.geb_leb in Hst.
  destruct (a + 1 <? 6) eqn:E.
  - apply Z.ltb_lt in E. destruct (6 <=? a + 1) eqn:E'; [apply Z.leb_le in E'; lia|]. exact Hst.
  - apply Z.ltb_ge in E. destruct (6 <=? a + 1) eqn:E'; [tauto|apply Z.leb_gt in E'; lia].
Qed.

Lemma claimable_pending (now : Z) (r : WebhookDelivery.t) :
  Status r = "pending" -> claimable now r = (NextAttemptAt r <=? now).
Proof. intros Hs. unfold claimable. rewrite Hs. simpl. by rewrite orb_false_r. Qed.

Lemma claimable_failed (now : Z) (r : WebhookDelivery.t) :
  Status r = "failed" -> claimable now r = false.
Proof. intros Hs. unfold claimable. by rewrite Hs. Qed.

Lemma claimable_after_reset (now : Z) (r : WebhookDelivery.t) :
  claimable now (Handlers.retry_reset now r) = true.
Proof. unfold claimable, Handlers.retry_reset. simpl. by rewrite Z.leb_refl. Qed.

End BackoffFacts.

(** C3, as amended. A delivery with [max_attempts = 6] whose endpoint
    always answers 500: after the k-th failure, for k from 1 to 5, the
    row is pending with [attempts = k] and is next claimed no sooner than
    1 minute, 5 minutes, 15 minutes, 1 hour and 6 hours after that
    failure; the 6th failure makes it failed, after which the processor
    never claims it, until the retry action resets it. The 24-hour entry
    is not reached with six attempts. *)
Theorem backoff_trace `{Outbox.Runtime} (db : DB) (d : WebhookDelivery.t)
        (t1 t2 t3 t4 t5 t6 : Z) :
  (forall req, Outbox.http_Do req = Http.Response 500) ->
  webhook_deliveries db !! WebhookDelivery.ID d = Some d ->
  WebhookDelivery.Attempts d = 0 -> WebhookDelivery.MaxAttempts d = 6 ->
  let after times :=
    webhook_deliveries (Outbox.attempts_at db d times) !! WebhookDelivery.ID d in
  let retried k r t :=
    WebhookDelivery.Attempts r = k /\ WebhookDelivery.Status r = "pending"
    /\ WebhookDelivery.NextAttemptAt r = t
    /\ forall now, Outbox.claimable now r = (t <=? now) in
  (exists r, after [t1] = Some r /\ retried 1 r (t1 + Time.Minute))
  /\ (exists r, after [t1; t2] = Some r /\ retried 2 r (t2 + 5 * Time.Minute))
  /\ (exists r, after [t1; t2; t3] = Some r /\ retried 3 r (t3 + 15 * Time.Minute))
  /\ (exists r, after [t1; t2; t3; t4] = Some r /\ retried 4 r (t4 + Time.Hour))
  /\ (exists r, after [t1; t2; t3; t4; t5] = Some r /\ retried 5 r (t5 + 6 * Time.Hour))
  /\ (exists r, after [t1; t2; t3; t4; t5; t6] = Some r
                /\ WebhookDelivery.Attempts r = 6 /\ WebhookDelivery.Status r = "failed"
                /\ (forall now, Outbox.claimable now r = false)
                /\ (forall now, Outbox.claimable now (Handlers.retry_reset now r) = true)).
Proof.
  intros H500 Hd Ha Hm after retried. subst after retried. unfold Outbox.attempts_at. cbn [fold_left].
  destruct (failure_step db t1 d d 0 H500 Hd eq_refl Hm Ha ltac:(lia))
    as (r1 & Hr1 & Hi1 & Hm1 & Ha1 & Hs1 & Hn1).
  destruct (failure_step _ t2 d r1 1 H500 Hr1 Hi1 Hm1 Ha1 ltac:(lia))
    as (r2 & Hr2 & Hi2 & Hm2 & Ha2 & Hs2 & Hn2).
  destruct (failure_step _ t3 d r2 2 H500 Hr2 Hi2 Hm2 Ha2 ltac:(lia))
    as (r3 & Hr3 & Hi3 & Hm3 & Ha3 & Hs3 & Hn3).
  destruct (failure_step _ t4 d r3 3 H500 Hr3 Hi3 Hm3 Ha3 ltac:(lia))
    as (r4 & Hr4 & Hi4 & Hm4 & Ha4 & Hs4 & Hn4).
  destruct (failure_step _ t5 d r4 4 H500 Hr4 Hi4 Hm4 Ha4 ltac:(lia))
    as (r5 & Hr5 & Hi5 & Hm5 & Ha5 & Hs5 & Hn5).
  destruct (failure_step _ t6 d r5 5 H500 Hr5 Hi5 Hm5 Ha5 ltac:(lia))
    as (r6 & Hr6 & Hi6 & Hm6 & Ha6 & Hs6).
  cbn in Hs6.
  repeat match goal with
         | |- _ /\ _ => split
         | |- exists r, ?l = Some r /\ _ =>
             match goal with Hr : l = Some ?r |- _ => exists r; split; [exact Hr|] end
         end; auto.
  all: try (intros now; rewrite claimable_pending by assumption;
            match goal with Hn : WebhookDelivery.NextAttemptAt _ = _ |- _ => rewrite Hn end;
            reflexivity).
  - intros now. by apply claimable_failed.
  - intros now. apply claimable_after_reset.
Qed.

Lemma backoff_trace_witness :
  WebhookDelivery.Status
    <$> (webhook_deliveries
           (@Outbox.attempts_at (Examples.always 500) (Examples.store Examples.delivery)
                                Examples.delivery Examples.due_times) !! "d1")
  = Some "failed".
Proof.
  destruct (@backoff_trace (Examples.always 500) (Examples.store Examples.delivery)
              Examples.delivery 0 Time.Minute (6 * Time.Minute) (21 * Time.Minute)
              (Time.Hour + 21 * Time.Minute) (7 * Time.Hour + 21 * Time.Minute))
    as (_ & _ & _ & _ & _ & (r & Hr & _ & Hs & _)).
  - reflexivity.
  - reflexivity.
  - reflexivity.
  - reflexivity.
  - change (webhook_deliveries
              (@Outbox.attempts_at (Examples.always 500) (Examples.store Examples.delivery)
                                   Examples.delivery Examples.due_times) !! "d1" = Some r) in Hr.
    rewrite Hr. simpl. by rewrite Hs.
Defined.

(** C3, the claim as stated fails: with [max_attempts = 6] the sixth
    failure already ends the delivery; the row is not pending with a
    retry 24 hours later, so there is no seventh attempt. *)
Lemma sixth_failure_is_terminal :
  ~ exists r,
      webhook_deliveries
        (@Outbox.attempts_at (Examples.always 500) (Examples.store Examples.delivery)
                             Examples.delivery Examples.due_times) !! "d1" = Some r
      /\ WebhookDelivery.Status r = "pending"
      /\ WebhookDelivery.NextAttemptAt r = 7 * Time.Hour + 21 * Time.Minute + 24 * Time.Hour.
Proof.
  intros (r & Hr & Hs & _).
  vm_compute in Hr. injection Hr as <-. discriminate.
Qed.

(** C4, as amended. One attempt on a stored delivery changes that row
    only. A 2xx answer makes it delivered, with [delivered_at = now] and
    [processing_started_at] cleared. Every other outcome adds one to
    [attempts]; the row becomes failed when the new count reaches
    [max_attempts] (6 when [max_attempts] is not positive), and otherwise
    pending with [next_attempt_at = now + schedule[attempts - 1]],
    counting from the first entry and staying on the last entry beyond
    six attempts. *)
Theorem attempt_transition `{Outbox.Runtime} (db : DB) (now : Z) (d : WebhookDelivery.t) :
  webhook_deliveries db !! WebhookDelivery.ID d = Some d ->
  let db' := Outbox.processWebhookDelivery db now d in
  (forall id, id <> WebhookDelivery.ID d ->
              webhook_deliveries db' !! id = webhook_deliveries db !! id)
  /\ exists d',
      webhook_deliveries db' !! WebhookDelivery.ID d = Some d'
      /\ (Outbox.answered_2xx d ->
          WebhookDelivery.Status d' = "delivered"
          /\ WebhookDelivery.DeliveredAt d' = Some now
          /\ WebhookDelivery.ProcessingStartedAt d' = None
          /\ WebhookDelivery.Attempts d' = WebhookDelivery.Attempts d)
      /\ (~ Outbox.answered_2xx d ->
          let attempts := GoInt.add (WebhookDelivery.Attempts d) 1 in
          let ceiling :=
            if WebhookDelivery.MaxAttempts d <=? 0 then 6 else WebhookDelivery.MaxAttempts d in
          WebhookDelivery.Attempts d' = attempts
          /\ WebhookDelivery.ProcessingStartedAt d' = None
          /\ WebhookDelivery.DeliveredAt d' = WebhookDelivery.DeliveredAt d
          /\ if attempts >=? ceiling
             then WebhookDelivery.Status d' = "failed"
                  /\ WebhookDelivery.NextAttemptAt d' = WebhookDelivery.NextAttemptAt d
             else WebhookDelivery.Status d' = "pending"
                  /\ WebhookDelivery.NextAttemptAt d'
                     = now + nth (Z.to_nat (Z.min (Z.max attempts 1) 6 - 1))
                                 [ Time.Minute; 5 * Time.Minute; 15 * Time.Minute;
                                   Time.Hour; 6 * Time.Hour; 24 * Time.Hour ] 0).
Proof.
  intros Hd db'. subst db'.
  destruct (process_step db now d d Hd eq_refl) as [[Hok ->] | [Hno (c & m & ->)]].
  - split; [intros id Hne; by apply update_delivery_ne|].
    eexists. split; [by apply update_delivery_eq|]. split; [|tauto].
    intros _. repeat split; reflexivity.
  - split; [intros id Hne; by apply update_delivery_ne|].
    eexists. split; [by apply update_delivery_eq|]. split; [tauto|].
    intros _.
    pose proof (fail_updates_fields now d c m) as (Hatt & Hps & _ & _ & _ & _ & Hdl & Hst).
    cbv zeta in *. rewrite Hatt, Hps, Hdl. repeat split.
    rewrite <- nextWebhookAttemptDelay_clamp_schedule. exact Hst.
Qed.

Lemma attempt_transition_witness :
  exists d',
    webhook_deliveries
      (@Outbox.processWebhookDelivery (Examples.always 503)
         (Examples.store Examples.delivery) 5 Examples.delivery) !! "d1" = Some d'
    /\ WebhookDelivery.Attempts d' = 1
    /\ WebhookDelivery.Status d' = "pending"
    /\ WebhookDelivery.NextAttemptAt d' = 5 + Time.Minute.
Proof.
  destruct (@attempt_transition (Examples.always 503) (Examples.store Examples.delivery)
              5 Examples.delivery)
    as (_ & d' & Hd' & _ & Hfail).
  - reflexivity.
  - exists d'. split; [exact Hd'|].
    destruct Hfail as (Ha & _ & _ & Hs).
    + intros (j & code & _ & _ & Hdo & Hc). injection Hdo as <-. lia.
    + split; [exact Ha|]. exact Hs.
Defined.

(** C4, the claim as stated fails. On the row the enqueue step creates,
    the first failure leaves [attempts = 1] and schedules the retry one
    minute later: the schedule entry at index [attempts - 1], not the one
    at index [attempts] (5 minutes). And a row whose [max_attempts] is 0
    is held to six attempts: after its first failure the counter (1) has
    reached [max_attempts] (0), yet the row is pending, not failed. *)
Lemma retry_delay_and_ceiling :
  let legacy :=
    {| WebhookDelivery.ID := "d0"; WebhookDelivery.OrganizationID := "org1";
       WebhookDelivery.WebhookID := "w1"; WebhookDelivery.Event := "message.incoming";
       WebhookDelivery.URL := "https://hooks.example.com/in"; WebhookDelivery.Headers := [];
       WebhookDelivery.Secret := "s3cret"; WebhookDelivery.Payload := Json.Null;
       WebhookDelivery.Status := "in_progress"; WebhookDelivery.Attempts := 0;
       WebhookDelivery.MaxAttempts := 0; WebhookDelivery.NextAttemptAt := 0;
       WebhookDelivery.LastError := ""; WebhookDelivery.LastStatusCode := 0;
       WebhookDelivery.ProcessingStartedAt := Some 0; WebhookDelivery.DeliveredAt := None |} in
  let row db := webhook_deliveries db in
  (fun d => (WebhookDelivery.Attempts d, WebhookDelivery.Status d,
             WebhookDelivery.NextAttemptAt d))
    <$> (row (@Outbox.processWebhookDelivery (Examples.always 500)
                (Examples.store Examples.delivery) 5 Examples.delivery) !! "d1")
  = Some (1, "pending", 5 + Time.Minute)
  /\ (fun d => (WebhookDelivery.Attempts d, WebhookDelivery.MaxAttempts d,
                WebhookDelivery.Status d))
       <$> (row (@Outbox.processWebhookDelivery (Examples.always 500) (Examples.store legacy)
                   5 legacy) !! "d0")
     = Some (1, 0, "pending").
Proof. split; vm_compute; reflexivity. Qed.

(** ** The retry action *)

Section RetryFacts.

Import WebhookDelivery Handlers.

Lemma retry_selects_iff (orgID webhookID : UUID) (d : WebhookDelivery.t) :
  retry_selects orgID webhookID d = true
  <-> OrganizationID d = orgID /\ WebhookID d = webhookID
      /\ (Status d = "failed"
          \/ ((Status d = "pending" \/ Status d = "in_progress") /\ LastError d <> "")).
Proof.
  unfold retry_selects.
  rewrite !andb_true_iff, !orb_true_iff, !andb_true_iff, !orb_true_iff,
    negb_true_iff, !String.eqb_eq, String.eqb_neq.
  tauto.
Qed.

Lemma retry_db (db : DB) (now : Z) (r : request) :
  ((forall d, ~ retry_applies db r d) /\ (RetryFailedWebhookDeliveries db now r).2 = db)
  \/ exists orgID webhookID wh,
      org r = Some orgID /\ path_id r = Some webhookID
      /\ findByIDAndOrg db webhookID orgID = Some wh
      /\ (RetryFailedWebhookDeliveries db now r).2
         = with_deliveries db
             ((fun d => if retry_selects orgID webhookID d then retry_reset now d else d)
                <$> webhook_deliveries db).
Proof.
  unfold RetryFailedWebhookDeliveries, retry_applies.
  destruct (org r) as [orgID|];
    [|left; split; [intros d (? & ? & ? & [=] & _)|reflexivity]].
  destruct (path_id r) as [webhookID|];
    [|left; split; [intros d (? & ? & ? & _ & [=] & _)|reflexivity]].
  destruct (findByIDAndOrg db webhookID orgID) as [wh|] eqn:Hf.
  - right. exists orgID, webhookID, wh. auto.
  - left. split; [|reflexivity].
    intros d (o & w & wh & [= <-] & [= <-] & Hf' & _). congruence.
Qed.

Lemma retry_applies_iff (db : DB) (r : request) (d : WebhookDelivery.t)
      (orgID webhookID : UUID) (wh : Webhook.t) :
  org r = Some orgID -> path_id r = Some webhookID ->
  findByIDAndOrg db webhookID orgID = Some wh ->
  retry_applies db r d <-> retry_selects orgID webhookID d = true.
Proof.
  intros Ho Hp Hf. rewrite retry_selects_iff. unfold retry_applies. split.
  - intros (o & w & wh' & Ho' & Hp' & _ & Hrest). rewrite Ho in Ho'. rewrite Hp in Hp'.
    injection Ho' as <-. injection Hp' as <-. exact Hrest.
  - intros Hrest. exists orgID, webhookID, wh. tauto.
Qed.

End RetryFacts.

(** C5, as amended. The retry action changes delivery rows only, and of
    those only the rows of the addressed webhook and tenant whose status
    is failed, or whose status is pending or in_progress with a non-empty
    [last_error]. Each such row becomes pending with
    [next_attempt_at = now], [processing_started_at], [last_error] and
    [last_status_code] cleared, and keeps its [attempts] counter; every
    other row stays as it was, and so does every row when the request is
    turned away before the update. *)
Theorem retry_resets_selected_rows (db : DB) (now : Z) (r : Handlers.request) :
  let db' := (Handlers.RetryFailedWebhookDeliveries db now r).2 in
  webhooks db' = webhooks db
  /\ forall id,
      match webhook_deliveries db !! id with
      | None => webhook_deliveries db' !! id = None
      | Some d =>
          exists d',
            webhook_deliveries db' !! id = Some d'
            /\ WebhookDelivery.Attempts d' = WebhookDelivery.Attempts d
            /\ WebhookDelivery.MaxAttempts d' = WebhookDelivery.MaxAttempts d
            /\ WebhookDelivery.Payload d' = WebhookDelivery.Payload d
            /\ WebhookDelivery.DeliveredAt d' = WebhookDelivery.DeliveredAt d
            /\ (Handlers.retry_applies db r d ->
                WebhookDelivery.Status d' = "pending"
                /\ WebhookDelivery.NextAttemptAt d' = now
                /\ WebhookDelivery.ProcessingStartedAt d' = None
                /\ WebhookDelivery.LastError d' = ""
                /\ WebhookDelivery.LastStatusCode d' = 0)
            /\ (~ Handlers.retry_applies db r d -> d' = d)
      end.
Proof.
  intros db'. subst db'.
  destruct (retry_db db now r) as [[Hnone ->] | (orgID & webhookID & wh & Ho & Hp & Hf & ->)].
  - split; [reflexivity|]. intros id.
    destruct (webhook_deliveries db !! id) as [d|] eqn:Hd; [|reflexivity].
    exists d. do 5 (split; [reflexivity|]).
    split; [intros Happ; by apply Hnone in Happ | reflexivity].
  - split; [reflexivity|]. intros id. simpl. rewrite lookup_fmap.
    destruct (webhook_deliveries db !! id) as [d|] eqn:Hd; [|reflexivity]. simpl.
    eexists. split; [reflexivity|].
    rewrite (retry_applies_iff db r d orgID webhookID wh Ho Hp Hf).
    destruct (Handlers.retry_selects orgID webhookID d);
      do 4 (split; [reflexivity|]); (split; [intros Hs|intros Hs]);
      auto; try congruence; try (exfalso; by apply Hs).
Qed.

Lemma retry_resets_selected_rows_witness :
  exists d',
    webhook_deliveries
      (Handlers.RetryFailedWebhookDeliveries
         (@Outbox.attempts_at (Examples.always 500) (Examples.store Examples.delivery)
                              Examples.delivery Examples.due_times)
         99 Examples.on_hook).2 !! "d1"
    = Some d'
    /\ WebhookDelivery.Status d' = "pending"
    /\ WebhookDelivery.NextAttemptAt d' = 99
    /\ WebhookDelivery.Attempts d' = 6.
Proof.
  set (db := @Outbox.attempts_at _ _ _ _).
  pose proof (retry_resets_selected_rows db 99 Examples.on_hook) as [_ Hrows].
  specialize (Hrows "d1"). cbv zeta in Hrows.
  assert (Hd : exists d, webhook_deliveries db !! "d1" = Some d
                         /\ WebhookDelivery.Status d = "failed"
                         /\ WebhookDelivery.Attempts d = 6
                         /\ WebhookDelivery.OrganizationID d = "org1"
                         /\ WebhookDelivery.WebhookID d = "w1").
  { vm_compute. eexists. repeat split. }
  destruct Hd as (d & Hd & Hst & Hat & Horg & Hwh). rewrite Hd in Hrows.
  destruct Hrows as (d' & Hd' & Ha & _ & _ & _ & Hsel & _).
  exists d'. split; [exact Hd'|].
  destruct Hsel as (Hs & Hn & _).
  - exists "org1", "w1", Examples.hook. split; [reflexivity|]. split; [reflexivity|].
    split; [vm_compute; reflexivity|]. auto.
  - split; [exact Hs|]. split; [exact Hn|]. by rewrite Ha.
Defined.

(** C5, the claim as stated fails: a pending row that carries the error
    of an earlier attempt and waits for its retry is rewritten as well;
    its [next_attempt_at] moves to now and its [last_error] is cleared. *)
Lemma retry_rewrites_pending_rows :
  let db := @Outbox.processWebhookDelivery (Examples.always 500)
              (Examples.store Examples.delivery) 5 Examples.delivery in
  let db' := (Handlers.RetryFailedWebhookDeliveries db 6 Examples.on_hook).2 in
  let columns d :=
    (WebhookDelivery.Status d, WebhookDelivery.NextAttemptAt d,
     negb (String.eqb (WebhookDelivery.LastError d) "")) in
  columns <$> (webhook_deliveries db !! "d1") = Some ("pending", 5 + Time.Minute, true)
  /\ columns <$> (webhook_deliveries db' !! "d1") = Some ("pending", 6, false).
Proof. split; vm_compute; reflexivity. Qed.

(** ** The request of a delivery *)

Section RequestFacts.

Import Outbox.

Lemma set_custom_absent (name : string) (headers : JSONB) (h : Http.Header) :
  ~ custom_header headers name ->
  set_custom h headers !! name = h !! name.
Proof.
  unfold custom_header. revert h.
  induction headers as [|[k v] rest IH]; intros h Hno; [reflexivity|].
  assert (Hrest : ~ exists k' v', (k', Json.Str v') ∈ rest
                                  /\ Http.CanonicalMIMEHeaderKey k' = name).
  { intros (k' & v' & Hin & Hc). apply Hno. exists k', v'. split; [by right|done]. }
  destruct v; simpl; rewrite ?IH by exact Hrest; try reflexivity.
  unfold Http.Set_. apply lookup_insert_ne.
  intros Hc. apply Hno. exists k, s. split; [by left|done].
Qed.

Lemma set_custom_last (pre post : JSONB) (k v : string) (h : Http.Header) :
  ~ custom_header post (Http.CanonicalMIMEHeaderKey k) ->
  set_custom h (pre ++ (k, Json.Str v) :: post) !! Http.CanonicalMIMEHeaderKey k = Some v.
Proof.
  intros Hpost. revert h. induction pre as [|[k' v'] pre IH]; intros h.
  - simpl. rewrite set_custom_absent by exact Hpost.
    unfold Http.Set_. apply lookup_insert_eq.
  - destruct v'; simpl; apply IH.
Qed.

Lemma canonical_fixed :
  Http.CanonicalMIMEHeaderKey "X-Webhook-Signature" = "X-Webhook-Signature"
  /\ Http.CanonicalMIMEHeaderKey "Content-Type" = "Content-Type"
  /\ Http.CanonicalMIMEHeaderKey "User-Agent" = "User-Agent".
Proof. repeat split; vm_compute; reflexivity. Qed.

Lemma Head_build (url : string) (headers : JSONB) (secret jsonData : string) :
  Http.Head (buildWebhookRequest url headers secret jsonData)
  = let h1 := set_custom (Http.Set_ (Http.Set_ ∅ "Content-Type" "application/json")
                                    "User-Agent" "Whatomate-Webhook/1.0") headers in
    if negb (String.eqb secret "")
    then <["X-Webhook-Signature" := Signature.computeHMACSignature jsonData secret]> h1
    else h1.
Proof.
  unfold buildWebhookRequest, Http.Head. cbv zeta.
  destruct (negb (String.eqb secret "")); [|reflexivity].
  unfold Http.Set_ at 1. by rewrite (proj1 canonical_fixed).
Qed.

Lemma request_signature (url : string) (headers : JSONB) (secret jsonData : string) :
  secret <> "" ->
  Http.Get (Http.Head (buildWebhookRequest url headers secret jsonData)) "X-Webhook-Signature"
  = Some (Signature.computeHMACSignature jsonData secret).
Proof.
  intros Hs. unfold Http.Get. rewrite Head_build, (proj1 canonical_fixed). cbv zeta.
  apply String.eqb_neq in Hs. rewrite Hs. cbn [negb].
  apply lookup_insert_eq.
Qed.

(** A header other than the signature is what the custom headers made
    of the two defaults. *)
Lemma request_other_header (url : string) (headers : JSONB) (secret jsonData name : string) :
  name <> "X-Webhook-Signature" \/ secret = "" ->
  Http.Head (buildWebhookRequest url headers secret jsonData) !! name
  = set_custom (Http.Set_ (Http.Set_ ∅ "Content-Type" "application/json")
                          "User-Agent" "Whatomate-Webhook/1.0") headers !! name.
Proof.
  intros Hn. rewrite Head_build. cbv zeta.
  destruct (String.eqb secret "") eqn:Hs; cbn [negb]; [reflexivity|].
  destruct Hn as [Hn | ->]; [|discriminate].
  rewrite lookup_insert_ne; [reflexivity|]. congruence.
Qed.

Lemma default_headers (name : string) :
  (Http.Set_ (Http.Set_ ∅ "Content-Type" "application/json")
             "User-Agent" "Whatomate-Webhook/1.0" : Http.Header) !! name
  = if String.eqb name "User-Agent" then Some "Whatomate-Webhook/1.0"
    else if String.eqb name "Content-Type" then Some "application/json"
    else None.
Proof.
  unfold Http.Set_.
  rewrite (proj1 (proj2 canonical_fixed)), (proj2 (proj2 canonical_fixed)).
  destruct (String.eqb name "User-Agent") eqn:E1.
  - apply String.eqb_eq in E1. subst. apply lookup_insert_eq.
  - apply String.eqb_neq in E1. rewrite lookup_insert_ne by congruence.
    destruct (String.eqb name "Content-Type") eqn:E2.
    + apply String.eqb_eq in E2. subst. apply lookup_insert_eq.
    + apply String.eqb_neq in E2. rewrite lookup_insert_ne by congruence.
      apply lookup_empty.
Qed.

End RequestFacts.

(** C6, as amended. The request of a delivery is a POST to the row's URL
    whose body is the encoded payload of the row, and the payload of an
    enqueued row is the envelope with [delivery_id], [event], [timestamp]
    and [data]. When the secret is not empty the request carries
    [X-Webhook-Signature], "sha256=" and the hex HMAC-SHA-256 of exactly
    those body bytes under the secret; with an empty secret it carries no
    signature of its own. [Content-Type: application/json] and the
    [User-Agent] are set unless a custom header of the same canonical
    name replaces them, and a custom header with a string value is
    carried unless a later custom header of the same canonical name, or
    the signature, replaces it. *)
Theorem delivery_request_shape `{Outbox.Runtime} (url : string) (headers : JSONB)
        (secret jsonData : string) :
  let req := Outbox.buildWebhookRequest url headers secret jsonData in
  (forall db d sent,
      webhook_deliveries db !! WebhookDelivery.ID d = Some d ->
      Outbox.delivery_request db d = Some sent ->
      exists body,
        Outbox.json_Marshal (WebhookDelivery.Payload d) = inl body
        /\ sent = Outbox.buildWebhookRequest (WebhookDelivery.URL d) (WebhookDelivery.Headers d)
                                              (WebhookDelivery.Secret d) body)
  /\ (forall orgID webhook deliveryID stamped due eventType data,
         WebhookDelivery.Payload
           (Dispatch.newDelivery orgID webhook deliveryID stamped due eventType data)
         = Json.Obj [ ("delivery_id", Json.Str deliveryID); ("event", Json.Str eventType);
                      ("timestamp", Json.Str (Outbox.time_Format stamped)); ("data", data) ])
  /\ Http.Method req = "POST" /\ Http.URL req = url /\ Http.Body req = jsonData
  /\ (secret <> "" ->
      Http.Get (Http.Head req) "X-Webhook-Signature"
      = Some (Signature.computeHMACSignature jsonData secret))
  /\ (secret = "" -> ~ Outbox.custom_header headers "X-Webhook-Signature" ->
      Http.Get (Http.Head req) "X-Webhook-Signature" = None)
  /\ (~ Outbox.custom_header headers "Content-Type" ->
      Http.Get (Http.Head req) "Content-Type" = Some "application/json")
  /\ (~ Outbox.custom_header headers "User-Agent" ->
      Http.Get (Http.Head req) "User-Agent" = Some "Whatomate-Webhook/1.0")
  /\ (forall pre k v post,
         headers = pre ++ (k, Json.Str v) :: post ->
         ~ Outbox.custom_header post (Http.CanonicalMIMEHeaderKey k) ->
         secret = "" \/ Http.CanonicalMIMEHeaderKey k <> "X-Webhook-Signature" ->
         Http.Get (Http.Head req) k = Some v).
Proof.
  intros req. subst req. split; [|split; [|split; [|split; [|split; [|split; [|split; [|split; [|split]]]]]]]].
  - intros db d sent Hd. unfold Outbox.delivery_request. rewrite Hd.
    destruct (Outbox.json_Marshal _) as [body|]; [|discriminate].
    destruct (Outbox.http_NewRequest _); [discriminate|].
    intros [= <-]. eauto.
  - reflexivity.
  - reflexivity.
  - reflexivity.
  - reflexivity.
  - apply request_signature.
  - intros -> Hno. unfold Http.Get.
    rewrite request_other_header by (by right).
    rewrite (proj1 canonical_fixed), set_custom_absent by exact Hno.
    by rewrite default_headers.
  - intros Hno. unfold Http.Get. rewrite (proj1 (proj2 canonical_fixed)).
    rewrite request_other_header by (left; discriminate).
    rewrite set_custom_absent by exact Hno.
    by rewrite default_headers.
  - intros Hno. unfold Http.Get. rewrite (proj2 (proj2 canonical_fixed)).
    rewrite request_other_header by (left; discriminate).
    rewrite set_custom_absent by exact Hno.
    by rewrite default_headers.
  - intros pre k v post -> Hpost Hsig. unfold Http.Get.
    rewrite request_other_header by tauto.
    by apply set_custom_last.
Qed.

Lemma delivery_request_shape_witness :
  Http.Get (Http.Head (Outbox.buildWebhookRequest "https://hooks.example.com/in"
                         [("x-tenant", Json.Str "acme"); ("x-retries", Json.Num 3)]
                         "s3cret" "{}")) "X-Tenant" = Some "acme"
  /\ Http.Get (Http.Head (Outbox.buildWebhookRequest "https://hooks.example.com/in"
                            [("x-tenant", Json.Str "acme"); ("x-retries", Json.Num 3)]
                            "s3cret" "{}")) "X-Webhook-Signature"
     = Some (Signature.computeHMACSignature "{}" "s3cret").
Proof.
  pose proof (@delivery_request_shape (Examples.always 200) "https://hooks.example.com/in"
                [("x-tenant", Json.Str "acme"); ("x-retries", Json.Num 3)] "s3cret" "{}")
    as (_ & _ & _ & _ & _ & Hsig & _ & _ & _ & Hcustom).
  split.
  - apply (Hcustom [] "x-tenant" "acme" [("x-retries", Json.Num 3)]).
    + reflexivity.
    + intros (k & v & Hin & _). apply list_elem_of_In in Hin. simpl in Hin.
      destruct Hin as [Hin|[]]. discriminate.
    + right. vm_compute. discriminate.
  - apply Hsig. discriminate.
Defined.

(** C6, the claim as stated fails: a custom header named content-type
    replaces [application/json], and a delivery whose secret is empty is
    sent without [X-Webhook-Signature]. *)
Lemma request_without_default_headers :
  Http.Get (Http.Head (Outbox.buildWebhookRequest "https://hooks.example.com/in"
                         [("content-type", Json.Str "text/plain")] "s3cret" "{}"))
           "Content-Type" = Some "text/plain"
  /\ Http.Get (Http.Head (Outbox.buildWebhookRequest "https://hooks.example.com/in" [] "" "{}"))
              "X-Webhook-Signature" = None.
Proof. split; vm_compute; reflexivity. Qed.

(** ** The media sweeper *)

Section SweeperFacts.

Import Media.

Variables (cwd : option string) (baseAbs : string) (cutoff : Z).

Local Abbreviation run := (fold_left (visit cwd baseAbs cutoff)).

Lemma resolve_spec (relPath p : string) :
  resolve cwd baseAbs relPath = Some p
  <-> Bytes.Contains relPath ".." = false
      /\ Filepath.Abs cwd (Filepath.Join baseAbs relPath) = Some p
      /\ under_root baseAbs p = true.
Proof.
  unfold resolve, under_root.
  destruct (Bytes.Contains relPath "..").
  { split; [discriminate | intros [[=] _]]. }
  destruct (Filepath.Abs cwd _) as [fullAbs|].
  2:{ split; [discriminate | intros (_ & [=] & _)]. }
  destruct (negb (Bytes.HasPrefix fullAbs (baseAbs +:+ Filepath.Separator))
            && negb (String.eqb fullAbs baseAbs)) eqn:E.
  - split; [discriminate|]. intros (_ & [= <-] & Hu).
    apply andb_true_iff in E as [E1 E2]. apply negb_true_iff in E1, E2.
    rewrite E1, E2 in Hu. discriminate.
  - split.
    + intros [= <-]. repeat split; auto.
      apply andb_false_iff in E as [E|E]; apply negb_false_iff in E; rewrite E;
        auto using orb_true_r.
    + intros (_ & [= <-] & _). reflexivity.
Qed.

Lemma Remove_file (fs : gmap string FileInfo) (p : string) (info : FileInfo) :
  fs !! p = Some info -> IsDir info = false -> Remove fs p = Some (delete p fs).
Proof. intros Hp Hd. unfold Remove. by rewrite Hp, Hd. Qed.

(** One iteration leaves the files alone or removes exactly one
    regular file that is old enough, at the resolved path. *)
Lemma visit_cases (st : sweep) (relPath : string) :
  fs_of (visit cwd baseAbs cutoff st relPath) = fs_of st
  \/ exists p info,
      resolve cwd baseAbs relPath = Some p
      /\ fs_of st !! p = Some info /\ IsDir info = false /\ ModTime info <= cutoff
      /\ fs_of (visit cwd baseAbs cutoff st relPath) = delete p (fs_of st).
Proof.
  unfold visit. cbn [fs_of].
  destruct (resolve cwd baseAbs relPath) as [p|] eqn:Hr; [|by left].
  unfold Stat. destruct (fs_of st !! p) as [info|] eqn:Hp; [|by left].
  destruct (IsDir info) eqn:Hd; [by left|].
  destruct (cutoff <? ModTime info) eqn:Hc; [by left|].
  rewrite (Remove_file _ _ _ Hp Hd). right. exists p, info.
  apply Z.ltb_ge in Hc. auto.
Qed.

Lemma visit_deletes (st : sweep) (relPath p : string) (info : FileInfo) :
  resolve cwd baseAbs relPath = Some p ->
  fs_of st !! p = Some info -> IsDir info = false -> ModTime info <= cutoff ->
  fs_of (visit cwd baseAbs cutoff st relPath) !! p = None.
Proof.
  intros Hr Hp Hd Hc. unfold visit. cbn [fs_of]. rewrite Hr. unfold Stat. rewrite Hp, Hd.
  apply Z.ltb_ge in Hc. rewrite Hc, (Remove_file _ _ _ Hp Hd). cbn [fs_of].
  apply lookup_delete_eq.
Qed.

(** The sweep only removes entries. *)
Lemma run_subseteq (l : list string) (st : sweep) : fs_of (run l st) ⊆ fs_of st.
Proof.
  revert st. induction l as [|x l IH]; intros st; [reflexivity|].
  cbn [fold_left]. etrans; [apply IH|].
  destruct (visit_cases st x) as [-> | (p & info & _ & _ & _ & _ & ->)];
    [reflexivity | apply delete_subseteq].
Qed.

Lemma run_gone (l : list string) (st : sweep) (p : string) :
  fs_of st !! p = None -> fs_of (run l st) !! p = None.
Proof. intros Hp. eapply lookup_weaken_None; [exact Hp | apply run_subseteq]. Qed.

(** Every entry the sweep removed was removed on behalf of a visited
    path that resolves to it, and was a regular file old enough. *)
Lemma run_removed (l : list string) (st : sweep) (p : string) (info : FileInfo) :
  fs_of st !! p = Some info -> fs_of (run l st) !! p = None ->
  IsDir info = false /\ ModTime info <= cutoff
  /\ exists relPath, In relPath l /\ resolve cwd baseAbs relPath = Some p.
Proof.
  revert st. induction l as [|x l IH]; intros st Hp Hgone; [cbn in Hgone; congruence|].
  cbn [fold_left] in Hgone.
  destruct (visit_cases st x) as [Hsame | (p0 & info0 & Hr & Hp0 & Hd & Hc & Hdel)].
  - rewrite <- Hsame in Hp. destruct (IH _ Hp Hgone) as (? & ? & relPath & ? & ?).
    repeat split; auto. exists relPath. split; [by right|done].
  - destruct (decide (p0 = p)) as [->|Hne].
    + rewrite Hp in Hp0. injection Hp0 as <-.
      repeat split; auto. exists x. split; [by left|done].
    + assert (Hp' : fs_of (visit cwd baseAbs cutoff st x) !! p = Some info).
      { rewrite Hdel. by rewrite lookup_delete_ne. }
      destruct (IH _ Hp' Hgone) as (? & ? & relPath & ? & ?).
      repeat split; auto. exists relPath. split; [by right|done].
Qed.

(** Every visited path that resolves to a regular file old enough has
    that file removed by the end of the sweep. *)
Lemma run_removes (l : list string) (st : sweep) (relPath p : string) (info : FileInfo) :
  In relPath l -> resolve cwd baseAbs relPath = Some p ->
  fs_of st !! p = Some info -> IsDir info = false -> ModTime info <= cutoff ->
  fs_of (run l st) !! p = None.
Proof.
  revert st. induction l as [|x l IH]; intros st Hin Hr Hp Hd Hc; [destruct Hin|].
  cbn [fold_left]. destruct Hin as [-> | Hin].
  - apply run_gone. by eapply visit_deletes.
  - destruct (visit_cases st x) as [Hsame | (p0 & info0 & _ & _ & _ & _ & Hdel)].
    + apply (IH _ Hin Hr); auto. by rewrite Hsame.
    + destruct (decide (p0 = p)) as [->|Hne].
      * apply run_gone. rewrite Hdel. apply lookup_delete_eq.
      * apply (IH _ Hin Hr); auto. rewrite Hdel. by rewrite lookup_delete_ne.
Qed.

End SweeperFacts.

Lemma collect_spec (found : list string) (paths : gset string) (x : string) :
  x ∈ Media.collect paths found <-> x ∈ paths \/ (In x found /\ x <> "").
Proof.
  unfold Media.collect. revert paths.
  induction found as [|y found IH]; intros paths; cbn [fold_left].
  - simpl. tauto.
  - rewrite IH. destruct (String.eqb y "") eqn:E; cbn [negb].
    + apply String.eqb_eq in E. subst y. simpl. intuition congruence.
    + apply String.eqb_neq in E. rewrite elem_of_union, elem_of_singleton. simpl.
      intuition (subst; auto).
Qed.

Lemma message_paths_nonempty (messages : list Media.Message) (orgID x : string) :
  In x (Media.message_paths messages orgID) -> x <> "".
Proof.
  unfold Media.message_paths. intros Hin.
  apply in_map_iff in Hin as (m & <- & Hm). apply filter_In in Hm as [_ Hm].
  apply andb_true_iff in Hm as [_ Hm]. apply negb_true_iff in Hm. by apply String.eqb_neq.
Qed.

Lemma campaign_paths_nonempty (campaigns : list Media.BulkMessageCampaign) (orgID x : string) :
  In x (Media.campaign_paths campaigns orgID) -> x <> "".
Proof.
  unfold Media.campaign_paths. intros Hin.
  apply in_map_iff in Hin as (m & <- & Hm). apply filter_In in Hm as [_ Hm].
  apply andb_true_iff in Hm as [_ Hm]. apply negb_true_iff in Hm. by apply String.eqb_neq.
Qed.

(** C7. The sweep only removes entries of the file system. An entry it
    removes is a regular file with a modification time at or before the
    cutoff, reached through a referenced path of the tenant that contains
    no "..", and it lies under the media root (or is the root path
    itself); so no directory, no missing file, no newer file, no path
    outside the root and nothing on behalf of a path with ".." is ever
    removed. Conversely a regular file with a modification time at or
    before the cutoff, under the root, that a referenced path without
    ".." resolves to is removed by the end of the sweep. *)
Theorem sweeper_path_safety (range : gset string -> list string)
        (messages : list Media.Message) (campaigns : list Media.BulkMessageCampaign)
        (basePath : string) (cwd : option string) (orgID : string) (cutoff : Z)
        (fs : gmap string Media.FileInfo) :
  (forall s, range s ≡ₚ elements s) ->
  let out := Media.cleanupOrganizationMedia range messages campaigns basePath cwd orgID cutoff fs in
  let referenced relPath :=
    In relPath (Media.message_paths messages orgID)
    \/ In relPath (Media.campaign_paths campaigns orgID) in
  Media.fs_of out ⊆ fs
  /\ (forall p info,
         fs !! p = Some info -> Media.fs_of out !! p = None ->
         Media.IsDir info = false /\ Media.ModTime info <= cutoff
         /\ exists baseAbs relPath,
             Filepath.Abs cwd basePath = Some baseAbs
             /\ referenced relPath
             /\ Bytes.Contains relPath ".." = false
             /\ Filepath.Abs cwd (Filepath.Join baseAbs relPath) = Some p
             /\ Media.under_root baseAbs p = true)
  /\ (forall baseAbs relPath p info,
         Filepath.Abs cwd basePath = Some baseAbs ->
         referenced relPath ->
         Bytes.Contains relPath ".." = false ->
         Filepath.Abs cwd (Filepath.Join baseAbs relPath) = Some p ->
         Media.under_root baseAbs p = true ->
         fs !! p = Some info -> Media.IsDir info = false -> Media.ModTime info <= cutoff ->
         Media.fs_of out !! p = None).
Proof.
  intros Hrange out referenced. subst out referenced.
  unfold Media.cleanupOrganizationMedia.
  set (paths := Media.collect _ _).
  assert (Hvisited : forall x, In x (range paths)
                               <-> In x (Media.message_paths messages orgID)
                                   \/ In x (Media.campaign_paths campaigns orgID)).
  { intros x. rewrite <- list_elem_of_In, (Hrange paths), elem_of_elements.
    subst paths. rewrite !collect_spec, elem_of_empty. split.
    - intros [[[]|[? _]]|[? _]]; auto.
    - intros [Hm|Hc]; [left; right|right]; split; eauto using message_paths_nonempty,
        campaign_paths_nonempty. }
  destruct (Filepath.Abs cwd basePath) as [baseAbs|] eqn:Hbase.
  - set (st0 := {| Media.fs_of := fs; Media.deleted := 0; Media.checked := 0 |}).
    change fs with (Media.fs_of st0).
    split; [apply (run_subseteq cwd baseAbs cutoff (range paths))|]. split.
    + intros p info Hp Hgone.
      destruct (run_removed cwd baseAbs cutoff (range paths) st0 p info Hp Hgone)
        as (Hd & Hc & relPath & Hin & Hr).
      apply resolve_spec in Hr as (Hdots & Habs & Hroot).
      repeat split; auto. exists baseAbs, relPath. rewrite <- Hvisited. auto.
    + intros baseAbs' relPath p info [= <-] Href Hdots Habs Hroot Hp Hd Hc.
      apply (run_removes cwd baseAbs cutoff (range paths) st0 relPath p info); auto.
      * by apply Hvisited.
      * apply resolve_spec. auto.
  - cbn [Media.fs_of]. split; [reflexivity|]. split.
    + intros p info Hp Hgone. congruence.
    + intros baseAbs' relPath p info [=].
Qed.

Lemma sweeper_path_safety_witness :
  Media.fs_of (Media.cleanupOrganizationMedia elements Media.example_messages []
                 "/srv/media/" (Some "/opt/app") "org1" 50 Media.example_fs)
  !! "/srv/media/org1/a.jpg" = None.
Proof.
  refine (proj2 (proj2 (sweeper_path_safety elements Media.example_messages []
                          "/srv/media/" (Some "/opt/app") "org1" 50 Media.example_fs _))
                "/srv/media" "org1/a.jpg" "/srv/media/org1/a.jpg"
                {| Media.IsDir := false; Media.ModTime := 10 |} _ _ _ _ _ _ _ _).
  - intros s. reflexivity.
  - vm_compute. reflexivity.
  - left. vm_compute. auto.
  - vm_compute. reflexivity.
  - vm_compute. reflexivity.
  - vm_compute. reflexivity.
  - vm_compute. reflexivity.
  - reflexivity.
  - simpl. lia.
Defined.

(** The sweep of the sample tenant removes its old upload and nothing
    else: not the file outside the root, not the file whose stored name
    has two dots in a row, not another tenant's file, not a directory. *)
Example sweep_sample :
  dom (Media.fs_of (Media.cleanupOrganizationMedia elements Media.example_messages []
                      "/srv/media/" (Some "/opt/app") "org1" 50 Media.example_fs))
  = dom Media.example_fs ∖ {[ "/srv/media/org1/a.jpg" ]}.
Proof. vm_compute. reflexivity. Qed.

(** ** Interactive buttons *)

Section ButtonFacts.

Import WhatsApp.

Lemma take_length (n : nat) (s : string) :
  String.length (Bytes.take n s) = Nat.min n (String.length s).
Proof. revert s. induction n as [|n IH]; intros [|c s]; simpl; auto. Qed.

Lemma take_prefix (n : nat) (s : string) : Bytes.HasPrefix s (Bytes.take n s) = true.
Proof.
  revert s. induction n as [|n IH]; intros [|c s]; simpl; auto.
  by rewrite Ascii.eqb_refl.
Qed.

Lemma HasPrefix_refl (s : string) : Bytes.HasPrefix s s = true.
Proof. induction s; simpl; auto. by rewrite Ascii.eqb_refl. Qed.

(** A truncated title is the title cut after [n] bytes: a prefix of the
    title, at most [n] bytes long, and the title itself when that is
    short enough. *)
Lemma truncate_spec (n : nat) (title : string) :
  (String.length (truncate n title) <= n)%nat
  /\ Bytes.HasPrefix title (truncate n title) = true
  /\ String.length (truncate n title) = Nat.min n (String.length title)
  /\ ((String.length title <= n)%nat -> truncate n title = title).
Proof.
  unfold truncate. destruct (Nat.ltb n (String.length title)) eqn:E.
  - apply Nat.ltb_lt in E. rewrite take_length. repeat split; try lia.
    apply take_prefix.
  - apply Nat.ltb_ge in E. repeat split; try lia. apply HasPrefix_refl.
Qed.

(** Cutting a title is taking its first [n] bytes, the whole title
    when it has no more. *)
Lemma truncate_substring (n : nat) (title : string) :
  truncate n title = String.substring 0 n title.
Proof.
  unfold truncate. destruct (Nat.ltb n (String.length title)) eqn:E.
  - clear E. revert title. induction n as [|n IH]; intros [|c s]; simpl; auto.
    by rewrite IH.
  - apply Nat.ltb_ge in E. revert title E.
    induction n as [|n IH]; intros [|c s] E; simpl in *; auto; [lia|].
    f_equal. apply IH. lia.
Qed.

Lemma substring_prefix (n : nat) (s : string) :
  exists rest, s = String.substring 0 n s +:+ rest
               /\ String.length (String.substring 0 n s) = Nat.min n (String.length s).
Proof.
  rewrite <- truncate_substring.
  destruct (truncate_spec n s) as (_ & Hp & Hl & _).
  exists (Bytes.drop (String.length (truncate n s)) s). split; [|exact Hl].
  by apply HasPrefix_split.
Qed.

End ButtonFacts.

(** C8. Sending with no button or with more than ten buttons fails
    before anything is sent. With one to three buttons the payload handed
    to the transport is the interactive "button" format, one reply button
    per button, in order, whose title is the first 20 bytes of the
    button's title; with four to ten it is the interactive "list" format,
    one row per button, in order, whose title is the first 24 bytes of
    the button's title. The first [n] bytes of a title are the whole
    title when it has no more than [n]. *)
Theorem interactive_buttons_rendering `{WhatsApp.Api} (account : WhatsApp.Account)
        (phoneNumber bodyText : string) (buttons : list WhatsApp.Button) :
  let send := WhatsApp.SendInteractiveButtons account phoneNumber bodyText buttons in
  let message interactive :=
    Json.Obj [ ("messaging_product", Json.Str "whatsapp");
               ("recipient_type", Json.Str "individual");
               ("to", Json.Str phoneNumber);
               ("type", Json.Str "interactive");
               ("interactive", interactive) ] in
  let sent payload :=
    send = WhatsApp.finish
             (WhatsApp.doRequest "POST" (WhatsApp.buildMessagesURL account) payload
                                 (WhatsApp.AccessToken account)) in
  (length buttons = 0%nat -> send = inr "at least one button is required")
  /\ ((10 < length buttons)%nat -> send = inr "maximum 10 buttons allowed")
  /\ ((1 <= length buttons <= 3)%nat ->
      sent (message
              (Json.Obj
                 [ ("type", Json.Str "button");
                   ("body", Json.Obj [ ("text", Json.Str bodyText) ]);
                   ("action",
                    Json.Obj
                      [ ("buttons",
                         Json.Arr
                           (map (fun btn =>
                                   Json.Obj
                                     [ ("type", Json.Str "reply");
                                       ("reply",
                                        Json.Obj
                                          [ ("id", Json.Str (WhatsApp.ID btn));
                                            ("title",
                                             Json.Str
                                               (String.substring 0 20 (WhatsApp.Title btn))) ]) ])
                                buttons)) ]) ])))
  /\ ((4 <= length buttons <= 10)%nat ->
      sent (message
              (Json.Obj
                 [ ("type", Json.Str "list");
                   ("body", Json.Obj [ ("text", Json.Str bodyText) ]);
                   ("action",
                    Json.Obj
                      [ ("button", Json.Str "Select an option");
                        ("sections",
                         Json.Arr
                           [ Json.Obj
                               [ ("title", Json.Str "Options");
                                 ("rows",
                                  Json.Arr
                                    (map (fun btn =>
                                            Json.Obj
                                              [ ("id", Json.Str (WhatsApp.ID btn));
                                                ("title",
                                                 Json.Str
                                                   (String.substring 0 24
                                                      (WhatsApp.Title btn))) ])
                                         buttons)) ] ]) ]) ])))
  /\ (forall n title,
         (exists rest, title = String.substring 0 n title +:+ rest)
         /\ String.length (String.substring 0 n title) = Nat.min n (String.length title)
         /\ ((String.length title <= n)%nat -> String.substring 0 n title = title)).
Proof.
  intros send message sent. subst send message sent.
  unfold WhatsApp.SendInteractiveButtons, WhatsApp.interactive_payload, WhatsApp.interactive.
  assert (Hreply : forall l, map WhatsApp.reply_button l
                             = map (fun btn =>
                                      Json.Obj
                                        [ ("type", Json.Str "reply");
                                          ("reply",
                                           Json.Obj
                                             [ ("id", Json.Str (WhatsApp.ID btn));
                                               ("title",
                                                Json.Str
                                                  (String.substring 0 20 (WhatsApp.Title btn))) ]) ])
                                   l).
  { intros l. apply map_ext. intros btn. unfold WhatsApp.reply_button.
    by rewrite truncate_substring. }
  assert (Hrow : forall l, map WhatsApp.list_row l
                           = map (fun btn =>
                                    Json.Obj
                                      [ ("id", Json.Str (WhatsApp.ID btn));
                                        ("title",
                                         Json.Str
                                           (String.substring 0 24 (WhatsApp.Title btn))) ])
                                 l).
  { intros l. apply map_ext. intros btn. unfold WhatsApp.list_row.
    by rewrite truncate_substring. }
  split; [|split; [|split; [|split]]].
  - intros ->. reflexivity.
  - intros Hlen. destruct (Nat.eqb (length buttons) 0) eqn:E0; [apply Nat.eqb_eq in E0; lia|].
    apply Nat.ltb_lt in Hlen. by rewrite Hlen.
  - intros [Hlo Hhi].
    destruct (Nat.eqb (length buttons) 0) eqn:E0; [apply Nat.eqb_eq in E0; lia|].
    destruct (Nat.ltb 10 (length buttons)) eqn:E10; [apply Nat.ltb_lt in E10; lia|].
    apply Nat.leb_le in Hhi. rewrite Hhi, Hreply. reflexivity.
  - intros [Hlo Hhi].
    destruct (Nat.eqb (length buttons) 0) eqn:E0; [apply Nat.eqb_eq in E0; lia|].
    destruct (Nat.ltb 10 (length buttons)) eqn:E10; [apply Nat.ltb_lt in E10; lia|].
    destruct (Nat.leb (length buttons) 3) eqn:E3; [apply Nat.leb_le in E3; lia|].
    rewrite Hrow. reflexivity.
  - intros n title. destruct (substring_prefix n title) as (rest & Hrest & Hlen).
    split; [eauto|]. split; [exact Hlen|].
    intros Hshort. rewrite <- truncate_substring. by apply truncate_spec.
Qed.

Lemma interactive_buttons_rendering_witness :
  let account := {| WhatsApp.PhoneID := "15550001"; WhatsApp.AccessToken := "token" |} in
  let long := "Yes please, as soon as possible" in
  @WhatsApp.SendInteractiveButtons WhatsApp.echo_api account "15559876543" "Pick one"
    [ {| WhatsApp.ID := "yes"; WhatsApp.Title := long |};
      {| WhatsApp.ID := "no"; WhatsApp.Title := "No" |} ]
  = inl ("POST https://graph.example.com/15550001/messages "
         +:+ "{messaging_product:whatsapp,recipient_type:individual,to:15559876543,"
         +:+ "type:interactive,interactive:{type:button,body:{text:Pick one},"
         +:+ "action:{buttons:[{type:reply,reply:{id:yes,title:Yes please, as soon }},"
         +:+ "{type:reply,reply:{id:no,title:No}}]}}}")
  /\ @WhatsApp.SendInteractiveButtons WhatsApp.echo_api account "15559876543" "Pick one"
       (map (fun id => {| WhatsApp.ID := id; WhatsApp.Title := long |}) ["a"; "b"; "c"; "d"])
     = inl ("POST https://graph.example.com/15550001/messages "
            +:+ "{messaging_product:whatsapp,recipient_type:individual,to:15559876543,"
            +:+ "type:interactive,interactive:{type:list,body:{text:Pick one},"
            +:+ "action:{button:Select an option,sections:[{title:Options,rows:["
            +:+ "{id:a,title:Yes please, as soon as p},{id:b,title:Yes please, as soon as p},"
            +:+ "{id:c,title:Yes please, as soon as p},{id:d,title:Yes please, as soon as p}"
            +:+ "]}]}}}")
  /\ @WhatsApp.SendInteractiveButtons WhatsApp.echo_api account "15559876543" "Pick one" []
     = inr "at least one button is required".
Proof.
  intros account long. split; [|split].
  - rewrite (proj1 (proj2 (proj2 (@interactive_buttons_rendering WhatsApp.echo_api
               account "15559876543" "Pick one"
               [ {| WhatsApp.ID := "yes"; WhatsApp.Title := long |};
                 {| WhatsApp.ID := "no"; WhatsApp.Title := "No" |} ])))).
    + vm_compute. reflexivity.
    + simpl. lia.
  - rewrite (proj1 (proj2 (proj2 (proj2 (@interactive_buttons_rendering WhatsApp.echo_api
               account "15559876543" "Pick one"
               (map (fun id => {| WhatsApp.ID := id; WhatsApp.Title := long |})
                    ["a"; "b"; "c"; "d"])))))).
    + vm_compute. reflexivity.
    + simpl. lia.
  - apply (proj1 (@interactive_buttons_rendering WhatsApp.echo_api
               account "15559876543" "Pick one" [])).
    reflexivity.
Defined.

(** ** WebSocket upgrade *)

(** C9, as amended. A request without a token, or with a token the JWT
    library rejects under the configured secret, is answered 401 and the
    hub is left as it was. A request with a valid token is handed to the
    upgrader: when the upgrade goes through (a well-formed handshake from
    an allowed origin) the client is registered with the user and
    organization of the token's claims; when it does not, the answer is
    500 and nothing is registered. *)
Theorem websocket_authentication `{WS.JwtLib} (secret : string) (allowedOrigins : list string)
        (hub : list WS.Client) (r : WS.Request) :
  let out := WS.WebSocketHandler secret allowedOrigins hub r in
  (WS.token r = "" -> out = (WS.ErrorEnvelope 401 "Missing token", hub))
  /\ (forall token err,
         WS.token r <> "" -> WS.ParseWithClaims (WS.token r) secret = (token, Some err) ->
         out = (WS.ErrorEnvelope 401 "Invalid token", hub))
  /\ (forall token,
         WS.token r <> "" -> WS.ParseWithClaims (WS.token r) secret = (token, None) ->
         (WS.Upgrade allowedOrigins r = true ->
          out = (WS.Upgraded,
                 WS.Register hub {| WS.conn := WS.connection r;
                                    WS.userID := WS.UserID (WS.Claims token);
                                    WS.orgID := WS.OrganizationID (WS.Claims token) |}))
         /\ (WS.Upgrade allowedOrigins r = false ->
             out = (WS.ErrorEnvelope 500 "WebSocket upgrade failed", hub))).
Proof.
  intros out. subst out. unfold WS.WebSocketHandler, WS.validateWSToken.
  split; [|split].
  - intros ->. reflexivity.
  - intros token err Ht Hp. apply String.eqb_neq in Ht. rewrite Ht, Hp.
    rewrite bool_decide_true by discriminate. reflexivity.
  - intros token Ht Hp. apply String.eqb_neq in Ht. rewrite Ht, Hp.
    rewrite (WS.parse_nil_valid _ _ _ Hp), bool_decide_false by (intros Hn; by apply Hn).
    cbn [orb negb]. split; intros ->; reflexivity.
Qed.

Lemma websocket_authentication_witness :
  @WS.WebSocketHandler WS.example_jwt "jwt-secret" ["https://app.example.com"] []
    {| WS.token := "good"; WS.Origin := "https://app.example.com";
       WS.handshake := true; WS.connection := 7 |}
  = (WS.Upgraded, [ {| WS.conn := 7; WS.userID := "u1"; WS.orgID := "org1" |} ])
  /\ @WS.WebSocketHandler WS.example_jwt "jwt-secret" ["https://app.example.com"] []
       {| WS.token := "forged"; WS.Origin := "https://app.example.com";
          WS.handshake := true; WS.connection := 8 |}
     = (WS.ErrorEnvelope 401 "Invalid token", []).
Proof.
  split.
  - refine (proj1 (proj2 (proj2 (@websocket_authentication WS.example_jwt "jwt-secret"
              ["https://app.example.com"] [] _))
              {| WS.Valid := true;
                 WS.Claims := {| WS.UserID := "u1"; WS.OrganizationID := "org1" |} |} _ _) _).
    + discriminate.
    + reflexivity.
    + reflexivity.
  - refine (proj1 (proj2 (@websocket_authentication WS.example_jwt "jwt-secret"
              ["https://app.example.com"] [] _))
              {| WS.Valid := false;
                 WS.Claims := {| WS.UserID := WS.uuid_Nil; WS.OrganizationID := WS.uuid_Nil |} |}
              "token is malformed" _ _).
    + discriminate.
    + reflexivity.
Defined.

(** C9, the claim as stated fails: a valid token does not by itself put
    the client into the hub. From an origin outside the allow-list the
    upgrade is refused, the answer is 500 and the hub stays empty. *)
Lemma valid_token_without_upgrade :
  @WS.WebSocketHandler WS.example_jwt "jwt-secret" ["https://app.example.com"] []
    {| WS.token := "good"; WS.Origin := "https://elsewhere.example.net";
       WS.handshake := true; WS.connection := 9 |}
  = (WS.ErrorEnvelope 500 "WebSocket upgrade failed", []).
Proof. reflexivity. Qed.
(** ** Where the rows of an enqueueing pass come from *)

Section EnqueueOrigin.

Import WebhookDelivery Outbox Dispatch.
Context `{Runtime}.

Lemma Create_Some (fails : bool) (db db1 : DB) (delivery : WebhookDelivery.t) :
  Create fails db delivery = Some db1 ->
  fails = false
  /\ webhook_deliveries db !! ID delivery = None
  /\ db1 = with_deliveries db (<[ID delivery := delivery]> (webhook_deliveries db)).
Proof.
  unfold Create. destruct (webhook_deliveries db !! ID delivery); [discriminate|].
  destruct fails; [discriminate|]. intros [= <-]. auto.
Qed.

(** A row found after the pass was there before, or it is the row the
    pass made for a webhook of the list, as inserted or as marked in
    progress. *)
Lemma enqueue_each_origin (whs : list Webhook.t) (db : DB) (orgID : UUID) (eventType : string)
      (data : Json.value) (turns : nat -> Turn) (n : nat) (id : UUID) (d : WebhookDelivery.t) :
  webhook_deliveries (enqueue_each db orgID eventType data whs turns n).1 !! id = Some d ->
  webhook_deliveries db !! id = Some d
  \/ exists w k,
      In w whs /\ id = uuid_New (turns k)
      /\ let fresh := newDelivery orgID w id (stamped (turns k)) (due (turns k))
                                  eventType data in
         d = fresh \/ d = mark_in_progress (startedAt (turns k)) fresh.
Proof.
  revert db n. induction whs as [|w whs IH]; intros db n Hl; [by left|].
  cbn [enqueue_each] in Hl.
  assert (Hrest : forall db' n',
             webhook_deliveries (enqueue_each db' orgID eventType data whs turns n').1 !! id
             = Some d ->
             webhook_deliveries db' !! id = Some d
             \/ exists w' k,
                 In w' (w :: whs) /\ id = uuid_New (turns k)
                 /\ let fresh := newDelivery orgID w' id (stamped (turns k)) (due (turns k))
                                             eventType data in
                    d = fresh \/ d = mark_in_progress (startedAt (turns k)) fresh).
  { intros db' n' Hl'. destruct (IH _ _ Hl') as [Hold|(w' & k & Hin & Hrow)]; [by left|].
    right. exists w', k. split; [by right|exact Hrow]. }
  destruct (negb (containsEvent _ _)); [by apply Hrest in Hl|].
  destruct (ctx_Err (turns n)); [by left|].
  destruct (json_Marshal _); [|by apply Hrest in Hl].
  destruct (unmarshal_err (turns n)); [by apply Hrest in Hl|].
  destruct (Create _ _ _) as [db1|] eqn:Hc; [|by apply Hrest in Hl].
  apply Create_Some in Hc as (_ & Hfree & ->). cbn [newDelivery ID] in Hfree, Hl.
  destruct (update_err (turns n)).
  - apply Hrest in Hl as [Hl|Hl]; [|by right]. cbn [with_deliveries webhook_deliveries] in Hl.
    destruct (decide (uuid_New (turns n) = id)) as [<-|Hne].
    + rewrite lookup_insert_eq in Hl. injection Hl as <-.
      right. exists w, n. split; [by left|]. split; [reflexivity|]. by left.
    + rewrite lookup_insert_ne in Hl by done. by left.
  - destruct (enqueue_each _ orgID eventType data whs turns (S n)) as [db3 spawned] eqn:Hrec.
    cbn [fst] in Hl. change db3 with (db3, spawned).1 in Hl. rewrite <- Hrec in Hl.
    apply Hrest in Hl as [Hl|Hl]; [|by right].
    destruct (decide (uuid_New (turns n) = id)) as [<-|Hne].
    + rewrite (update_delivery_eq _ _ _ (newDelivery orgID w (uuid_New (turns n))
                                            (stamped (turns n)) (due (turns n)) eventType data))
        in Hl.
      * injection Hl as <-. right. exists w, n. split; [by left|]. split; [reflexivity|].
        by right.
      * cbn [with_deliveries webhook_deliveries]. apply lookup_insert_eq.
    + rewrite update_delivery_ne in Hl by done.
      cbn [with_deliveries webhook_deliveries] in Hl.
      rewrite lookup_insert_ne in Hl by done. by left.
Qed.

Lemma enqueue_each_webhooks (whs : list Webhook.t) (orgID : UUID) (eventType : string)
      (data : Json.value) (turns : nat -> Turn) (db : DB) (n : nat) :
  webhooks (enqueue_each db orgID eventType data whs turns n).1 = webhooks db.
Proof.
  revert db n. induction whs as [|w whs IH]; intros db n; [reflexivity|].
  cbn [enqueue_each].
  destruct (negb (containsEvent _ _)); [apply IH|].
  destruct (ctx_Err (turns n)); [reflexivity|].
  destruct (json_Marshal _); [|apply IH].
  destruct (unmarshal_err (turns n)); [apply IH|].
  destruct (Create _ _ _) as [db1|] eqn:Hc; [|apply IH].
  apply Create_Some in Hc as (_ & _ & ->).
  destruct (update_err (turns n)); [by rewrite IH|].
  destruct (enqueue_each _ orgID eventType data whs turns (S n)) as [db3 spawned] eqn:Hrec.
  cbn [fst]. change db3 with (db3, spawned).1. rewrite <- Hrec. by rewrite IH.
Qed.

(** The same for the whole of [enqueueWebhookDeliveries]. *)
Lemma enqueue_origin (db : DB) (orgID : UUID) (eventType : string) (data : Json.value)
      (cache_err : bool) (turns : nat -> Turn) (id : UUID) (d : WebhookDelivery.t) :
  webhook_deliveries (enqueueWebhookDeliveries db orgID eventType data cache_err turns).1 !! id
  = Some d ->
  webhook_deliveries db !! id = Some d
  \/ exists w k,
      In w (getWebhooksCached db orgID) /\ id = uuid_New (turns k)
      /\ let fresh := newDelivery orgID w id (stamped (turns k)) (due (turns k))
                                  eventType data in
         d = fresh \/ d = mark_in_progress (startedAt (turns k)) fresh.
Proof.
  unfold enqueueWebhookDeliveries. destruct cache_err; [by left|]. apply enqueue_each_origin.
Qed.

Lemma enqueue_webhooks (db : DB) (orgID : UUID) (eventType : string) (data : Json.value)
      (cache_err : bool) (turns : nat -> Turn) :
  webhooks (enqueueWebhookDeliveries db orgID eventType data cache_err turns).1 = webhooks db.
Proof.
  unfold enqueueWebhookDeliveries. destruct cache_err; [reflexivity|].
  apply enqueue_each_webhooks.
Qed.

End EnqueueOrigin.


(** ** Secrets of CRUD-managed webhooks *)

Section SecretFacts.

Import Handlers Outbox Dispatch.
Context `{Runtime} `{Ssrf.NetLib}.
Variable allowInternal : bool.

Lemma generateVerifyToken_nonempty (entropy : nat -> Z) :
  generateVerifyToken entropy <> "".
Proof.
  intros Heq. apply (f_equal String.length) in Heq.
  unfold generateVerifyToken in Heq.
  rewrite EncodeToString_length, length_map, length_seq in Heq. discriminate.
Qed.


Lemma create_deliveries (db : DB) (newID : UUID) (entropy : nat -> Z) (r : request) :
  webhook_deliveries (CreateWebhook allowInternal db newID entropy r).2 = webhook_deliveries db.
Proof.
  unfold CreateWebhook.
  repeat match goal with
         | |- context [match ?x with _ => _ end] => destruct x
         end; reflexivity.
Qed.

Lemma find_stored (db : DB) (id orgID : UUID) (w : Webhook.t) :
  findByIDAndOrg db id orgID = Some w -> webhooks db !! id = Some w.
Proof.
  unfold findByIDAndOrg. destruct (webhooks db !! id) as [x|]; [|discriminate].
  destruct (String.eqb _ _); congruence.
Qed.


Lemma update_deliveries (db : DB) (r : request) :
  webhook_deliveries (UpdateWebhook allowInternal db r).2 = webhook_deliveries db.
Proof.
  unfold UpdateWebhook.
  repeat match goal with
         | |- context [match ?x with _ => _ end] => destruct x
         end; reflexivity.
Qed.

Lemma delete_stored (db : DB) (r : request) (id : UUID) (w : Webhook.t) :
  webhooks (DeleteWebhook db r).2 !! id = Some w -> webhooks db !! id = Some w.
Proof.
  unfold DeleteWebhook.
  destruct (org r); [|auto]. destruct (path_id r) as [webhookID|]; [|auto].
  destruct (findByIDAndOrg _ _ _); [|auto]. simpl.
  intros Hl. apply lookup_delete_Some in Hl. tauto.
Qed.

Lemma delete_deliveries (db : DB) (r : request) :
  webhook_deliveries (DeleteWebhook db r).2 = webhook_deliveries db.
Proof.
  unfold DeleteWebhook.
  repeat match goal with
         | |- context [match ?x with _ => _ end] => destruct x
         end; reflexivity.
Qed.




Lemma cached_stored (db : DB) (orgID : UUID) (w : Webhook.t) :
  In w (getWebhooksCached db orgID) -> exists id, webhooks db !! id = Some w.
Proof.
  unfold getWebhooksCached. intros Hin. apply filter_In in Hin as [Hin _].
  apply in_map_iff in Hin as ([id w'] & <- & Hin).
  apply list_elem_of_In, elem_of_map_to_list in Hin. eauto.
Qed.



End SecretFacts.



(** ** Worked examples *)

(** The digest and the MAC on published test vectors (FIPS 180-4 and
    RFC 4231, test case 2). *)
Example sha256_constants :
  length Sha256.K = 64%nat
  /\ firstn 4 Sha256.K = [ 0x428a2f98; 0x71374491; 0xb5c0fbcf; 0xe9b5dba5 ]
  /\ nth 63 Sha256.K 0 = 0xc67178f2
  /\ nth 0 Sha256.init 0 = 0x6a09e667 /\ nth 7 Sha256.init 0 = 0x5be0cd19.
Proof. repeat split. Qed.

Example sha256_abc :
  Hex.EncodeToString (Sha256.Sum256 (Bytes.of_string "abc"))
  = "ba7816bf8f01cfea414140de5dae2223b00361a396177a9cb410ff61f20015ad".
Proof. vm_compute. reflexivity. Qed.

Example hmac_sha256_rfc4231 :
  Hex.EncodeToString
    (Hmac.Sum (Bytes.of_string "Jefe") (Bytes.of_string "what do ya want for nothing?"))
  = "5bdcc146bf60754e6a042426089575c75a003f089d2739839dec58b964ec3843".
Proof. vm_compute. reflexivity. Qed.

(** The cases of the repository's signature test on its "test body"
    input: the valid signature, the signature with its last digit
    replaced, another secret, another body, the bare hex, the [sha1=]
    prefix and the empty signature. *)
Example verify_test_table :
  let body := "test body" in
  let secret := "test_secret" in
  let valid := "sha256=7ac01dae8a2ac188f7c08c26b22407ca3034974b984130f1664f2ba56d6a3c82" in
  Signature.computeHMACSignature body secret = valid
  /\ map (fun c => Signature.verifyWebhookSignature c.1.1 c.1.2 c.2)
         [ (body, valid, secret);
           (body, Bytes.take 70 valid +:+ "0", secret);
           (body, valid, "wrong_secret");
           ("modified", valid, secret);
           (body, Bytes.drop 7 valid, secret);
           (body, "sha1=" +:+ Bytes.drop 7 valid, secret);
           (body, "", secret) ]
     = [ true; false; false; false; false; false; false ].
Proof. vm_compute. split; reflexivity. Qed.

(** The five targets the specification lists for the SSRF block, with
    internal targets not allowed: four are refused when the webhook is
    submitted, the fifth when its public name resolves to a private
    address. *)
Example ssrf_block_targets :
  let net := Ssrf.example_net [("hooks.example.org", ["10.0.0.1"])] in
  map (fun url => bool_decide (@Ssrf.validateWebhookURL net url false = None))
      [ "http://127.0.0.1"; "http://[::1]"; "http://localhost"; "http://169.254.169.254";
        "http://hooks.example.org" ]
  = [ false; false; false; false; true ]
  /\ @Ssrf.SSRFSafeDialer net false "tcp" "hooks.example.org:80"
     = Ssrf.DialError "connection to private address 10.0.0.1 is not allowed".
Proof. vm_compute. split; reflexivity. Qed.

(** Host names are compared in lower case: upper-case ASCII letters
    and the dotted capital I (U+0130, bytes C4 B0), whose lower case is
    [i], do not get a name past the check. *)
Example hostnames_are_lowered :
  let net := Ssrf.example_net [] in
  let dotted_I := String (ascii_of_nat 196) (String (ascii_of_nat 176) "") in
  map (fun url => bool_decide (@Ssrf.validateWebhookURL net url false = None))
      [ "http://LOCALHOST/"; "http://db.Internal/x"; "http://printer.LOCAL";
        "http://foo." +:+ dotted_I +:+ "nternal/x"; "http://example.com/x" ]
  = [ false; false; false; false; true ].
Proof. vm_compute. reflexivity. Qed.

(** After a first failure at instant 0 the row is not claimed by a poll
    59 seconds later, and is claimed by one 61 seconds later. *)
Example backoff_first_retry_window :
  let db := @Outbox.processWebhookDelivery (Examples.always 500)
              (Examples.store Examples.delivery) 0 Examples.delivery in
  (fun d => (Outbox.claimable (59 * Time.Second) d, Outbox.claimable (61 * Time.Second) d))
    <$> (webhook_deliveries db !! "d1")
  = Some (false, true).
Proof. vm_compute. reflexivity. Qed.

(** Enqueueing an event for the sample webhook stores one row, in
    progress, with the webhook's URL and secret and six attempts allowed. *)
Example enqueue_sample :
  map (fun d => (WebhookDelivery.ID d, WebhookDelivery.Status d, WebhookDelivery.Secret d,
                 WebhookDelivery.Attempts d, WebhookDelivery.MaxAttempts d))
      (@Dispatch.enqueueWebhookDeliveries (Examples.always 200)
         (Examples.store Examples.delivery) "org1" "message.incoming" Json.Null false
         (Samples.calm (fun n => "d2") 7)).2
  = [ ("d2", "in_progress", "s3cret", 0, 6) ].
Proof. vm_compute. reflexivity. Qed.

(** ** The retry schedule *)

Section ScheduleFacts.

Import Outbox.

Lemma nextWebhookAttemptDelay_cases (attempt : Z) :
  (attempt <= 1 /\ nextWebhookAttemptDelay attempt = Time.Minute)
  \/ (attempt = 2 /\ nextWebhookAttemptDelay attempt = 5 * Time.Minute)
  \/ (attempt = 3 /\ nextWebhookAttemptDelay attempt = 15 * Time.Minute)
  \/ (attempt = 4 /\ nextWebhookAttemptDelay attempt = Time.Hour)
  \/ (attempt = 5 /\ nextWebhookAttemptDelay attempt = 6 * Time.Hour)
  \/ (6 <= attempt /\ nextWebhookAttemptDelay attempt = 24 * Time.Hour).
Proof.
  rewrite nextWebhookAttemptDelay_clamp_schedule.
  destruct (Z_le_gt_dec attempt 1) as [H1|H1].
  { left. split; [exact H1|]. replace (Z.min (Z.max attempt 1) 6 - 1) with 0 by lia.
    reflexivity. }
  destruct (Z_le_gt_dec 6 attempt) as [H6|H6].
  { do 5 right. split; [exact H6|]. replace (Z.min (Z.max attempt 1) 6 - 1) with 5 by lia.
    reflexivity. }
  assert (Hc : attempt = 2 \/ attempt = 3 \/ attempt = 4 \/ attempt = 5) by lia.
  destruct Hc as [-> | [-> | [-> | ->]]]; [right; left|do 2 right; left|do 3 right; left|do 4 right; left];
    (split; [reflexivity|reflexivity]).
Qed.

Lemma nextWebhookAttemptDelay_bounds (attempt : Z) :
  Time.Minute <= nextWebhookAttemptDelay attempt <= 24 * Time.Hour.
Proof.
  destruct (nextWebhookAttemptDelay_cases attempt)
    as [[_ ->]|[[_ ->]|[[_ ->]|[[_ ->]|[[_ ->]|[_ ->]]]]]]; vm_compute; split; discriminate.
Qed.

Lemma nextWebhookAttemptDelay_mono (a b : Z) :
  a <= b -> nextWebhookAttemptDelay a <= nextWebhookAttemptDelay b.
Proof.
  intros Hab.
  destruct (nextWebhookAttemptDelay_cases a)
    as [[Ha ->]|[[Ha ->]|[[Ha ->]|[[Ha ->]|[[Ha ->]|[Ha ->]]]]]];
    destruct (nextWebhookAttemptDelay_cases b)
      as [[Hb ->]|[[Hb ->]|[[Hb ->]|[[Hb ->]|[[Hb ->]|[Hb ->]]]]]];
    try lia; vm_compute; discriminate.
Qed.

End ScheduleFacts.

(** X1. The delay before the next attempt is never shorter than one
    minute nor longer than 24 hours, whatever the attempt counter holds
    (zero, negative and beyond the schedule included), and it never
    shrinks as the counter grows. *)
Theorem retry_delay_bounded_and_monotone (a b : Z) :
  a <= b ->
  Time.Minute <= Outbox.nextWebhookAttemptDelay a
  /\ Outbox.nextWebhookAttemptDelay a <= Outbox.nextWebhookAttemptDelay b
  /\ Outbox.nextWebhookAttemptDelay b <= 24 * Time.Hour.
Proof.
  intros Hab. split; [apply nextWebhookAttemptDelay_bounds|].
  split; [by apply nextWebhookAttemptDelay_mono | apply nextWebhookAttemptDelay_bounds].
Qed.

Lemma retry_delay_bounded_and_monotone_witness :
  Time.Minute <= Outbox.nextWebhookAttemptDelay (-3)
  /\ Outbox.nextWebhookAttemptDelay (-3) <= Outbox.nextWebhookAttemptDelay 9
  /\ Outbox.nextWebhookAttemptDelay 9 <= 24 * Time.Hour.
Proof. apply (retry_delay_bounded_and_monotone (-3) 9). lia. Defined.

(** ** One attempt, row by row *)

Section AttemptFacts.

Import WebhookDelivery Outbox.
Context `{Runtime}.

(** An attempt rewrites the row it reloaded and no other. *)
Lemma process_other (db : DB) (t : Z) (d r : WebhookDelivery.t) (id : UUID) :
  webhook_deliveries db !! ID d = Some r -> ID r = ID d -> id <> ID d ->
  webhook_deliveries (processWebhookDelivery db t d) !! id = webhook_deliveries db !! id.
Proof.
  intros Hr Hid Hne.
  destruct (process_step db t d r Hr Hid) as [[_ ->]|[_ (c & m & ->)]];
    by rewrite update_delivery_ne.
Qed.

(** The row an attempt leaves depends on the reloaded row and on the
    instant only. *)
Lemma process_local (db1 db2 : DB) (t : Z) (d1 d2 r : WebhookDelivery.t) :
  webhook_deliveries db1 !! ID d1 = Some r -> webhook_deliveries db2 !! ID d2 = Some r ->
  ID r = ID d1 -> ID d1 = ID d2 ->
  webhook_deliveries (processWebhookDelivery db1 t d1) !! ID d1
  = webhook_deliveries (processWebhookDelivery db2 t d2) !! ID d2.
Proof.
  intros H1 H2 Hid H12.
  unfold processWebhookDelivery, failWebhookDelivery. rewrite H1, H2.
  destruct (json_Marshal (Payload r)); [destruct (sendWebhookRequest _ _ _ _)|];
    rewrite Hid, (update_delivery_eq _ _ _ _ H1); rewrite H12 at 1;
    by rewrite (update_delivery_eq _ _ _ _ H2).
Qed.

Lemma process_webhooks (db : DB) (t : Z) (d : WebhookDelivery.t) :
  webhooks (processWebhookDelivery db t d) = webhooks db.
Proof.
  unfold processWebhookDelivery, failWebhookDelivery.
  destruct (json_Marshal _); [destruct (sendWebhookRequest _ _ _ _)|]; reflexivity.
Qed.

(** After an attempt the row is not due at any instant up to the
    attempt's own. *)
Lemma process_not_claimable (db : DB) (now t : Z) (d r r' : WebhookDelivery.t) :
  webhook_deliveries db !! ID d = Some r -> ID r = ID d -> now <= t ->
  webhook_deliveries (processWebhookDelivery db t d) !! ID d = Some r' ->
  claimable now r' = false /\ ID r' = ID d.
Proof.
  intros Hr Hid Hnow.
  destruct (process_step db t d r Hr Hid) as [[_ ->]|[_ (c & m & ->)]];
    rewrite (update_delivery_eq _ _ _ _ Hr); intros [= <-].
  - split; [reflexivity|exact Hid].
  - pose proof (fail_updates_fields t r c m) as Hf. cbv zeta in Hf.
    destruct Hf as (_ & Hp & _ & _ & Hi & _ & _ & Hs).
    split; [|congruence].
    unfold claimable. rewrite Hp.
    destruct (GoInt.add (Attempts r) 1 >=? effective_max r).
    + destruct Hs as [-> _]. reflexivity.
    + destruct Hs as [-> ->]. cbn [String.eqb Ascii.eqb Bool.eqb andb orb].
      pose proof (nextWebhookAttemptDelay_bounds (GoInt.add (Attempts r) 1)) as [Hlo _].
      assert (0 < Time.Minute) by reflexivity.
      rewrite orb_false_r, andb_true_l. apply Z.leb_gt. lia.
Qed.

End AttemptFacts.

(** ** The processor's tick *)

Section TickFacts.

Import WebhookDelivery Outbox Processor.
Context `{Runtime}.

Lemma existsb_eqb_elem (x : string) (ids : list string) :
  existsb (String.eqb x) ids = true <-> x ∈ ids.
Proof.
  rewrite existsb_exists. split.
  - intros (y & Hin & Heq). apply String.eqb_eq in Heq. subst y. by apply list_elem_of_In.
  - intros Hin. exists x. split; [by apply list_elem_of_In|apply String.eqb_refl].
Qed.

Lemma NoDup_map_filter {A B : Type} (g : A -> B) (f : A -> bool) (l : list A) :
  NoDup (map g l) -> NoDup (map g (List.filter f l)).
Proof.
  induction l as [|a l IH]; simpl; [auto|].
  rewrite NoDup_cons. intros [Hnin Hnd]. destruct (f a); simpl; [|auto].
  apply NoDup_cons. split; [|auto].
  intros Hin. apply Hnin. apply list_elem_of_In, in_map_iff in Hin as (x & Hx & Hin).
  apply filter_In in Hin as [Hin _]. apply list_elem_of_In, in_map_iff. eauto.
Qed.

(** The claim query returns stored rows that are due. *)
Lemma claim_query_elem (now : Z) (db : DB) (d : WebhookDelivery.t) :
  d ∈ claim_query now db ->
  claimable now d = true /\ exists id, webhook_deliveries db !! id = Some d.
Proof.
  unfold claim_query. intros Hin. apply subseteq_take in Hin.
  rewrite merge_sort_Permutation in Hin.
  apply list_elem_of_In, filter_In in Hin as [Hin Hc]. split; [exact Hc|].
  apply in_map_iff in Hin as ([id d'] & <- & Hin).
  apply list_elem_of_In, elem_of_map_to_list in Hin. eauto.
Qed.

(** It comes back empty only when no stored row is due. *)
Lemma claim_query_nil (now : Z) (db : DB) :
  claim_query now db = [] ->
  forall id d, webhook_deliveries db !! id = Some d -> claimable now d = false.
Proof.
  unfold claim_query. intros Hnil id d Hd.
  apply take_nil_inv in Hnil as [Hnil|Hnil]; [discriminate|].
  destruct (claimable now d) eqn:Hc; [|reflexivity].
  assert (Hin : d ∈ merge_sort earlier
                  (List.filter (claimable now) (map snd (map_to_list (webhook_deliveries db))))).
  { rewrite merge_sort_Permutation. apply list_elem_of_In, filter_In. split; [|exact Hc].
    apply in_map_iff. exists (id, d). split; [reflexivity|].
    by apply list_elem_of_In, elem_of_map_to_list. }
  rewrite Hnil in Hin. by apply elem_of_nil in Hin.
Qed.

(** Under primary keys, no row comes twice. *)
Lemma claim_query_NoDup (now : Z) (db : DB) :
  (forall id d, webhook_deliveries db !! id = Some d -> ID d = id) ->
  NoDup (map ID (claim_query now db)).
Proof.
  intros Hkey. unfold claim_query.
  rewrite <- firstn_map. change firstn with (@take string).
  eapply sublist_NoDup; [|apply sublist_take].
  rewrite merge_sort_Permutation.
  apply NoDup_map_filter.
  assert (Heq : map ID (map snd (map_to_list (webhook_deliveries db)))
                = map fst (map_to_list (webhook_deliveries db))).
  { rewrite map_map. apply map_ext_in. intros [id d] Hin. simpl.
    apply Hkey. by apply elem_of_map_to_list, list_elem_of_In. }
  rewrite Heq. apply NoDup_fst_map_to_list.
Qed.

Lemma claim_lookup (now : Z) (db : DB) (ids : list UUID) (id : UUID) :
  webhook_deliveries (claim now db ids) !! id
  = (fun d => if existsb (String.eqb (ID d)) ids then mark_in_progress now d else d)
      <$> webhook_deliveries db !! id.
Proof. unfold claim. simpl. apply lookup_fmap. Qed.

(** The loop over a batch of distinct stored rows attempts each row
    once, as if it were attempted alone, and touches no other row. *)
Lemma process_batch_spec (clock : nat -> Z) (l : list WebhookDelivery.t) :
  forall (n : nat) (db : DB),
    NoDup (map ID l) ->
    (forall d, d ∈ l -> exists r, webhook_deliveries db !! ID d = Some r /\ ID r = ID d) ->
    webhooks (process_batch clock n db l).1 = webhooks db
    /\ (forall id, id ∉ map ID l ->
                   webhook_deliveries (process_batch clock n db l).1 !! id
                   = webhook_deliveries db !! id)
    /\ (forall d, d ∈ l ->
                  exists m,
                    webhook_deliveries (process_batch clock n db l).1 !! ID d
                    = webhook_deliveries (processWebhookDelivery db (clock m) d) !! ID d).
Proof.
  induction l as [|d l IH]; intros n db Hnd Hrows.
  { simpl. split; [reflexivity|]. split; [reflexivity|].
    intros d Hd. by apply elem_of_nil in Hd. }
  cbn [process_batch]. cbn [map] in Hnd. apply NoDup_cons in Hnd as [Hnin Hnd].
  destruct (Hrows d) as (r & Hr & Hid); [left|].
  assert (Hrest : forall d', d' ∈ l -> ID d' <> ID d).
  { intros d' Hin Heq. apply Hnin. rewrite <- Heq.
    apply list_elem_of_In, in_map, list_elem_of_In, Hin. }
  set (db_a := processWebhookDelivery db (clock n) d).
  assert (Hrows' : forall d', d' ∈ l ->
                              exists r', webhook_deliveries db_a !! ID d' = Some r'
                                         /\ ID r' = ID d').
  { intros d' Hin. destruct (Hrows d') as (r' & Hr' & Hid'); [by right|].
    exists r'. split; [|exact Hid']. unfold db_a.
    rewrite (process_other db (clock n) d r (ID d') Hr Hid); [exact Hr'|by apply Hrest]. }
  destruct (IH (S n) db_a Hnd Hrows') as (Hw & Hother & Hin).
  split; [rewrite Hw; apply process_webhooks|]. split.
  - intros id Hid'. rewrite Hother.
    + apply (process_other db (clock n) d r id Hr Hid).
      intros ->. apply Hid'. left.
    + intros Hin'. apply Hid'. by right.
  - intros d0 Hd0. apply elem_of_cons in Hd0 as [->|Hd0].
    + exists n. by rewrite Hother.
    + destruct (Hin d0 Hd0) as (m & Hm). exists m. rewrite Hm.
      destruct (Hrows d0) as (r0 & Hr0 & Hid0); [by right|].
      apply (process_local db_a db (clock m) d0 d0 r0); auto.
      unfold db_a. rewrite (process_other db (clock n) d r (ID d0) Hr Hid); [exact Hr0|].
      by apply Hrest.
Qed.

(** A stored row is in the batch exactly when its key is among the
    claimed ids. *)
Lemma claimed_ids (now : Z) (db : DB) (id : UUID) :
  (forall id d, webhook_deliveries db !! id = Some d -> ID d = id) ->
  id ∈ map ID (claim_query now db) ->
  exists d, d ∈ claim_query now db /\ webhook_deliveries db !! id = Some d
            /\ claimable now d = true.
Proof.
  intros Hkey Hin. apply list_elem_of_In, in_map_iff in Hin as (d & <- & Hin).
  apply list_elem_of_In in Hin. exists d.
  destruct (claim_query_elem now db d Hin) as (Hc & id & Hd).
  rewrite (Hkey _ _ Hd). auto.
Qed.

(** One round of the loop: the claimed rows are attempted once each,
    at instants of the clock, and are not due afterwards; no other row
    changes. *)
Lemma tick_round (now : Z) (clock : nat -> Z) (n : nat) (db : DB) :
  (forall id d, webhook_deliveries db !! id = Some d -> ID d = id) ->
  (forall m, now <= clock m) ->
  let ids := map ID (claim_query now db) in
  let db2 := (process_batch clock n (claim now db ids) (claim_query now db)).1 in
  webhooks db2 = webhooks db
  /\ forall id,
      match webhook_deliveries db !! id with
      | None => webhook_deliveries db2 !! id = None
      | Some d =>
          (id ∈ ids ->
           exists t r',
             now <= t
             /\ webhook_deliveries db2 !! id = Some r'
             /\ webhook_deliveries
                  (processWebhookDelivery (update_delivery db id (mark_in_progress now)) t d)
                !! id = Some r'
             /\ claimable now r' = false /\ ID r' = id)
          /\ (id ∉ ids -> webhook_deliveries db2 !! id = Some d)
      end.
Proof.
  intros Hkey Hclock ids db2.
  set (batch := claim_query now db) in *.
  set (db1 := claim now db ids) in *.
  assert (Hmarked : forall d, d ∈ batch ->
                              webhook_deliveries db1 !! ID d = Some (mark_in_progress now d)).
  { intros d Hin. destruct (claim_query_elem now db d Hin) as (_ & id & Hd).
    pose proof (Hkey _ _ Hd) as <-. unfold db1. rewrite claim_lookup, Hd. simpl.
    assert (Hex : existsb (String.eqb (ID d)) ids = true).
    { apply existsb_eqb_elem. unfold ids. by apply list_elem_of_In, in_map, list_elem_of_In. }
    by rewrite Hex. }
  destruct (process_batch_spec clock batch n db1) as (Hw & Hother & Hin).
  { by apply claim_query_NoDup. }
  { intros d Hd. exists (mark_in_progress now d). split; [by apply Hmarked|reflexivity]. }
  fold db2 in Hw, Hother, Hin.
  split; [exact Hw|]. intros id.
  destruct (webhook_deliveries db !! id) as [d|] eqn:Hd.
  - pose proof (Hkey _ _ Hd) as Hid. split.
    + intros Hids. destruct (claimed_ids now db id Hkey Hids) as (d' & Hd' & Hl & _).
      assert (d' = d) by congruence. subst d'. subst id.
      destruct (Hin d Hd') as (m & Hm).
      assert (Hloc : webhook_deliveries (processWebhookDelivery db1 (clock m) d) !! ID d
                     = webhook_deliveries
                         (processWebhookDelivery
                            (update_delivery db (ID d) (mark_in_progress now)) (clock m) d)
                       !! ID d).
      { apply (process_local _ _ _ _ _ (mark_in_progress now d)); auto.
        by apply update_delivery_eq. }
      destruct (webhook_deliveries (processWebhookDelivery db1 (clock m) d) !! ID d)
        as [r'|] eqn:Hr'.
      * destruct (process_not_claimable db1 now (clock m) d (mark_in_progress now d) r')
          as [Hnc Hid']; auto.
        exists (clock m), r'. rewrite Hm. repeat split; auto.
      * exfalso. revert Hr'.
        destruct (process_step db1 (clock m) d (mark_in_progress now d) (Hmarked d Hd') eq_refl)
          as [[_ ->]|[_ (c & e & ->)]];
          by rewrite (update_delivery_eq _ _ _ _ (Hmarked d Hd')).
    + intros Hnin. rewrite (Hother id Hnin). unfold db1. rewrite claim_lookup, Hd. simpl.
      destruct (existsb (String.eqb (ID d)) ids) eqn:Hex; [|reflexivity].
      apply existsb_eqb_elem in Hex. rewrite Hid in Hex. contradiction.
  - rewrite Hother.
    + unfold db1. by rewrite claim_lookup, Hd.
    + intros Hids. destruct (claimed_ids now db id Hkey Hids) as (d' & _ & Hl & _). congruence.
Qed.

(** The loop ends: every round takes at least one row out of the set
    of due rows, and the rows it has attempted stay out of it. *)
Lemma tick_loop (now : Z) (clock : nat -> Z) (db0 : DB) :
  (forall id d, webhook_deliveries db0 !! id = Some d -> ID d = id) ->
  (forall m, now <= clock m) ->
  forall (fuel n : nat) (db : DB),
    (forall id d, webhook_deliveries db !! id = Some d -> ID d = id) ->
    webhooks db = webhooks db0 ->
    (forall id,
        match webhook_deliveries db0 !! id with
        | None => webhook_deliveries db !! id = None
        | Some d =>
            webhook_deliveries db !! id = Some d
            \/ (claimable now d = true
                /\ exists t r',
                    now <= t
                    /\ webhook_deliveries db !! id = Some r'
                    /\ webhook_deliveries
                         (processWebhookDelivery
                            (update_delivery db0 id (mark_in_progress now)) t d) !! id
                       = Some r'
                    /\ claimable now r' = false)
        end) ->
    (size (filter (fun kv => claimable now kv.2 = true) (webhook_deliveries db)) < fuel)%nat ->
    exists db',
      processPendingDeliveries fuel now clock n db = Some db'
      /\ webhooks db' = webhooks db0
      /\ (forall id d, webhook_deliveries db' !! id = Some d -> claimable now d = false)
      /\ (forall id,
             match webhook_deliveries db0 !! id with
             | None => webhook_deliveries db' !! id = None
             | Some d =>
                 webhook_deliveries db' !! id = Some d
                 \/ (claimable now d = true
                     /\ exists t r',
                         now <= t
                         /\ webhook_deliveries db' !! id = Some r'
                         /\ webhook_deliveries
                              (processWebhookDelivery
                                 (update_delivery db0 id (mark_in_progress now)) t d) !! id
                            = Some r'
                         /\ claimable now r' = false)
             end).
Proof.
  intros Hkey0 Hclock. induction fuel as [|fuel IH]; intros n db Hkey Hw Hinv Hsize; [lia|].
  cbn [processPendingDeliveries].
  destruct (claim_query now db) as [|d1 rest] eqn:Hq.
  { exists db. repeat split; auto. by apply claim_query_nil. }
  rewrite <- Hq.
  destruct (tick_round now clock n db Hkey Hclock) as (Hw2 & Hrows).
  destruct (process_batch clock n (claim now db (map ID (claim_query now db)))
                          (claim_query now db)) as [db2 n'] eqn:Hpb.
  cbn [fst] in Hw2, Hrows.
  assert (Hdec : forall id, id ∈ map ID (claim_query now db) \/ id ∉ map ID (claim_query now db)).
  { intros id. destruct (decide (id ∈ map ID (claim_query now db))); auto. }
  apply IH.
  - intros id d2 Hd2. specialize (Hrows id).
    destruct (webhook_deliveries db !! id) as [d|] eqn:Hd; [|congruence].
    destruct Hrows as [Hin Hout]. destruct (Hdec id) as [Hi|Hi].
    + destruct (Hin Hi) as (t & r' & _ & Hr' & _ & _ & Hid). congruence.
    + rewrite (Hout Hi) in Hd2. injection Hd2 as <-. eauto.
  - congruence.
  - intros id. specialize (Hinv id). specialize (Hrows id).
    destruct (webhook_deliveries db0 !! id) as [d|] eqn:Hd0.
    2:{ by rewrite Hinv in Hrows. }
    destruct Hinv as [Hsame|(Hc & t & r' & Ht & Hr' & Hp & Hnc)].
    + rewrite Hsame in Hrows. destruct Hrows as [Hin Hout]. destruct (Hdec id) as [Hi|Hi].
      * right. destruct (claimed_ids now db id Hkey Hi) as (d' & _ & Hl & Hc).
        assert (d' = d) by congruence. subst d'. split; [exact Hc|].
        destruct (Hin Hi) as (t & r' & Ht & Hr' & Hp & Hnc & _).
        exists t, r'. repeat split; auto. rewrite <- Hp.
        pose proof (Hkey0 _ _ Hd0) as Hid. subst id.
        apply (process_local _ _ _ _ _ (mark_in_progress now d)); auto;
          by apply update_delivery_eq.
      * left. auto.
    + rewrite Hr' in Hrows. destruct Hrows as [Hin Hout]. destruct (Hdec id) as [Hi|Hi].
      * destruct (claimed_ids now db id Hkey Hi) as (d' & _ & Hl & Hc').
        assert (d' = r') by congruence. subst d'. congruence.
      * right. split; [exact Hc|]. exists t, r'. auto.
  - eapply Nat.lt_le_trans; [|apply Nat.lt_succ_r, Hsize].
    apply map_subset_size, map_subset_alt. split.
    + apply map_subseteq_spec. intros id x Hx.
      apply map_lookup_filter_Some in Hx as [Hx Hcx]. simpl in Hcx.
      apply map_lookup_filter_Some. split; [|exact Hcx].
      specialize (Hrows id).
      destruct (webhook_deliveries db !! id) as [d|] eqn:Hd; [|congruence].
      destruct Hrows as [Hin Hout]. destruct (Hdec id) as [Hi|Hi].
      * destruct (Hin Hi) as (t & r' & _ & Hr' & _ & Hnc & _). congruence.
      * rewrite (Hout Hi) in Hx. exact Hx.
    + assert (Hd1 : d1 ∈ claim_query now db) by (rewrite Hq; left).
      destruct (claim_query_elem now db d1 Hd1) as (Hc1 & id1 & Hl1).
      exists id1. split.
      * specialize (Hrows id1). rewrite Hl1 in Hrows. destruct Hrows as [Hin _].
        destruct Hin as (t & r' & _ & Hr' & _ & Hnc & _).
        { rewrite <- (Hkey _ _ Hl1). by apply list_elem_of_In, in_map, list_elem_of_In. }
        apply map_lookup_filter_None. right. intros x Hx. simpl. congruence.
      * exists d1. apply map_lookup_filter_Some. auto.
Qed.

End TickFacts.

(** ** The order of the claim query *)

Section OrderFacts.

Import WebhookDelivery Outbox Processor.

#[local] Instance earlier_transitive : Transitive earlier.
Proof. intros a b c. unfold earlier. lia. Qed.

#[local] Instance earlier_total : Total earlier.
Proof. intros a b. unfold earlier. lia. Qed.

Lemma claim_query_order (now : Z) (db : DB) (d d' : WebhookDelivery.t) (id : UUID) :
  d ∈ claim_query now db ->
  webhook_deliveries db !! id = Some d' -> claimable now d' = true ->
  d' ∉ claim_query now db ->
  NextAttemptAt d <= NextAttemptAt d'.
Proof.
  unfold claim_query.
  set (l := merge_sort earlier _). intros Hd Hd' Hc Hout.
  assert (Hs : StronglySorted earlier (take batchSize l ++ drop batchSize l)).
  { rewrite take_drop. apply StronglySorted_merge_sort; apply _. }
  assert (Hin : d' ∈ take batchSize l ++ drop batchSize l).
  { rewrite take_drop. unfold l. rewrite merge_sort_Permutation.
    apply list_elem_of_In, filter_In. split; [|exact Hc].
    apply in_map_iff. exists (id, d'). split; [reflexivity|].
    by apply list_elem_of_In, elem_of_map_to_list. }
  apply elem_of_app in Hin as [Hin|Hin]; [contradiction|].
  exact (StronglySorted_app_1_elem_of _ _ _ _ _ Hs Hd Hin).
Qed.

Lemma claim_query_sorted (now : Z) (db : DB) : Sorted earlier (claim_query now db).
Proof.
  unfold claim_query. set (l := merge_sort earlier _).
  assert (Hs : StronglySorted earlier (take batchSize l ++ drop batchSize l)).
  { rewrite take_drop. apply StronglySorted_merge_sort; apply _. }
  apply StronglySorted_Sorted. by apply StronglySorted_app_1_l in Hs.
Qed.

End OrderFacts.

(** X26. The processor claims the most overdue rows first. A batch holds
    at most 50 rows, every one of them stored and due, in the order of
    [next_attempt_at]; and a due row that is left for a later batch has
    a [next_attempt_at] no earlier than that of any row in the batch. *)
Theorem claim_batch_is_oldest_first (now : Z) (db : DB) :
  (length (Processor.claim_query now db) <= 50)%nat
  /\ Sorted Processor.earlier (Processor.claim_query now db)
  /\ (forall d, d ∈ Processor.claim_query now db ->
                Outbox.claimable now d = true
                /\ exists id, webhook_deliveries db !! id = Some d)
  /\ (forall d d' id,
         d ∈ Processor.claim_query now db ->
         webhook_deliveries db !! id = Some d' -> Outbox.claimable now d' = true ->
         d' ∉ Processor.claim_query now db ->
         WebhookDelivery.NextAttemptAt d <= WebhookDelivery.NextAttemptAt d').
Proof.
  split; [|split; [|split]].
  - unfold Processor.claim_query. rewrite length_take. apply Nat.le_min_l.
  - apply claim_query_sorted.
  - apply claim_query_elem.
  - intros d d' id. apply claim_query_order.
Qed.

(** X2. One tick of the delivery processor ends, whatever the number of
    due rows, and attempts every row that was due at the tick's instant
    (pending with [next_attempt_at] reached, or in progress for 15
    minutes or more) exactly once: the row is left as a single attempt on
    the claimed row leaves it. Rows that were not due, and the webhooks,
    stay as they were, no row is added or removed, and no row is due any
    more at that instant when the tick returns. *)
Theorem tick_attempts_each_due_row_once `{Outbox.Runtime} (db : DB) (now : Z)
        (clock : nat -> Z) (fuel n : nat) :
  (forall id d, webhook_deliveries db !! id = Some d -> WebhookDelivery.ID d = id) ->
  (forall m, now <= clock m) ->
  (size (webhook_deliveries db) < fuel)%nat ->
  exists db',
    Processor.processPendingDeliveries fuel now clock n db = Some db'
    /\ webhooks db' = webhooks db
    /\ (forall id d, webhook_deliveries db' !! id = Some d -> Outbox.claimable now d = false)
    /\ (forall id,
           match webhook_deliveries db !! id with
           | None => webhook_deliveries db' !! id = None
           | Some d =>
               if Outbox.claimable now d
               then exists t,
                   now <= t
                   /\ is_Some (webhook_deliveries db' !! id)
                   /\ webhook_deliveries db' !! id
                      = webhook_deliveries
                          (Outbox.processWebhookDelivery
                             (Outbox.update_delivery db id (Outbox.mark_in_progress now)) t d)
                        !! id
               else webhook_deliveries db' !! id = Some d
           end).
Proof.
  intros Hkey Hclock Hfuel.
  destruct (tick_loop now clock db Hkey Hclock fuel n db) as (db' & Hrun & Hw & Hdone & Hinv);
    auto.
  { intros id. destruct (webhook_deliveries db !! id); auto. }
  { eapply Nat.le_lt_trans; [|exact Hfuel]. apply map_subseteq_size, map_filter_subseteq. }
  exists db'. repeat split; auto.
  intros id. specialize (Hinv id).
  destruct (webhook_deliveries db !! id) as [d|]; [|exact Hinv].
  destruct (Outbox.claimable now d) eqn:Hc.
  - destruct Hinv as [Hsame|(_ & t & r' & Ht & Hr' & Hp & _)].
    + rewrite (Hdone _ _ Hsame) in Hc. discriminate.
    + exists t. rewrite Hr', Hp. eauto.
  - destruct Hinv as [Hsame|(Hc' & _)]; [exact Hsame|congruence].
Qed.

Lemma tick_attempts_each_due_row_once_witness :
  exists db',
    @Processor.processPendingDeliveries (Examples.always 200) 2 0 (fun _ => 7) 0
                                        (Examples.store Examples.delivery) = Some db'
    /\ forall id d, webhook_deliveries db' !! id = Some d -> Outbox.claimable 0 d = false.
Proof.
  destruct (@tick_attempts_each_due_row_once (Examples.always 200)
              (Examples.store Examples.delivery) 0 (fun _ => 7) 2 0)
    as (db' & Hrun & _ & Hdone & _).
  - intros id d Hl. unfold Examples.store in Hl. cbn [webhook_deliveries] in Hl.
    apply lookup_singleton_Some in Hl as [<- <-]. reflexivity.
  - intros m. lia.
  - vm_compute. lia.
  - exists db'. auto.
Defined.

(** X3. Settled deliveries stay settled. A tick of the processor leaves
    a delivered row and a failed row exactly as they are, at any instant,
    and the retry action leaves a delivered row as it is: a delivered
    delivery is never sent again, and a failed one only after the retry
    action has reset it. *)
Theorem settled_rows_stay `{Outbox.Runtime} (db : DB) (now : Z) (clock : nat -> Z)
        (fuel n : nat) (retryAt : Z) (r : Handlers.request) (id : UUID)
        (d : WebhookDelivery.t) :
  (forall id d, webhook_deliveries db !! id = Some d -> WebhookDelivery.ID d = id) ->
  (forall m, now <= clock m) ->
  (size (webhook_deliveries db) < fuel)%nat ->
  webhook_deliveries db !! id = Some d ->
  (WebhookDelivery.Status d = "delivered" \/ WebhookDelivery.Status d = "failed" ->
   exists db',
     Processor.processPendingDeliveries fuel now clock n db = Some db'
     /\ webhook_deliveries db' !! id = Some d)
  /\ (WebhookDelivery.Status d = "delivered" ->
      webhook_deliveries (Handlers.RetryFailedWebhookDeliveries db retryAt r).2 !! id = Some d).
Proof.
  intros Hkey Hclock Hfuel Hd. split.
  - intros Hs.
    destruct (tick_loop now clock db Hkey Hclock fuel n db) as (db' & Hrun & _ & _ & Hinv);
      auto.
    { intros i. destruct (webhook_deliveries db !! i); auto. }
    { eapply Nat.le_lt_trans; [|exact Hfuel]. apply map_subseteq_size, map_filter_subseteq. }
    exists db'. split; [exact Hrun|].
    specialize (Hinv id). rewrite Hd in Hinv.
    destruct Hinv as [Hsame|(Hc & _)]; [exact Hsame|].
    unfold Outbox.claimable in Hc. destruct Hs as [Hs|Hs]; rewrite Hs in Hc; discriminate.
  - intros Hs.
    destruct (retry_db db retryAt r) as [[_ ->]|(o & w & wh & _ & _ & _ & ->)]; [exact Hd|].
    simpl. rewrite lookup_fmap, Hd. simpl.
    destruct (Handlers.retry_selects o w d) eqn:Hsel; [|reflexivity].
    apply retry_selects_iff in Hsel as (_ & _ & [Hf|[[Hf|Hf] _]]); congruence.
Qed.

Lemma settled_rows_stay_witness :
  let d := WebhookDelivery.set_Status "delivered" Examples.delivery in
  (exists db',
      @Processor.processPendingDeliveries (Examples.always 200) 2 0 (fun _ => 0) 0
                                          (Examples.store d) = Some db'
      /\ webhook_deliveries db' !! "d1" = Some d)
  /\ webhook_deliveries
       (Handlers.RetryFailedWebhookDeliveries (Examples.store d) 9 Examples.on_hook).2 !! "d1"
     = Some d.
Proof.
  intros d.
  destruct (@settled_rows_stay (Examples.always 200) (Examples.store d) 0 (fun _ => 0) 2 0 9
              Examples.on_hook "d1" d) as [Htick Hretry].
  - intros id d' Hl. unfold Examples.store in Hl. cbn [webhook_deliveries] in Hl.
    apply lookup_singleton_Some in Hl as [<- <-]. reflexivity.
  - intros m. lia.
  - vm_compute. lia.
  - reflexivity.
  - split; [apply Htick; left; reflexivity|apply Hretry; reflexivity].
Defined.

(** X4. What an attempt records on the row. When the payload cannot be
    encoded the row's [last_error] is "failed to marshal payload: "
    followed by the encoder's message; when the request cannot be built
    or the transport fails it is that error's text; in each of these
    cases [last_status_code] is 0. When the endpoint answers outside
    200-299 [last_status_code] is the answer's status and [last_error]
    is "webhook returned non-2xx status: " followed by the status text.
    A 2xx answer clears both and marks the row delivered; no other
    outcome marks it delivered. *)
Theorem attempt_records_outcome `{Outbox.Runtime} (db : DB) (now : Z) (d : WebhookDelivery.t) :
  webhook_deliveries db !! WebhookDelivery.ID d = Some d ->
  exists d',
    webhook_deliveries (Outbox.processWebhookDelivery db now d) !! WebhookDelivery.ID d = Some d'
    /\ match Outbox.json_Marshal (WebhookDelivery.Payload d) with
       | inr msg =>
           WebhookDelivery.LastError d' = "failed to marshal payload: " +:+ msg
           /\ WebhookDelivery.LastStatusCode d' = 0
           /\ WebhookDelivery.Status d' <> "delivered"
       | inl jsonData =>
           match Outbox.http_NewRequest (WebhookDelivery.URL d) with
           | Some msg =>
               WebhookDelivery.LastError d' = msg /\ WebhookDelivery.LastStatusCode d' = 0
               /\ WebhookDelivery.Status d' <> "delivered"
           | None =>
               match Outbox.http_Do
                       (Outbox.buildWebhookRequest (WebhookDelivery.URL d)
                          (WebhookDelivery.Headers d) (WebhookDelivery.Secret d) jsonData) with
               | Http.TransportError msg =>
                   WebhookDelivery.LastError d' = msg /\ WebhookDelivery.LastStatusCode d' = 0
                   /\ WebhookDelivery.Status d' <> "delivered"
               | Http.Response code =>
                   if (200 <=? code) && (code <? 300)
                   then WebhookDelivery.LastError d' = ""
                        /\ WebhookDelivery.LastStatusCode d' = 0
                        /\ WebhookDelivery.Status d' = "delivered"
                   else WebhookDelivery.LastError d'
                        = "webhook returned non-2xx status: " +:+ Outbox.http_StatusText code
                        /\ WebhookDelivery.LastStatusCode d' = code
                        /\ WebhookDelivery.Status d' <> "delivered"
               end
           end
       end.
Proof.
  intros Hd.
  assert (Hfail : forall c m,
             let d' := Outbox.fail_updates now d c m d in
             WebhookDelivery.LastError d' = m /\ WebhookDelivery.LastStatusCode d' = c
             /\ WebhookDelivery.Status d' <> "delivered").
  { intros c m. pose proof (fail_updates_fields now d c m) as Hf. cbv zeta in *.
    destruct Hf as (_ & _ & He & Hc & _ & _ & _ & Hs).
    split; [exact He|]. split; [exact Hc|].
    destruct (_ >=? _); destruct Hs as [-> _]; discriminate. }
  unfold Outbox.processWebhookDelivery, Outbox.failWebhookDelivery, Outbox.sendWebhookRequest.
  rewrite Hd.
  destruct (Outbox.json_Marshal (WebhookDelivery.Payload d)) as [jsonData|msg].
  2:{ eexists. split; [by apply update_delivery_eq|]. apply Hfail. }
  destruct (Outbox.http_NewRequest (WebhookDelivery.URL d)) as [msg|].
  { eexists. split; [by apply update_delivery_eq|]. apply Hfail. }
  destruct (Outbox.http_Do _) as [msg|code].
  { eexists. split; [by apply update_delivery_eq|]. apply Hfail. }
  assert (Hcode : (code <? 200) || (code >=? 300) = negb ((200 <=? code) && (code <? 300))).
  { rewrite Z.geb_leb. destruct (Z.ltb_spec code 200), (Z.leb_spec 300 code),
      (Z.leb_spec 200 code), (Z.ltb_spec code 300); simpl; try reflexivity; lia. }
  rewrite Hcode. destruct ((200 <=? code) && (code <? 300)); cbn [negb].
  - eexists. split; [by apply update_delivery_eq|]. repeat split; reflexivity.
  - eexists. split; [by apply update_delivery_eq|]. apply Hfail.
Qed.

Lemma attempt_records_outcome_witness :
  exists d',
    webhook_deliveries
      (@Outbox.processWebhookDelivery (Examples.always 503)
         (Examples.store Examples.delivery) 5 Examples.delivery) !! "d1" = Some d'
    /\ WebhookDelivery.LastError d' = "webhook returned non-2xx status: Service Unavailable"
    /\ WebhookDelivery.LastStatusCode d' = 503.
Proof.
  destruct (@attempt_records_outcome (Examples.always 503) (Examples.store Examples.delivery)
              5 Examples.delivery) as (d' & Hd' & He & Hc & _).
  - reflexivity.
  - exists d'. split; [exact Hd'|]. split; [exact He|exact Hc].
Defined.

(** ** Reported counts and the retry action *)

Section CountFacts.

Import Handlers WebhookQueries.

Lemma selects_split (orgID webhookID : UUID) (d : WebhookDelivery.t) :
  retry_selects orgID webhookID d
  = failed_where orgID webhookID d || retrying_where orgID webhookID d.
Proof.
  unfold retry_selects, failed_where, retrying_where. cbn [existsb].
  destruct (String.eqb (WebhookDelivery.OrganizationID d) orgID),
    (String.eqb (WebhookDelivery.WebhookID d) webhookID),
    (String.eqb (WebhookDelivery.Status d) "failed"),
    (String.eqb (WebhookDelivery.Status d) "pending"),
    (String.eqb (WebhookDelivery.Status d) "in_progress"),
    (String.eqb (WebhookDelivery.LastError d) ""); reflexivity.
Qed.

Lemma failed_not_retrying (orgID webhookID : UUID) (d : WebhookDelivery.t) :
  failed_where orgID webhookID d = true -> retrying_where orgID webhookID d = false.
Proof.
  unfold failed_where, retrying_where. cbn [existsb].
  intros Hf. apply andb_true_iff in Hf as [_ Hs]. apply String.eqb_eq in Hs. rewrite Hs.
  change (String.eqb "failed" "pending") with false.
  change (String.eqb "failed" "in_progress") with false.
  cbn [orb]. by rewrite andb_false_r.
Qed.

(** The rows the retry action takes are the failed ones and the
    retrying ones, and no row is both. *)
Lemma count_split (db : DB) (orgID webhookID : UUID) :
  count_where db (retry_selects orgID webhookID)
  = count_where db (failed_where orgID webhookID)
    + count_where db (retrying_where orgID webhookID).
Proof.
  unfold count_where. rewrite <- Nat2Z.inj_add. f_equal.
  rewrite <- map_size_disj_union.
  - f_equal. rewrite <- map_filter_or. apply map_filter_ext. intros i d _. simpl.
    rewrite selects_split, orb_true_iff. reflexivity.
  - apply map_disjoint_alt. intros i.
    destruct (webhook_deliveries db !! i) as [d|] eqn:Hd.
    2:{ left. apply map_lookup_filter_None. by left. }
    destruct (failed_where orgID webhookID d) eqn:Hf.
    + right. apply map_lookup_filter_None. right. intros x Hx. simpl.
      assert (x = d) by congruence. subst x.
      by rewrite (failed_not_retrying _ _ _ Hf).
    + left. apply map_lookup_filter_None. right. intros x Hx. simpl.
      assert (x = d) by congruence. subst x. by rewrite Hf.
Qed.

(** After the reset no row of the webhook is failed or retrying. *)
Lemma count_after_reset (db : DB) (now : Z) (orgID webhookID : UUID)
      (p : WebhookDelivery.t -> bool) :
  (forall d, p d = true -> retry_selects orgID webhookID d = true) ->
  (forall d, p (retry_reset now d) = false) ->
  count_where
    (with_deliveries db
       ((fun d => if retry_selects orgID webhookID d then retry_reset now d else d)
          <$> webhook_deliveries db)) p = 0.
Proof.
  intros Hsub Hreset. unfold count_where. simpl.
  change 0 with (Z.of_nat 0). f_equal. apply map_size_empty_iff, map_empty. intros i.
  apply map_lookup_filter_None. right. intros x Hx. simpl.
  rewrite lookup_fmap in Hx.
  destruct (webhook_deliveries db !! i) as [d|]; [|discriminate].
  simpl in Hx. injection Hx as <-.
  destruct (retry_selects orgID webhookID d) eqn:Hsel.
  - by rewrite Hreset.
  - intros Hp. apply Hsub in Hp. congruence.
Qed.

Lemma find_with_deliveries (db : DB) (ds : gmap UUID WebhookDelivery.t) (id orgID : UUID) :
  findByIDAndOrg (with_deliveries db ds) id orgID = findByIDAndOrg db id orgID.
Proof. reflexivity. Qed.

(** The retry action changes nothing when it is run again. *)
Lemma retry_reset_fixpoint (db : DB) (t1 t2 : Z) (orgID webhookID : UUID) :
  let rows := (fun d => if retry_selects orgID webhookID d then retry_reset t1 d else d)
                <$> webhook_deliveries db in
  (fun d => if retry_selects orgID webhookID d then retry_reset t2 d else d) <$> rows = rows.
Proof.
  intros rows. apply map_eq. intros i. unfold rows. rewrite !lookup_fmap.
  destruct (webhook_deliveries db !! i) as [d|]; [|reflexivity]. simpl. f_equal.
  destruct (retry_selects orgID webhookID d) eqn:Hsel.
  - assert (Hno : retry_selects orgID webhookID (retry_reset t1 d) = false).
    { unfold retry_selects. simpl. by rewrite !andb_false_r. }
    by rewrite Hno.
  - by rewrite Hsel.
Qed.

End CountFacts.

(** X5. The number the retry action reports is the sum of the two
    counts [GetWebhook] shows for the webhook, [failed_count] and
    [retrying_count], and right after the retry action [GetWebhook]
    shows both counts as zero. *)
Theorem retry_count_is_failed_plus_retrying (db : DB) (now : Z) (r : Handlers.request)
        (orgID webhookID : UUID) (wh : Webhook.t) :
  Handlers.org r = Some orgID -> Handlers.path_id r = Some webhookID ->
  Handlers.findByIDAndOrg db webhookID orgID = Some wh ->
  let failed := WebhookQueries.count_where db (WebhookQueries.failed_where orgID webhookID) in
  let retrying := WebhookQueries.count_where db (WebhookQueries.retrying_where orgID webhookID) in
  WebhookQueries.GetWebhook db r
  = Handlers.SendEnvelope (Handlers.WebhookPayload (Handlers.webhookToResponse wh failed retrying))
  /\ (Handlers.RetryFailedWebhookDeliveries db now r).1
     = Handlers.SendEnvelope (Handlers.RetryPayload "Retry scheduled" (failed + retrying))
  /\ WebhookQueries.GetWebhook (Handlers.RetryFailedWebhookDeliveries db now r).2 r
     = Handlers.SendEnvelope (Handlers.WebhookPayload (Handlers.webhookToResponse wh 0 0)).
Proof.
  intros Ho Hp Hf failed retrying.
  unfold WebhookQueries.GetWebhook, Handlers.RetryFailedWebhookDeliveries.
  rewrite Ho, Hp, Hf. cbn [fst snd]. rewrite find_with_deliveries, Hf.
  split; [reflexivity|]. split.
  - do 2 f_equal. apply (count_split db orgID webhookID).
  - rewrite !count_after_reset; [reflexivity| | | |].
    + intros d Hd. rewrite selects_split, Hd. apply orb_true_r.
    + intros d. unfold WebhookQueries.retrying_where. simpl. apply andb_false_r.
    + intros d Hd. rewrite selects_split, Hd. reflexivity.
    + intros d. unfold WebhookQueries.failed_where. simpl. apply andb_false_r.
Qed.

Lemma retry_count_is_failed_plus_retrying_witness :
  (Handlers.RetryFailedWebhookDeliveries
     (@Outbox.attempts_at (Examples.always 500) (Examples.store Examples.delivery)
                          Examples.delivery Examples.due_times)
     99 Examples.on_hook).1
  = Handlers.SendEnvelope (Handlers.RetryPayload "Retry scheduled" 1).
Proof.
  set (db := @Outbox.attempts_at _ _ _ _).
  destruct (retry_count_is_failed_plus_retrying db 99 Examples.on_hook "org1" "w1" Examples.hook)
    as (_ & Hcount & _).
  - reflexivity.
  - reflexivity.
  - vm_compute. reflexivity.
  - rewrite Hcount. vm_compute. reflexivity.
Defined.

(** X6. The retry action is idempotent: run a second time on the same
    webhook, at whatever instant, it reports zero rows and leaves the
    store as the first run left it. *)
Theorem retry_twice_is_retry_once (db : DB) (t1 t2 : Z) (r : Handlers.request) :
  let db1 := (Handlers.RetryFailedWebhookDeliveries db t1 r).2 in
  (Handlers.RetryFailedWebhookDeliveries db1 t2 r).2 = db1
  /\ forall message count,
      (Handlers.RetryFailedWebhookDeliveries db t1 r).1
      = Handlers.SendEnvelope (Handlers.RetryPayload message count) ->
      (Handlers.RetryFailedWebhookDeliveries db1 t2 r).1
      = Handlers.SendEnvelope (Handlers.RetryPayload "Retry scheduled" 0).
Proof.
  unfold Handlers.RetryFailedWebhookDeliveries.
  destruct (Handlers.org r) as [orgID|]; [|split; [reflexivity|discriminate]].
  destruct (Handlers.path_id r) as [webhookID|]; [|split; [reflexivity|discriminate]].
  destruct (Handlers.findByIDAndOrg db webhookID orgID) as [wh|] eqn:Hf.
  2:{ cbn [fst snd]. rewrite Hf. split; [reflexivity|discriminate]. }
  cbn [fst snd]. rewrite find_with_deliveries, Hf. cbn [fst snd]. split.
  - unfold with_deliveries at 1. cbn [webhooks webhook_deliveries with_deliveries].
    f_equal. apply retry_reset_fixpoint.
  - intros _ _ _. do 2 f_equal.
    apply (count_after_reset db t1 orgID webhookID (Handlers.retry_selects orgID webhookID)).
    + auto.
    + intros d. unfold Handlers.retry_selects. simpl. by rewrite !andb_false_r.
Qed.

Lemma retry_twice_is_retry_once_witness :
  (Handlers.RetryFailedWebhookDeliveries
     (Handlers.RetryFailedWebhookDeliveries
        (@Outbox.attempts_at (Examples.always 500) (Examples.store Examples.delivery)
                             Examples.delivery Examples.due_times)
        99 Examples.on_hook).2
     120 Examples.on_hook).1
  = Handlers.SendEnvelope (Handlers.RetryPayload "Retry scheduled" 0).
Proof.
  set (db := @Outbox.attempts_at _ _ _ _).
  destruct (retry_twice_is_retry_once db 99 120 Examples.on_hook) as [_ Hagain].
  apply (Hagain "Retry scheduled" 1). vm_compute. reflexivity.
Defined.

(** ** The CRUD handlers, request by request *)

Section CrudFacts.

Import Handlers.
Context `{Ssrf.NetLib}.
Variable allowInternal : bool.

(** Header maps survive the way into the store and back. *)
Lemma string_headers_to_JSONB (h : list (string * string)) :
  string_headers (to_JSONB h) = h.
Proof.
  induction h as [|[k v] h IH]; [reflexivity|].
  cbn [to_JSONB map string_headers fst snd]. f_equal. exact IH.
Qed.

Lemma find_Some (db : DB) (id orgID : UUID) (w : Webhook.t) :
  findByIDAndOrg db id orgID = Some w
  <-> webhooks db !! id = Some w /\ Webhook.OrganizationID w = orgID.
Proof.
  unfold findByIDAndOrg. destruct (webhooks db !! id) as [x|]; [|split; [discriminate|]].
  - destruct (String.eqb (Webhook.OrganizationID x) orgID) eqn:E.
    + apply String.eqb_eq in E. split.
      * intros [= <-]. auto.
      * intros [[= <-] _]. reflexivity.
    + apply String.eqb_neq in E. split; [discriminate|].
      intros [[= <-] Ho]. contradiction.
  - intros [[=] _].
Qed.

End CrudFacts.

(** X7. What [CreateWebhook] does. When it answers with the webhook, it
    has stored exactly one new row under the fresh id, for the caller's
    tenant, with the name, URL and events of the request, a non-empty
    secret, and active whatever [is_active] the request carried; the
    request named a webhook and a URL that passed the URL check and at
    least one event; and the answer echoes the request's headers, with
    [has_secret] set and both counts zero. Under every other answer the
    store is unchanged. *)
Theorem create_webhook_outcome `{Ssrf.NetLib} (allowInternal : bool) (db : DB) (newID : UUID)
        (entropy : nat -> Z) (r : Handlers.request) :
  let out := Handlers.CreateWebhook allowInternal db newID entropy r in
  (forall w,
      out.1 = Handlers.SendEnvelope (Handlers.WebhookPayload w) ->
      exists orgID req stored,
        Handlers.org r = Some orgID /\ Handlers.body r = Some req
        /\ webhooks db !! newID = None
        /\ out.2 = with_webhooks db (<[newID := stored]> (webhooks db))
        /\ Webhook.ID stored = newID /\ Webhook.OrganizationID stored = orgID
        /\ Webhook.Name stored = Handlers.Name req /\ Handlers.Name req <> ""
        /\ Webhook.URL stored = Handlers.URL req /\ Handlers.URL req <> ""
        /\ Ssrf.validateWebhookURL (Handlers.URL req) allowInternal = None
        /\ Webhook.Events stored = Handlers.Events req /\ Handlers.Events req <> []
        /\ Webhook.IsActive stored = true
        /\ Webhook.Secret stored <> ""
        /\ w = Handlers.webhookToResponse stored 0 0
        /\ Handlers.RHeaders w = default [] (Handlers.Headers req)
        /\ Handlers.RIsActive w = true /\ Handlers.HasSecret w = true)
  /\ ((forall w, out.1 <> Handlers.SendEnvelope (Handlers.WebhookPayload w)) -> out.2 = db).
Proof.
  unfold Handlers.CreateWebhook.
  destruct (Handlers.org r) as [orgID|]; [|split; [discriminate|reflexivity]].
  destruct (Handlers.body r) as [req|]; [|split; [discriminate|reflexivity]].
  destruct (String.eqb (Handlers.Name req) "") eqn:En;
    [split; [discriminate|reflexivity]|].
  destruct (String.eqb (Handlers.URL req) "") eqn:Eu;
    [split; [discriminate|reflexivity]|].
  cbn [orb].
  destruct (Ssrf.validateWebhookURL _ _) eqn:Ev; [split; [discriminate|reflexivity]|].
  destruct (Nat.eqb (length (Handlers.Events req)) 0) eqn:Ee;
    [split; [discriminate|reflexivity]|].
  destruct (webhooks db !! newID) eqn:Hnew; [split; [discriminate|reflexivity]|].
  cbn [fst snd]. split.
  2:{ intros Hno. exfalso. eapply Hno. reflexivity. }
  intros w [= <-]. eexists orgID, req, _.
  apply String.eqb_neq in En, Eu. apply Nat.eqb_neq in Ee.
  assert (Hsec : (if String.eqb (Handlers.Secret req) ""
                  then Handlers.generateVerifyToken entropy else Handlers.Secret req) <> "").
  { destruct (String.eqb (Handlers.Secret req) "") eqn:Es;
      [apply generateVerifyToken_nonempty | by apply String.eqb_neq]. }
  do 4 (split; [reflexivity|]). cbn [Webhook.ID Webhook.OrganizationID Webhook.Name Webhook.URL
                                     Webhook.Events Webhook.IsActive Webhook.Secret].
  repeat (split; [first [reflexivity | assumption]|]).
  split; [intros He; rewrite He in Ee; by apply Ee|].
  split; [reflexivity|]. split; [exact Hsec|]. split; [reflexivity|].
  cbn [Handlers.RHeaders Handlers.RIsActive Handlers.HasSecret Handlers.webhookToResponse
       Webhook.Headers Webhook.IsActive Webhook.Secret].
  split; [apply string_headers_to_JSONB|]. split; [reflexivity|].
  apply negb_true_iff, String.eqb_neq, Hsec.
Qed.

Lemma create_webhook_outcome_witness :
  let req := {| Handlers.Name := "orders"; Handlers.URL := "https://hooks.example.com/in";
                Handlers.Events := ["message.incoming"];
                Handlers.Headers := Some [("X-Env", "prod")];
                Handlers.Secret := ""; Handlers.IsActive := false |} in
  let r := {| Handlers.org := Some "org1"; Handlers.path_id := None;
              Handlers.body := Some req |} in
  exists w,
    (@Handlers.CreateWebhook (Ssrf.example_net []) false
       (Examples.store Examples.delivery) "w9" (fun _ => 7) r).1
    = Handlers.SendEnvelope (Handlers.WebhookPayload w)
    /\ Handlers.RIsActive w = true
    /\ Handlers.RHeaders w = [("X-Env", "prod")].
Proof.
  intros req r.
  destruct (@create_webhook_outcome (Ssrf.example_net []) false
              (Examples.store Examples.delivery) "w9" (fun _ => 7) r) as [Hok _].
  eexists. split; [vm_compute; reflexivity|].
  edestruct Hok as (o & q & stored & _ & Hq & _ & _ & _ & _ & _ & _ & _ & _ & _ & _ & _ & _
                    & _ & _ & Hh & Ha & _).
  { vm_compute. reflexivity. }
  injection Hq as <-. split; [exact Ha|exact Hh].
Defined.

(** X8. What [UpdateWebhook] does to the webhook it finds. A non-empty
    URL that fails the URL check is refused with 400 and nothing is
    stored. Otherwise the row keeps its id and tenant; name, URL, events
    and secret are replaced when the request gives a non-empty value and
    kept when it gives none; the headers are replaced when the request
    has a header map and kept when it has none; [is_active] is always
    set to the request's value, so a request without the field switches
    the webhook off; no other webhook and no delivery row changes, and
    the answer shows the stored row with both counts zero. *)
Theorem update_webhook_semantics `{Ssrf.NetLib} (allowInternal : bool) (db : DB)
        (r : Handlers.request) (orgID webhookID : UUID) (old : Webhook.t)
        (req : Handlers.WebhookRequest) :
  (forall id w, webhooks db !! id = Some w -> Webhook.ID w = id) ->
  Handlers.org r = Some orgID -> Handlers.path_id r = Some webhookID ->
  Handlers.findByIDAndOrg db webhookID orgID = Some old ->
  Handlers.body r = Some req ->
  let out := Handlers.UpdateWebhook allowInternal db r in
  let refused :=
    Handlers.URL req <> "" /\ Ssrf.validateWebhookURL (Handlers.URL req) allowInternal <> None in
  let keep {A} (given : bool) (new stored : A) := if given then new else stored in
  (refused -> out.2 = db /\ exists msg, out.1 = Handlers.SendErrorEnvelope 400 msg)
  /\ (~ refused ->
      exists w,
        out = (Handlers.SendEnvelope (Handlers.WebhookPayload (Handlers.webhookToResponse w 0 0)),
               with_webhooks db (<[webhookID := w]> (webhooks db)))
        /\ Webhook.ID w = webhookID /\ Webhook.OrganizationID w = orgID
        /\ Webhook.Name w
           = keep (negb (String.eqb (Handlers.Name req) "")) (Handlers.Name req) (Webhook.Name old)
        /\ Webhook.URL w
           = keep (negb (String.eqb (Handlers.URL req) "")) (Handlers.URL req) (Webhook.URL old)
        /\ Webhook.Events w
           = keep (negb (Nat.eqb (length (Handlers.Events req)) 0)) (Handlers.Events req)
                  (Webhook.Events old)
        /\ Webhook.Secret w
           = keep (negb (String.eqb (Handlers.Secret req) "")) (Handlers.Secret req)
                  (Webhook.Secret old)
        /\ Webhook.Headers w
           = match Handlers.Headers req with
             | Some h => Handlers.to_JSONB h
             | None => Webhook.Headers old
             end
        /\ Webhook.IsActive w = Handlers.IsActive req).
Proof.
  intros Hkey Ho Hp Hf Hb out refused keep.
  pose proof (proj1 (find_Some db webhookID orgID old) Hf) as [Hold Horg].
  pose proof (Hkey _ _ Hold) as Hid.
  unfold out, refused, Handlers.UpdateWebhook. rewrite Ho, Hp, Hf, Hb.
  destruct (String.eqb (Handlers.URL req) "") eqn:Eu; cbn [negb].
  - apply String.eqb_eq in Eu. split; [intros [Hne _]; contradiction|].
    intros _. eexists. rewrite Hid. split; [reflexivity|].
    cbn [Webhook.ID Webhook.OrganizationID Webhook.Name Webhook.URL Webhook.Events
         Webhook.Secret Webhook.Headers Webhook.IsActive].
    repeat split; auto.
    destruct (length (Handlers.Events req)); reflexivity.
  - apply String.eqb_neq in Eu.
    destruct (Ssrf.validateWebhookURL (Handlers.URL req) allowInternal) as [msg|] eqn:Ev.
    + split; [|intros Hnot; exfalso; apply Hnot; split; [exact Eu|discriminate]].
      intros _. split; [reflexivity|]. exists msg. reflexivity.
    + split; [intros [_ Hne]; contradiction|].
      intros _. eexists. rewrite Hid. split; [reflexivity|].
      cbn [Webhook.ID Webhook.OrganizationID Webhook.Name Webhook.URL Webhook.Events
           Webhook.Secret Webhook.Headers Webhook.IsActive].
      repeat split; auto.
      destruct (length (Handlers.Events req)); reflexivity.
Qed.

Lemma update_webhook_semantics_witness :
  let req := {| Handlers.Name := ""; Handlers.URL := ""; Handlers.Events := [];
                Handlers.Headers := None; Handlers.Secret := "";
                Handlers.IsActive := false |} in
  let r := {| Handlers.org := Some "org1"; Handlers.path_id := Some "w1";
              Handlers.body := Some req |} in
  exists w,
    webhooks (@Handlers.UpdateWebhook (Ssrf.example_net []) false
                (Examples.store Examples.delivery) r).2 !! "w1" = Some w
    /\ Webhook.IsActive w = false
    /\ Webhook.URL w = "https://hooks.example.com/in".
Proof.
  intros req r.
  destruct (@update_webhook_semantics (Ssrf.example_net []) false
              (Examples.store Examples.delivery) r "org1" "w1" Examples.hook req)
    as [_ Hok].
  - intros id w Hl. unfold Examples.store in Hl. cbn [webhooks] in Hl.
    apply lookup_singleton_Some in Hl as [<- <-]. reflexivity.
  - reflexivity.
  - reflexivity.
  - reflexivity.
  - reflexivity.
  - destruct Hok as (w & Hout & _ & _ & _ & Hu & _ & _ & _ & Ha).
    { intros [Hne _]. by apply Hne. }
    exists w. rewrite Hout. cbn [snd with_webhooks webhooks].
    rewrite lookup_insert_eq. split; [reflexivity|]. split; [exact Ha|exact Hu].
Defined.

(** X9. [DeleteWebhook] removes the addressed webhook when it belongs to
    the caller's tenant, and nothing else: every other webhook stays, and
    asking again is answered 404 with the store unchanged. A webhook of
    another tenant and a missing one are both answered 404 "Webhook not
    found" and nothing is removed. *)
Theorem delete_webhook_outcome (db : DB) (r : Handlers.request) (orgID webhookID : UUID) :
  Handlers.org r = Some orgID -> Handlers.path_id r = Some webhookID ->
  let out := Handlers.DeleteWebhook db r in
  let not_found := Handlers.SendErrorEnvelope 404 "Webhook not found" in
  match webhooks db !! webhookID with
  | Some w =>
      if String.eqb (Webhook.OrganizationID w) orgID
      then out.1 = Handlers.SendEnvelope (Handlers.MessagePayload "Webhook deleted successfully")
           /\ webhooks out.2 !! webhookID = None
           /\ (forall id, id <> webhookID -> webhooks out.2 !! id = webhooks db !! id)
           /\ Handlers.DeleteWebhook out.2 r = (not_found, out.2)
      else out = (not_found, db)
  | None => out = (not_found, db)
  end.
Proof.
  intros Ho Hp out not_found. unfold out, Handlers.DeleteWebhook.
  rewrite Ho, Hp. unfold Handlers.findByIDAndOrg.
  destruct (webhooks db !! webhookID) as [w|] eqn:Hw; [|reflexivity].
  destruct (String.eqb (Webhook.OrganizationID w) orgID); [|reflexivity].
  cbn [fst snd with_webhooks webhooks].
  split; [reflexivity|]. split; [apply lookup_delete_eq|].
  split; [intros id Hne; by apply lookup_delete_ne|].
  by rewrite lookup_delete_eq.
Qed.

Lemma delete_webhook_outcome_witness :
  webhooks (Handlers.DeleteWebhook (Examples.store Examples.delivery) Examples.on_hook).2 !! "w1"
  = None
  /\ Handlers.DeleteWebhook
       (Handlers.DeleteWebhook (Examples.store Examples.delivery) Examples.on_hook).2
       Examples.on_hook
     = (Handlers.SendErrorEnvelope 404 "Webhook not found",
        (Handlers.DeleteWebhook (Examples.store Examples.delivery) Examples.on_hook).2).
Proof.
  pose proof (delete_webhook_outcome (Examples.store Examples.delivery) Examples.on_hook
                "org1" "w1" eq_refl eq_refl) as Hd.
  cbv zeta in Hd.
  change (webhooks (Examples.store Examples.delivery) !! "w1") with (Some Examples.hook) in Hd.
  change (String.eqb (Webhook.OrganizationID Examples.hook) "org1") with true in Hd.
  cbv iota in Hd. destruct Hd as (_ & Hgone & _ & Hagain). split; [exact Hgone|exact Hagain].
Defined.

(** X10. Tenant isolation of the webhook table. Whatever a caller of one
    tenant sends to the create, update, delete and retry handlers, a
    webhook that belongs to another tenant is still stored, unchanged,
    under its id afterwards. *)
Theorem other_tenants_webhooks_untouched `{Ssrf.NetLib} (allowInternal : bool) (db : DB)
        (r : Handlers.request) (orgID id : UUID) (w : Webhook.t) (newID : UUID)
        (entropy : nat -> Z) (now : Z) :
  (forall id w, webhooks db !! id = Some w -> Webhook.ID w = id) ->
  Handlers.org r = Some orgID ->
  webhooks db !! id = Some w -> Webhook.OrganizationID w <> orgID ->
  webhooks (Handlers.CreateWebhook allowInternal db newID entropy r).2 !! id = Some w
  /\ webhooks (Handlers.UpdateWebhook allowInternal db r).2 !! id = Some w
  /\ webhooks (Handlers.DeleteWebhook db r).2 !! id = Some w
  /\ webhooks (Handlers.RetryFailedWebhookDeliveries db now r).2 !! id = Some w.
Proof.
  intros Hkey Ho Hw Hforeign. repeat split.
  - unfold Handlers.CreateWebhook. rewrite Ho.
    destruct (Handlers.body r) as [req|]; [|exact Hw].
    destruct (_ || _); [exact Hw|].
    destruct (Ssrf.validateWebhookURL _ _); [exact Hw|].
    destruct (Nat.eqb _ 0); [exact Hw|].
    destruct (webhooks db !! newID) eqn:Hnew; [exact Hw|].
    cbn [snd with_webhooks webhooks]. rewrite lookup_insert_ne; [exact Hw|congruence].
  - unfold Handlers.UpdateWebhook. rewrite Ho.
    destruct (Handlers.path_id r) as [webhookID|]; [|exact Hw].
    destruct (Handlers.findByIDAndOrg db webhookID orgID) as [old|] eqn:Hf; [|exact Hw].
    destruct (Handlers.body r) as [req|]; [|exact Hw].
    destruct (if negb _ then _ else _); [exact Hw|].
    cbn [snd with_webhooks webhooks].
    apply find_Some in Hf as [Hold Horg].
    rewrite lookup_insert_ne; [exact Hw|].
    rewrite (Hkey _ _ Hold). intros ->. congruence.
  - unfold Handlers.DeleteWebhook. rewrite Ho.
    destruct (Handlers.path_id r) as [webhookID|]; [|exact Hw].
    destruct (Handlers.findByIDAndOrg db webhookID orgID) as [old|] eqn:Hf; [|exact Hw].
    cbn [snd with_webhooks webhooks].
    apply find_Some in Hf as [Hold Horg].
    rewrite lookup_delete_ne; [exact Hw|]. intros ->. congruence.
  - destruct (retry_db db now r) as [[_ ->]|(o & wid & wh & _ & _ & _ & ->)]; exact Hw.
Qed.

Lemma other_tenants_webhooks_untouched_witness :
  let r := {| Handlers.org := Some "org2"; Handlers.path_id := Some "w1";
              Handlers.body := None |} in
  webhooks (Handlers.DeleteWebhook (Examples.store Examples.delivery) r).2 !! "w1"
  = Some Examples.hook.
Proof.
  intros r.
  destruct (@other_tenants_webhooks_untouched (Ssrf.example_net []) false
              (Examples.store Examples.delivery) r "org2" "w1" Examples.hook "w9"
              (fun _ => 7) 0) as (_ & _ & Hdel & _).
  - intros id w Hl. unfold Examples.store in Hl. cbn [webhooks] in Hl.
    apply lookup_singleton_Some in Hl as [<- <-]. reflexivity.
  - reflexivity.
  - reflexivity.
  - discriminate.
  - exact Hdel.
Defined.

(** X11. [TestWebhook] sends the test event the way a delivery is sent:
    one POST to the webhook's URL with its custom headers, signed with
    its secret. It answers "Test webhook sent successfully" exactly when
    the request could be built and the endpoint answered with a status
    in 200-299, and 502 "Webhook test failed" otherwise. *)
Theorem test_webhook_outcome `{Outbox.Runtime} (format_RFC3339 : Z -> string) (db : DB)
        (newUUID : UUID) (stamp now : Z) (r : Handlers.request) (orgID webhookID : UUID)
        (wh : Webhook.t) (jsonData : string) :
  Handlers.org r = Some orgID -> Handlers.path_id r = Some webhookID ->
  Handlers.findByIDAndOrg db webhookID orgID = Some wh ->
  Outbox.json_Marshal (WebhookQueries.test_payload format_RFC3339 newUUID stamp now)
  = inl jsonData ->
  let out := WebhookQueries.TestWebhook format_RFC3339 db newUUID stamp now r in
  let req := Outbox.buildWebhookRequest (Webhook.URL wh) (Webhook.Headers wh)
                                        (Webhook.Secret wh) jsonData in
  let answered_2xx :=
    Outbox.http_NewRequest (Webhook.URL wh) = None
    /\ exists code, Outbox.http_Do req = Http.Response code /\ 200 <= code < 300 in
  (answered_2xx ->
   out = Handlers.SendEnvelope (Handlers.MessagePayload "Test webhook sent successfully"))
  /\ (~ answered_2xx -> out = Handlers.SendErrorEnvelope 502 "Webhook test failed")
  /\ Http.Method req = "POST" /\ Http.URL req = Webhook.URL wh /\ Http.Body req = jsonData
  /\ (Webhook.Secret wh <> "" ->
      Http.Get (Http.Head req) "X-Webhook-Signature"
      = Some (Signature.computeHMACSignature jsonData (Webhook.Secret wh))).
Proof.
  intros Ho Hp Hf Hm out req answered_2xx.
  unfold out, answered_2xx, WebhookQueries.TestWebhook, Outbox.sendWebhookRequest.
  rewrite Ho, Hp, Hf, Hm. fold req.
  split; [|split].
  - intros (Hn & code & Hd & Hc). rewrite Hn, Hd.
    assert (Hr : (code <? 200) || (code >=? 300) = false).
    { rewrite Z.geb_leb. apply orb_false_iff. split; [apply Z.ltb_ge|apply Z.leb_gt]; lia. }
    by rewrite Hr.
  - intros Hnot.
    destruct (Outbox.http_NewRequest (Webhook.URL wh)) as [msg|] eqn:Hn; [reflexivity|].
    destruct (Outbox.http_Do req) as [msg|code] eqn:Hd; [reflexivity|].
    destruct ((code <? 200) || (code >=? 300)) eqn:Hr; [reflexivity|].
    exfalso. apply Hnot. split; [reflexivity|]. exists code. split; [reflexivity|].
    rewrite Z.geb_leb in Hr. apply orb_false_iff in Hr as [H1 H2].
    apply Z.ltb_ge in H1. apply Z.leb_gt in H2. lia.
  - repeat split. intros Hs. unfold req, Outbox.buildWebhookRequest. cbn [Http.Head].
    apply String.eqb_neq in Hs. rewrite Hs. cbn [negb]. unfold Http.Get, Http.Set_.
    apply lookup_insert_eq.
Qed.

Lemma test_webhook_outcome_witness :
  @WebhookQueries.TestWebhook (Examples.always 204) (fun _ => "2026-01-01T00:00:00Z")
    (Examples.store Examples.delivery) "t1" 0 0 Examples.on_hook
  = Handlers.SendEnvelope (Handlers.MessagePayload "Test webhook sent successfully").
Proof.
  destruct (@test_webhook_outcome (Examples.always 204) (fun _ => "2026-01-01T00:00:00Z")
              (Examples.store Examples.delivery) "t1" 0 0 Examples.on_hook "org1" "w1"
              Examples.hook "{}") as (Hok & _).
  - reflexivity.
  - reflexivity.
  - reflexivity.
  - reflexivity.
  - apply Hok. split; [reflexivity|]. exists 204. split; [reflexivity|lia].
Defined.

(** ** The SSRF guard, both directions *)

Section GuardFacts.

Import Ssrf.
Context `{NetLib}.

Lemma internal_host_dec (hostname : string) :
  internal_host hostname
  <-> (String.eqb (ToLower hostname) "localhost"
       || String.eqb (ToLower hostname) "0.0.0.0"
       || Bytes.HasSuffix (ToLower hostname) ".local"
       || Bytes.HasSuffix (ToLower hostname) ".internal"
       || match net_ParseIP hostname with
          | Some ip => internalIP ip
          | None => false
          end) = true.
Proof.
  unfold internal_host. rewrite !orb_true_iff, !String.eqb_eq. split.
  - intros [Hl | [Hz | [Hs | [Hs | (ip & Hip & Hin)]]]]; [tauto..|].
    right. by rewrite Hip.
  - intros [[[[Hl | Hz] | Hs] | Hs] | Hp]; [tauto..|].
    do 4 right. destruct (net_ParseIP hostname) as [ip|]; [eauto|discriminate].
Qed.

Lemma first_internal_None (ips : list string) :
  first_internal ips = None
  <-> forall ipStr ip, ipStr ∈ ips -> net_ParseIP ipStr = Some ip -> internalIP ip = false.
Proof.
  unfold first_internal. split.
  - intros Hf ipStr ip Hin Hip. apply list_elem_of_In in Hin.
    pose proof (find_none _ _ Hf _ Hin) as Hno. cbv beta in Hno. by rewrite Hip in Hno.
  - intros Hall. destruct (List.find _ ips) as [b|] eqn:Hf; [|reflexivity].
    apply find_some in Hf as [Hin Hb]. apply list_elem_of_In in Hin.
    destruct (net_ParseIP b) as [ip|] eqn:Hip; [|discriminate].
    rewrite (Hall b ip Hin Hip) in Hb. discriminate.
Qed.

End GuardFacts.

(** X12. The URL check accepts exactly the URLs that parse, have the
    scheme http or https and a non-empty hostname, and, unless internal
    targets are allowed, whose hostname, lowered by [strings.ToLower],
    is neither localhost nor 0.0.0.0 and ends in neither .local nor
    .internal, and which [net.ParseIP] does not read as an address in
    the loopback, private, link-local or unspecified ranges. Nothing
    else is ever refused: a host name is accepted whatever it resolves
    to, and so is an address [net.ParseIP] does not read, such as one
    with a zone. *)
Theorem webhook_url_accepted_iff `{Ssrf.NetLib} (rawURL : string) (allowInternal : bool) :
  Ssrf.validateWebhookURL rawURL allowInternal = None
  <-> exists u,
      Ssrf.url_Parse rawURL = inl u
      /\ (Ssrf.Scheme u = "http" \/ Ssrf.Scheme u = "https")
      /\ Ssrf.Hostname u <> ""
      /\ (allowInternal = true \/ ~ Ssrf.internal_host (Ssrf.Hostname u)).
Proof.
  unfold Ssrf.validateWebhookURL.
  destruct (Ssrf.url_Parse rawURL) as [u|err]; [|split; [discriminate|intros (u & [=] & _)]].
  pose proof (internal_host_dec (Ssrf.Hostname u)) as Hdec.
  split.
  - intros Hv. exists u. split; [reflexivity|].
    destruct (String.eqb (Ssrf.Scheme u) "https") eqn:Es;
      destruct (String.eqb (Ssrf.Scheme u) "http") eqn:Ep;
      cbn [negb andb] in Hv; cbv beta iota in Hv; try discriminate Hv.
    all: (split; [first [ by right; apply String.eqb_eq | by left; apply String.eqb_eq ]|]).
    all: destruct (String.eqb (Ssrf.Hostname u) "") eqn:Eh; cbv beta iota zeta in Hv;
      [discriminate Hv|];
      (split; [by apply String.eqb_neq|]).
    all: destruct allowInternal; [by left|right]; cbn [negb] in Hv; cbv beta iota zeta in Hv.
    all: intros Hi; apply Hdec in Hi.
    all: match type of Hv with
         | (if ?names then _ else _) = _ => destruct names
         end; cbv beta iota in Hv; [discriminate Hv|]; cbn [orb] in Hi.
    all: destruct (Ssrf.net_ParseIP (Ssrf.Hostname u)) as [ip|]; [|discriminate Hi].
    all: rewrite Hi in Hv; cbv beta iota in Hv; discriminate Hv.
  - intros (u' & [= <-] & Hs & Hh & Hint).
    assert (Hscheme : negb (String.eqb (Ssrf.Scheme u) "https")
                      && negb (String.eqb (Ssrf.Scheme u) "http") = false).
    { destruct Hs as [-> | ->]; reflexivity. }
    rewrite Hscheme. apply String.eqb_neq in Hh. rewrite Hh.
    destruct allowInternal; [reflexivity|]. cbn [negb].
    destruct Hint as [[=]|Hno].
    match goal with
    | |- (if ?names then _ else _) = _ => destruct names
    end.
    { exfalso. apply Hno, Hdec. reflexivity. }
    cbn [orb] in Hdec.
    destruct (Ssrf.net_ParseIP (Ssrf.Hostname u)) as [ip|]; [|reflexivity].
    destruct (Ssrf.internalIP ip); [|reflexivity].
    exfalso. apply Hno, Hdec. reflexivity.
Qed.

Lemma webhook_url_accepted_iff_witness :
  let net := Ssrf.example_net [] in
  let dotted_I := String (ascii_of_nat 196) (String (ascii_of_nat 176) "") in
  @Ssrf.validateWebhookURL net "https://hooks.example.com/in" false = None
  /\ @Ssrf.validateWebhookURL net "http://[fe80::1%25eth0]/hook" false = None
  /\ @Ssrf.validateWebhookURL net ("http://foo." +:+ dotted_I +:+ "nternal/x") false <> None.
Proof.
  intros net dotted_I.
  assert (Hno : forall host,
             (String.eqb (@Ssrf.ToLower net host) "localhost"
              || String.eqb (@Ssrf.ToLower net host) "0.0.0.0"
              || Bytes.HasSuffix (@Ssrf.ToLower net host) ".local"
              || Bytes.HasSuffix (@Ssrf.ToLower net host) ".internal"
              || match @Ssrf.net_ParseIP net host with
                 | Some ip => Ssrf.internalIP ip
                 | None => false
                 end) = false ->
             ~ @Ssrf.internal_host net host).
  { intros host Hb Hi. apply (@internal_host_dec net) in Hi. congruence. }
  split; [|split].
  - apply (@webhook_url_accepted_iff net).
    exists {| Ssrf.Scheme := "https"; Ssrf.Hostname := "hooks.example.com" |}.
    split; [reflexivity|]. split; [by right|]. split; [discriminate|].
    right. apply Hno. vm_compute. reflexivity.
  - apply (@webhook_url_accepted_iff net).
    exists {| Ssrf.Scheme := "http"; Ssrf.Hostname := "fe80::1%eth0" |}.
    split; [reflexivity|]. split; [by left|]. split; [discriminate|].
    right. apply Hno. vm_compute. reflexivity.
  - intros Hacc. apply (@webhook_url_accepted_iff net) in Hacc as (u & Hu & _ & _ & Hint).
    vm_compute in Hu. injection Hu as <-.
    destruct Hint as [Hallow|Hnot]; [discriminate|].
    apply Hnot. do 3 right. left. vm_compute. reflexivity.
Defined.

(** X13. Without [allow_internal] the dialer connects only after the
    host has resolved, only to the first resolved address, on the port
    that was asked for, and only when none of the resolved addresses
    that parse as an IP lies in the loopback, private, link-local or
    unspecified ranges; the name itself is never dialled. *)
Theorem dialer_connects_iff `{Ssrf.NetLib} (network addr network' target : string) :
  Ssrf.SSRFSafeDialer false network addr = Ssrf.Dial network' target
  <-> network' = network
      /\ exists host port ip0 rest,
          Ssrf.net_SplitHostPort addr = inl (host, port)
          /\ Ssrf.LookupHost host = inl (ip0 :: rest)
          /\ target = Ssrf.JoinHostPort ip0 port
          /\ forall ipStr ip,
              ipStr ∈ ip0 :: rest -> Ssrf.net_ParseIP ipStr = Some ip ->
              Ssrf.internalIP ip = false.
Proof.
  unfold Ssrf.SSRFSafeDialer.
  destruct (Ssrf.net_SplitHostPort addr) as [[host port]|err] eqn:Hs.
  2:{ split; [discriminate|]. intros (_ & h & p & i & rs & [=] & _). }
  cbv beta iota.
  destruct (Ssrf.LookupHost host) as [ips|err] eqn:Hl.
  2:{ split; [discriminate|]. intros (_ & h & p & i & rs & [= <- <-] & Hl' & _). congruence. }
  pose proof (first_internal_None ips) as Hfi.
  destruct (Ssrf.first_internal ips) as [b|].
  { split; [discriminate|].
    intros (_ & h & p & i & rs & [= <- <-] & Hl' & _ & Hall).
    rewrite Hl in Hl'. injection Hl' as ->. apply Hfi in Hall. discriminate. }
  destruct ips as [|ip0 rest].
  { split; [discriminate|]. intros (_ & h & p & i & rs & [= <- <-] & Hl' & _). congruence. }
  split.
  - intros [= <- <-]. split; [reflexivity|].
    exists host, port, ip0, rest. repeat split; auto. by apply Hfi.
  - intros (-> & h & p & i & rs & [= <- <-] & Hl' & -> & _).
    rewrite Hl in Hl'. injection Hl' as <- <-. reflexivity.
Qed.

(** ** Enqueueing, row by row *)

Section EnqueueFacts.

Import Outbox Dispatch.
Context `{Runtime}.

Lemma enqueue_each_rows (orgID eventType : string) (data : Json.value)
      (turns : nat -> Turn) (whs : list Webhook.t) :
  (forall p, exists jsonData, json_Marshal (envelope p) = inl jsonData) ->
  (forall k, ctx_Err (turns k) = false /\ unmarshal_err (turns k) = false
             /\ create_err (turns k) = false /\ update_err (turns k) = false) ->
  (forall j k, uuid_New (turns j) = uuid_New (turns k) -> j = k) ->
  forall (db : DB) (n : nat),
    (forall k, (n <= k)%nat -> webhook_deliveries db !! uuid_New (turns k) = None) ->
    let subscribed := List.filter (fun w => containsEvent (Webhook.Events w) eventType) whs in
    let row k w :=
      mark_in_progress (startedAt (turns (n + k)%nat))
        (newDelivery orgID w (uuid_New (turns (n + k)%nat)) (stamped (turns (n + k)%nat))
                     (due (turns (n + k)%nat)) eventType data) in
    let out := enqueue_each db orgID eventType data whs turns n in
    out.2 = imap row subscribed
    /\ webhooks out.1 = webhooks db
    /\ (forall id d, webhook_deliveries db !! id = Some d ->
                     webhook_deliveries out.1 !! id = Some d)
    /\ (forall k w, subscribed !! k = Some w ->
                    webhook_deliveries out.1 !! uuid_New (turns (n + k)%nat) = Some (row k w))
    /\ size (webhook_deliveries out.1)
       = (size (webhook_deliveries db) + length subscribed)%nat.
Proof.
  intros Henc Hcalm Hinj. induction whs as [|w whs IH]; intros db n Hfresh.
  { cbn. repeat split; auto. intros k w Hk. by rewrite lookup_nil in Hk. }
  cbn [enqueue_each List.filter].
  destruct (containsEvent (Webhook.Events w) eventType) eqn:Hc; cbn [negb].
  2:{ apply IH. exact Hfresh. }
  destruct (Hcalm n) as (-> & -> & Hcreate & ->).
  destruct (Henc {| DeliveryID := uuid_New (turns n); PEvent := eventType;
                    Timestamp := stamped (turns n); Data := data |}) as [jsonData Hj].
  set (fresh := newDelivery orgID w (uuid_New (turns n)) (stamped (turns n)) (due (turns n))
                            eventType data).
  change (WebhookDelivery.Payload fresh)
    with (envelope {| DeliveryID := uuid_New (turns n); PEvent := eventType;
                      Timestamp := stamped (turns n); Data := data |}).
  rewrite Hj. change (WebhookDelivery.ID fresh) with (uuid_New (turns n)).
  set (started := mark_in_progress (startedAt (turns n)) fresh).
  set (db1 := with_deliveries db (<[uuid_New (turns n) := fresh]> (webhook_deliveries db))).
  assert (Hcr : Create (create_err (turns n)) db fresh = Some db1).
  { unfold Create. change (WebhookDelivery.ID fresh) with (uuid_New (turns n)).
    by rewrite (Hfresh n (Nat.le_refl n)), Hcreate. }
  rewrite Hcr.
  set (db2 := update_delivery db1 (uuid_New (turns n)) (mark_in_progress (startedAt (turns n)))).
  assert (Hrow : webhook_deliveries db2 !! uuid_New (turns n) = Some started).
  { apply update_delivery_eq. unfold db1. cbn [with_deliveries webhook_deliveries].
    apply lookup_insert_eq. }
  assert (Hother : forall id, id <> uuid_New (turns n) ->
                              webhook_deliveries db2 !! id = webhook_deliveries db !! id).
  { intros id Hne. unfold db2. rewrite update_delivery_ne by done.
    unfold db1. cbn [with_deliveries webhook_deliveries]. by rewrite lookup_insert_ne. }
  assert (Hfresh' : forall k, (S n <= k)%nat ->
                              webhook_deliveries db2 !! uuid_New (turns k) = None).
  { intros k Hk. rewrite Hother; [apply Hfresh; lia|].
    intros Heq. apply Hinj in Heq. lia. }
  specialize (IH db2 (S n) Hfresh'). cbv zeta in IH.
  destruct (enqueue_each db2 orgID eventType data whs turns (S n)) as [db3 spawned].
  cbn [fst snd] in *. destruct IH as (Hsp & Hw & Hold & Hnew & Hsize).
  split; [|split; [|split; [|split]]].
  - rewrite imap_cons, Hsp. f_equal; [by rewrite Nat.add_0_r|].
    apply imap_ext. intros k x _. cbn. by rewrite Nat.add_succ_r.
  - exact Hw.
  - intros id d Hd. apply Hold. rewrite Hother; [exact Hd|]. intros ->.
    rewrite (Hfresh n (Nat.le_refl n)) in Hd. discriminate.
  - intros [|k] x Hk.
    + cbn in Hk. injection Hk as <-. rewrite Nat.add_0_r. apply Hold. exact Hrow.
    + cbn in Hk. rewrite Nat.add_succ_r. by apply Hnew.
  - rewrite Hsize. cbn [length].
    assert (Hsz : size (webhook_deliveries db2) = S (size (webhook_deliveries db))).
    { unfold db2, update_delivery. cbn [with_deliveries webhook_deliveries].
      unfold db1. cbn [with_deliveries webhook_deliveries]. rewrite alter_insert_eq.
      by rewrite map_size_insert_None by apply (Hfresh n (Nat.le_refl n)). }
    rewrite Hsz. lia.
Qed.

(** A row in progress falls due again 15 minutes after it was
    claimed. *)
Lemma claimable_in_progress (now now' : Z) (d : WebhookDelivery.t) :
  claimable now' (mark_in_progress now d) = true <-> now + 15 * Time.Minute <= now'.
Proof.
  unfold claimable, mark_in_progress. cbn. rewrite Z.leb_le. lia.
Qed.

Lemma fresh_inj (j k : nat) : Samples.fresh j = Samples.fresh k -> j = k.
Proof.
  unfold Samples.fresh. intros Heq. apply append_inj_l in Heq. revert k Heq.
  induction j as [|j IH]; intros [|k]; simpl; try discriminate; auto.
  intros [= Heq]. f_equal. auto.
Qed.

End EnqueueFacts.

(** X14. When the context is not cancelled, the payload encodes and
    decodes, the insert and the update succeed and the identifiers are
    fresh and distinct, enqueueing an event for a list of webhooks
    stores exactly one new delivery row for each webhook of the list
    that subscribes to the event, in the list's order and under the
    identifiers handed out in that order, and hands the same rows to the
    delivery goroutines; the stored rows and the webhooks stay as they
    were. Each new row is in progress from the instant its update read
    off the clock, so the processor's claim query passes it over for 15
    minutes and takes it from then on. *)
Theorem enqueue_one_row_per_subscriber `{Outbox.Runtime} (db : DB) (orgID eventType : string)
        (data : Json.value) (whs : list Webhook.t) (turns : nat -> Dispatch.Turn) (n : nat) :
  (forall p, exists jsonData, Outbox.json_Marshal (Outbox.envelope p) = inl jsonData) ->
  (forall k, Dispatch.ctx_Err (turns k) = false /\ Dispatch.unmarshal_err (turns k) = false
             /\ Dispatch.create_err (turns k) = false
             /\ Dispatch.update_err (turns k) = false) ->
  (forall j k, Dispatch.uuid_New (turns j) = Dispatch.uuid_New (turns k) -> j = k) ->
  (forall k, (n <= k)%nat -> webhook_deliveries db !! Dispatch.uuid_New (turns k) = None) ->
  let subscribed :=
    List.filter (fun w => Outbox.containsEvent (Webhook.Events w) eventType) whs in
  let row k w :=
    let t := turns (n + k)%nat in
    Outbox.mark_in_progress (Dispatch.startedAt t)
      (Dispatch.newDelivery orgID w (Dispatch.uuid_New t) (Dispatch.stamped t)
                            (Dispatch.due t) eventType data) in
  let out := Dispatch.enqueue_each db orgID eventType data whs turns n in
  out.2 = imap row subscribed
  /\ webhooks out.1 = webhooks db
  /\ (forall id d, webhook_deliveries db !! id = Some d ->
                   webhook_deliveries out.1 !! id = Some d)
  /\ (forall k w, subscribed !! k = Some w ->
                  webhook_deliveries out.1 !! Dispatch.uuid_New (turns (n + k)%nat)
                  = Some (row k w)
                  /\ WebhookDelivery.Status (row k w) = "in_progress"
                  /\ forall now', Outbox.claimable now' (row k w) = true
                                  <-> Dispatch.startedAt (turns (n + k)%nat) + 15 * Time.Minute
                                      <= now')
  /\ size (webhook_deliveries out.1)
     = (size (webhook_deliveries db) + length subscribed)%nat.
Proof.
  intros Henc Hcalm Hinj Hfresh subscribed row out.
  destruct (enqueue_each_rows orgID eventType data turns whs Henc Hcalm Hinj db n Hfresh)
    as (Hsp & Hw & Hold & Hnew & Hsize).
  split; [exact Hsp|]. split; [exact Hw|]. split; [exact Hold|]. split; [|exact Hsize].
  intros k w Hk. split; [by apply Hnew|]. split; [reflexivity|].
  intros now'. apply claimable_in_progress.
Qed.

Lemma enqueue_one_row_per_subscriber_witness :
  let out := @Dispatch.enqueue_each (Examples.always 200) (Examples.store Examples.delivery)
               "org1" "message.incoming" Json.Null [Examples.hook]
               (Samples.calm Samples.fresh 10) 0 in
  size (webhook_deliveries out.1) = 2%nat
  /\ (fun d => (WebhookDelivery.Status d, WebhookDelivery.NextAttemptAt d,
                WebhookDelivery.ProcessingStartedAt d)) <$> webhook_deliveries out.1 !! "n-"
     = Some ("in_progress", 11, Some 12)
  /\ Outbox.claimable (12 + 15 * Time.Minute)
       (Outbox.mark_in_progress 12
          (@Dispatch.newDelivery (Examples.always 200) "org1" Examples.hook "n-" 10 11
             "message.incoming" Json.Null)) = true.
Proof.
  intros out.
  destruct (@enqueue_one_row_per_subscriber (Examples.always 200)
              (Examples.store Examples.delivery) "org1" "message.incoming" Json.Null
              [Examples.hook] (Samples.calm Samples.fresh 10) 0) as (_ & _ & _ & Hnew & Hsize).
  - intros p. exists "{}". reflexivity.
  - intros k. repeat split.
  - intros j k. apply fresh_inj.
  - intros k _. unfold Examples.store. cbn [webhook_deliveries].
    apply lookup_singleton_ne. discriminate.
  - split; [exact Hsize|].
    destruct (Hnew 0%nat Examples.hook eq_refl) as (Hrow & _ & Hdue).
    split; [|apply Hdue; vm_compute; discriminate].
    unfold out. cbn [Nat.add] in Hrow. change (Samples.fresh 0) with "n-" in Hrow.
    change (Dispatch.uuid_New (Samples.calm Samples.fresh 10 0)) with "n-" in Hrow.
    rewrite Hrow. reflexivity.
Defined.

(** ** The shape of a signature *)

Section DigestFacts.

Lemma write_byte_h_length (d : Sha256.digest) (b : Z) :
  length (Sha256.h d) = 8%nat -> length (Sha256.h (Sha256.write_byte d b)) = 8%nat.
Proof.
  intros Hl. unfold Sha256.write_byte.
  destruct (Nat.eqb (S (Sha256.nx d)) 64); [reflexivity|exact Hl].
Qed.

Lemma Write_h_length (p : list Z) (d : Sha256.digest) :
  length (Sha256.h d) = 8%nat -> length (Sha256.h (Sha256.Write d p)) = 8%nat.
Proof.
  unfold Sha256.Write. revert d. induction p as [|b p IH]; intros d Hl; [exact Hl|].
  simpl. apply IH. by apply write_byte_h_length.
Qed.

Lemma Sum_length (d : Sha256.digest) :
  length (Sha256.h d) = 8%nat -> length (Sha256.Sum d) = 32%nat.
Proof.
  intros Hl. unfold Sha256.Sum. cbv zeta.
  set (d' := Sha256.Write d _).
  assert (Hl' : length (Sha256.h d') = 8%nat) by (by apply Write_h_length).
  destruct (Sha256.h d') as [|a [|b [|c [|e [|f [|g [|i [|j [|k l]]]]]]]]]; try discriminate.
  reflexivity.
Qed.

Lemma Sum256_length (data : list Z) : length (Sha256.Sum256 data) = 32%nat.
Proof. unfold Sha256.Sum256. apply Sum_length, Write_h_length. reflexivity. Qed.

Lemma Hmac_Sum_length (key data : list Z) : length (Hmac.Sum key data) = 32%nat.
Proof. apply Sum256_length. Qed.

Lemma EncodeToString_lower_hex (bs : list Z) :
  Forall Bytes.is_byte bs ->
  Forall (fun c => In c (list_ascii_of_string "0123456789abcdef"))
         (list_ascii_of_string (Hex.EncodeToString bs)).
Proof.
  induction 1 as [|b bs Hb _ IH]; [constructor|].
  cbn [Hex.EncodeToString list_ascii_of_string].
  assert (Hd : existsb (Ascii.eqb (Hex.digit (Z.shiftr b 4)))
                       (list_ascii_of_string "0123456789abcdef")
               && existsb (Ascii.eqb (Hex.digit (Z.land b 0xf)))
                          (list_ascii_of_string "0123456789abcdef") = true).
  { revert b Hb.
    apply (byte_cases
             (fun b => existsb (Ascii.eqb (Hex.digit (Z.shiftr b 4)))
                               (list_ascii_of_string "0123456789abcdef")
                       && existsb (Ascii.eqb (Hex.digit (Z.land b 0xf)))
                                  (list_ascii_of_string "0123456789abcdef"))).
    vm_compute. reflexivity. }
  apply andb_true_iff in Hd as [Hhi Hlo].
  apply existsb_exists in Hhi as (x & Hx & Ex), Hlo as (y & Hy & Ey).
  apply Ascii.eqb_eq in Ex, Ey. subst x y.
  constructor; [exact Hx|]. constructor; [exact Hy|exact IH].
Qed.

End DigestFacts.

(** X15. A computed signature always has the same shape, whatever the
    body and the secret (empty ones included): the seven bytes "sha256="
    followed by exactly 64 lower-case hexadecimal digits, 71 bytes in
    all. *)
Theorem signature_has_fixed_shape (data secret : string) :
  let signature := Signature.computeHMACSignature data secret in
  String.length signature = 71%nat
  /\ Bytes.HasPrefix signature "sha256=" = true
  /\ String.length (Bytes.drop 7 signature) = 64%nat
  /\ Forall (fun c => In c (list_ascii_of_string "0123456789abcdef"))
            (list_ascii_of_string (Bytes.drop 7 signature)).
Proof.
  unfold Signature.computeHMACSignature. cbv zeta.
  set (tag := Hex.EncodeToString _).
  assert (Hlen : String.length tag = 64%nat).
  { unfold tag. by rewrite EncodeToString_length, Hmac_Sum_length. }
  rewrite (drop_append "sha256=" tag : Bytes.drop 7 _ = _).
  split; [by rewrite append_length, Hlen|].
  split; [apply HasPrefix_append|]. split; [exact Hlen|].
  apply EncodeToString_lower_hex, Hmac_Sum_bytes.
Qed.

(** ** The cleanup pass over the tenants *)

Section PassFacts.

Import Media.

Lemma wrap_small (x : Z) : - 2 ^ 63 <= x < 2 ^ 63 -> GoInt.wrap x = x.
Proof. intros Hx. unfold GoInt.wrap. rewrite Z.mod_small; lia. Qed.

Lemma wrap_below (x : Z) : - 2 ^ 63 - 2 ^ 64 <= x < - 2 ^ 63 -> GoInt.wrap x = x + 2 ^ 64.
Proof.
  intros Hx. unfold GoInt.wrap.
  rewrite <- (Z.mod_add (x + 2 ^ 63) 1 (2 ^ 64)) by lia. rewrite Z.mod_small; lia.
Qed.

(** One tenant's sweep, seen from the file system. *)
Lemma sweep_removed (range : gset string -> list string) (messages : list Message)
      (campaigns : list BulkMessageCampaign) (basePath : string) (cwd : option string)
      (orgID : string) (cutoff : Z) (fs : gmap string FileInfo) :
  (forall s, range s ≡ₚ elements s) ->
  let out := cleanupOrganizationMedia range messages campaigns basePath cwd orgID cutoff fs in
  fs_of out ⊆ fs
  /\ forall p info,
      fs !! p = Some info -> fs_of out !! p = None ->
      IsDir info = false /\ ModTime info <= cutoff
      /\ exists baseAbs relPath,
          Filepath.Abs cwd basePath = Some baseAbs
          /\ (In relPath (message_paths messages orgID)
              \/ In relPath (campaign_paths campaigns orgID))
          /\ Bytes.Contains relPath ".." = false
          /\ Filepath.Abs cwd (Filepath.Join baseAbs relPath) = Some p
          /\ under_root baseAbs p = true.
Proof.
  intros Hrange out. subst out. unfold cleanupOrganizationMedia.
  set (paths := collect _ _).
  assert (Hvisited : forall x, In x (range paths)
                               -> In x (message_paths messages orgID)
                                  \/ In x (campaign_paths campaigns orgID)).
  { intros x. rewrite <- list_elem_of_In, (Hrange paths), elem_of_elements.
    subst paths. rewrite !collect_spec, elem_of_empty.
    intros [[[]|[? _]]|[? _]]; auto. }
  destruct (Filepath.Abs cwd basePath) as [baseAbs|] eqn:Hbase.
  - set (st0 := {| fs_of := fs; deleted := 0; checked := 0 |}).
    change fs with (fs_of st0).
    split; [apply (run_subseteq cwd baseAbs cutoff (range paths))|].
    intros p info Hp Hgone.
    destruct (run_removed cwd baseAbs cutoff (range paths) st0 p info Hp Hgone)
      as (Hd & Hc & relPath & Hin & Hr).
    apply resolve_spec in Hr as (Hdots & Habs & Hroot).
    repeat split; auto. exists baseAbs, relPath. auto.
  - cbn [fs_of]. split; [reflexivity|]. intros p info Hp Hgone. congruence.
Qed.

(** What one iteration does to the counters and to the files. *)
Lemma visit_counts (cwd : option string) (baseAbs : string) (cutoff : Z) (st : sweep)
      (relPath : string) :
  let st' := visit cwd baseAbs cutoff st relPath in
  checked st' = checked st + 1
  /\ ((fs_of st' = fs_of st /\ deleted st' = deleted st)
      \/ (exists p, is_Some (fs_of st !! p) /\ fs_of st' = delete p (fs_of st)
                    /\ deleted st' = deleted st + 1)).
Proof.
  unfold visit. cbn [fs_of deleted checked].
  destruct (resolve cwd baseAbs relPath) as [p|]; [|by split; [|left]].
  unfold Stat. destruct (fs_of st !! p) as [info|] eqn:Hp; [|by split; [|left]].
  destruct (IsDir info) eqn:Hd; [by split; [|left]|].
  destruct (cutoff <? ModTime info); [by split; [|left]|].
  rewrite (Remove_file _ _ _ Hp Hd). cbn [fs_of deleted checked].
  split; [reflexivity|]. right. exists p. rewrite Hp. eauto.
Qed.

Lemma run_counts (cwd : option string) (baseAbs : string) (cutoff : Z) (l : list string)
      (st : sweep) :
  let st' := fold_left (visit cwd baseAbs cutoff) l st in
  checked st' = checked st + Z.of_nat (length l)
  /\ deleted st' - deleted st
     = Z.of_nat (size (fs_of st)) - Z.of_nat (size (fs_of st'))
  /\ 0 <= deleted st' - deleted st <= Z.of_nat (length l).
Proof.
  revert st. induction l as [|x l IH]; intros st; cbn [fold_left length].
  { simpl. lia. }
  destruct (IH (visit cwd baseAbs cutoff st x)) as (Hc & Hd & Hb).
  destruct (visit_counts cwd baseAbs cutoff st x) as (Hc1 & Hcase). cbv zeta in *.
  destruct Hcase as [[Hfs Hdel]|(p & Hp & Hfs & Hdel)].
  - rewrite Hfs in Hd. lia.
  - rewrite Hfs in Hd. destruct Hp as [info Hp].
    pose proof (map_size_delete_Some p (fs_of st)) as Hsz.
    assert (Hpos : size (fs_of st) <> 0%nat).
    { apply map_size_non_empty_iff. intros He. rewrite He, lookup_empty in Hp. discriminate. }
    rewrite map_size_delete, Hp in Hd. lia.
Qed.

End PassFacts.

(** X16. The cutoff of the cleanup pass lies exactly [days] days before
    the pass's instant for every retention from 1 to 106751 days. From
    106752 days on (up to 213503) the 64-bit duration wraps around: the
    cutoff then lies in the future, so that every referenced file counts
    as stale. *)
Theorem retention_cutoff (now days : Z) :
  (0 < days <= 106751 ->
   MediaCleanup.cutoff now days = now - days * (24 * Time.Hour)
   /\ MediaCleanup.cutoff now days < now)
  /\ (106751 < days <= 213503 ->
      MediaCleanup.cutoff now days = now - days * (24 * Time.Hour) + 2 ^ 64
      /\ now < MediaCleanup.cutoff now days).
Proof.
  unfold MediaCleanup.cutoff, MediaCleanup.mul, MediaCleanup.neg.
  change Time.Hour with 3600000000000.
  split; intros Hd.
  - rewrite (wrap_small (- days)) by lia. rewrite (wrap_small (- days * 24)) by lia.
    rewrite wrap_small by lia. lia.
  - rewrite (wrap_small (- days)) by lia. rewrite (wrap_small (- days * 24)) by lia.
    rewrite wrap_below by lia. lia.
Qed.

Lemma retention_cutoff_witness :
  MediaCleanup.cutoff 1000 30 = 1000 - 30 * (24 * Time.Hour)
  /\ 1000 < MediaCleanup.cutoff 1000 106752.
Proof.
  split.
  - apply (proj1 (retention_cutoff 1000 30)). lia.
  - apply (proj2 (retention_cutoff 1000 106752)). lia.
Defined.

(** X17. A cleanup pass over the tenants only removes files. Every file
    it removes is a regular file, referenced by a message or campaign of
    a tenant of the pass whose cleanup is enabled with a positive
    retention, through a stored path without ".." that resolves under
    the media root, and not modified after that tenant's cutoff. When
    every tenant has the cleanup disabled or a retention of zero days or
    less, the pass removes nothing. *)
Theorem stale_media_pass_safety (range : gset string -> list string)
        (settings : MediaCleanup.Organization -> bool * Z) (now : Z)
        (orgs : list MediaCleanup.Organization) (messages : list Media.Message)
        (campaigns : list Media.BulkMessageCampaign) (basePath : string)
        (cwd : option string) (fs : gmap string Media.FileInfo) :
  (forall s, range s ≡ₚ elements s) ->
  let out := MediaCleanup.processStaleMedia range settings now orgs messages campaigns
               basePath cwd fs in
  out ⊆ fs
  /\ (forall p info,
         fs !! p = Some info -> out !! p = None ->
         Media.IsDir info = false
         /\ exists org days baseAbs relPath,
             In org orgs /\ settings org = (true, days) /\ 0 < days
             /\ Media.ModTime info <= MediaCleanup.cutoff now days
             /\ Filepath.Abs cwd basePath = Some baseAbs
             /\ (In relPath (Media.message_paths messages (MediaCleanup.ID org))
                 \/ In relPath (Media.campaign_paths campaigns (MediaCleanup.ID org)))
             /\ Bytes.Contains relPath ".." = false
             /\ Filepath.Abs cwd (Filepath.Join baseAbs relPath) = Some p
             /\ Media.under_root baseAbs p = true)
  /\ ((forall org, In org orgs -> (settings org).1 = false \/ (settings org).2 <= 0) ->
      out = fs).
Proof.
  intros Hrange out. subst out. unfold MediaCleanup.processStaleMedia.
  revert fs. induction orgs as [|org rest IH]; intros fs; cbn [fold_left].
  { split; [reflexivity|]. split; [|reflexivity]. intros p info Hp Hgone. congruence. }
  set (fs1 := let '(enabled, days) := settings org in _).
  destruct (IH fs1) as (Hsub & Hrem & Hoff).
  assert (Hstep : fs1 ⊆ fs
                  /\ (forall p info,
                         fs !! p = Some info -> fs1 !! p = None ->
                         Media.IsDir info = false
                         /\ exists days baseAbs relPath,
                             settings org = (true, days) /\ 0 < days
                             /\ Media.ModTime info <= MediaCleanup.cutoff now days
                             /\ Filepath.Abs cwd basePath = Some baseAbs
                             /\ (In relPath (Media.message_paths messages (MediaCleanup.ID org))
                                 \/ In relPath
                                      (Media.campaign_paths campaigns (MediaCleanup.ID org)))
                             /\ Bytes.Contains relPath ".." = false
                             /\ Filepath.Abs cwd (Filepath.Join baseAbs relPath) = Some p
                             /\ Media.under_root baseAbs p = true)
                  /\ ((settings org).1 = false \/ (settings org).2 <= 0 -> fs1 = fs)).
  { unfold fs1. destruct (settings org) as [enabled days]. cbn [fst snd].
    destruct enabled; cbn [negb orb].
    2:{ split; [reflexivity|]. split; [|reflexivity]. intros p info Hp Hgone. congruence. }
    destruct (days <=? 0) eqn:Hdays.
    { split; [reflexivity|]. split; [|reflexivity]. intros p info Hp Hgone. congruence. }
    apply Z.leb_gt in Hdays.
    destruct (sweep_removed range messages campaigns basePath cwd (MediaCleanup.ID org)
                (MediaCleanup.cutoff now days) fs Hrange) as (Hs & Hr).
    split; [exact Hs|]. split.
    - intros p info Hp Hgone.
      destruct (Hr p info Hp Hgone) as (Hd & Hc & baseAbs & relPath & Hrest).
      split; [exact Hd|]. exists days, baseAbs, relPath. tauto.
    - intros [[=]|Hle]. lia. }
  destruct Hstep as (Hsub1 & Hrem1 & Hoff1).
  split; [etrans; eassumption|]. split.
  - intros p info Hp Hgone.
    destruct (fs1 !! p) as [info1|] eqn:Hp1.
    + assert (info1 = info).
      { pose proof (lookup_weaken _ _ _ _ Hp1 Hsub1). congruence. }
      subst info1.
      destruct (Hrem p info Hp1 Hgone) as (Hd & org' & days & baseAbs & relPath & Hin & Hrest).
      split; [exact Hd|]. exists org', days, baseAbs, relPath. split; [by right|exact Hrest].
    + destruct (Hrem1 p info Hp Hp1) as (Hd & days & baseAbs & relPath & Hrest).
      split; [exact Hd|]. exists org, days, baseAbs, relPath. split; [by left|exact Hrest].
  - intros Hall. rewrite Hoff.
    + apply Hoff1, Hall. by left.
    + intros org' Hin. apply Hall. by right.
Qed.

Lemma stale_media_pass_safety_witness :
  let out := MediaCleanup.processStaleMedia elements (fun _ => (true, 30))
               (50 + 30 * (24 * Time.Hour))
               [ {| MediaCleanup.ID := "org1"; MediaCleanup.Settings := None |} ]
               Media.example_messages [] "/srv/media/" (Some "/opt/app") Media.example_fs in
  out ⊆ Media.example_fs
  /\ forall info, out !! "/etc/passwd" = None -> Media.example_fs !! "/etc/passwd" <> Some info.
Proof.
  intros out.
  destruct (stale_media_pass_safety elements (fun _ => (true, 30)) (50 + 30 * (24 * Time.Hour))
              [ {| MediaCleanup.ID := "org1"; MediaCleanup.Settings := None |} ]
              Media.example_messages [] "/srv/media/" (Some "/opt/app") Media.example_fs)
    as (Hsub & Hrem & _).
  - intros s. reflexivity.
  - split; [exact Hsub|]. intros info Hgone Hp.
    destruct (Hrem _ _ Hp Hgone) as (_ & org & days & baseAbs & relPath & _ & _ & _ & _ & Hb
                                     & _ & _ & _ & Hroot).
    vm_compute in Hb. injection Hb as <-. vm_compute in Hroot. discriminate.
Defined.

(** X18. The counters of one tenant's sweep. [checked] is the number of
    distinct non-empty paths the tenant's messages and campaigns
    reference, however many rows share a path, and [deleted] is exactly
    the number of files that are gone afterwards, never more than
    [checked]. When the media root cannot be resolved both are zero and
    no file is touched. *)
Theorem sweep_counters (range : gset string -> list string) (messages : list Media.Message)
        (campaigns : list Media.BulkMessageCampaign) (basePath : string)
        (cwd : option string) (orgID : string) (cutoff : Z) (fs : gmap string Media.FileInfo) :
  (forall s, range s ≡ₚ elements s) ->
  let out := Media.cleanupOrganizationMedia range messages campaigns basePath cwd orgID cutoff fs in
  let paths : gset string :=
    list_to_set (Media.message_paths messages orgID)
    ∪ list_to_set (Media.campaign_paths campaigns orgID) in
  Media.deleted out = Z.of_nat (size fs) - Z.of_nat (size (Media.fs_of out))
  /\ 0 <= Media.deleted out <= Media.checked out
  /\ match Filepath.Abs cwd basePath with
     | Some _ => Media.checked out = Z.of_nat (size paths)
     | None => Media.checked out = 0 /\ Media.fs_of out = fs
     end.
Proof.
  intros Hrange out paths. subst out. unfold Media.cleanupOrganizationMedia.
  set (collected := Media.collect _ _).
  assert (Hpaths : collected = paths).
  { apply leibniz_equiv. intros x. unfold collected, paths.
    rewrite !collect_spec, elem_of_empty, elem_of_union, !elem_of_list_to_set,
      <- !list_elem_of_In.
    split.
    - intros [[[]|[? _]]|[? _]]; auto.
    - intros [Hm|Hc]; [left; right|right]; (split; [exact Hm || exact Hc|]).
      + apply list_elem_of_In in Hm. by eapply message_paths_nonempty.
      + apply list_elem_of_In in Hc. by eapply campaign_paths_nonempty. }
  destruct (Filepath.Abs cwd basePath) as [baseAbs|].
  - destruct (run_counts cwd baseAbs cutoff (range collected)
                {| Media.fs_of := fs; Media.deleted := 0; Media.checked := 0 |})
      as (Hc & Hd & Hb).
    cbn [Media.fs_of Media.deleted Media.checked] in *.
    assert (Hlen : length (range collected) = size paths).
    { rewrite (Permutation_length (Hrange collected)), Hpaths. reflexivity. }
    rewrite Hlen in *. rewrite Hc. split; [lia|]. split; [lia|reflexivity].
  - cbn [Media.fs_of Media.deleted Media.checked]. split; [lia|]. split; [lia|auto].
Qed.

Lemma sweep_counters_witness :
  let out := Media.cleanupOrganizationMedia elements Media.example_messages []
               "/srv/media/" (Some "/opt/app") "org1" 50 Media.example_fs in
  Media.deleted out = Z.of_nat (size Media.example_fs) - Z.of_nat (size (Media.fs_of out))
  /\ 0 <= Media.deleted out <= Media.checked out.
Proof.
  intros out.
  destruct (sweep_counters elements Media.example_messages [] "/srv/media/" (Some "/opt/app")
              "org1" 50 Media.example_fs) as (Hd & Hb & _).
  - intros s. reflexivity.
  - split; [exact Hd|exact Hb].
Defined.

(** ** The other senders *)

Section SenderFacts.

Import WhatsApp Messages.

Lemma truncate_nonempty (n : nat) (s : string) :
  (0 < n)%nat -> s <> "" -> truncate n s <> "".
Proof.
  intros Hn Hs Ht. apply (f_equal String.length) in Ht.
  destruct (truncate_spec n s) as (_ & _ & Hl & _). rewrite Hl in Ht.
  destruct s; [contradiction|]. simpl in Ht. lia.
Qed.

Lemma finish_as_interactive `{Api} (answer : string + string) :
  finish_as "interactive message" answer = finish answer.
Proof. reflexivity. Qed.

End SenderFacts.

(** X19. A flow message is refused before anything is sent when the
    flow id or the body text is empty. Otherwise exactly one request is
    posted to the account's messages URL with the account's token, to
    the given phone number. Its button text is the given text, or "Open"
    when none is given, cut to 20 bytes: never empty and never longer
    than 20 bytes. The flow token defaults to "flow_" followed by the
    clock in nanoseconds, the first screen to "FIRST_SCREEN", and the
    payload has a header exactly when a header text is given. *)
Theorem flow_message_rendering `{WhatsApp.Api} (now : Z) (account : WhatsApp.Account)
        (phoneNumber flowID headerText bodyText ctaText flowToken firstScreen : string) :
  let send := Messages.SendFlowMessage now account phoneNumber flowID headerText bodyText
                ctaText flowToken firstScreen in
  let or_default (given fallback : string) := if String.eqb given "" then fallback else given in
  (flowID = "" -> send = inr "flow ID is required")
  /\ (flowID <> "" -> bodyText = "" -> send = inr "body text is required")
  /\ (flowID <> "" -> bodyText <> "" ->
      exists payload interactive parameters cta,
        send = Messages.finish_as "flow message"
                 (WhatsApp.doRequest "POST" (WhatsApp.buildMessagesURL account) payload
                                     (WhatsApp.AccessToken account))
        /\ Messages.field "to" payload = Some (Json.Str phoneNumber)
        /\ Messages.field "type" payload = Some (Json.Str "interactive")
        /\ Messages.field "interactive" payload = Some interactive
        /\ Messages.field "type" interactive = Some (Json.Str "flow")
        /\ Messages.field "body" interactive = Some (Json.Obj [ ("text", Json.Str bodyText) ])
        /\ Messages.field "header" interactive
           = (if String.eqb headerText "" then None
              else Some (Json.Obj [ ("type", Json.Str "text"); ("text", Json.Str headerText) ]))
        /\ Messages.field "action" interactive
           = Some (Json.Obj [ ("name", Json.Str "flow"); ("parameters", parameters) ])
        /\ Messages.field "flow_id" parameters = Some (Json.Str flowID)
        /\ Messages.field "flow_cta" parameters = Some (Json.Str cta)
        /\ cta = String.substring 0 20 (or_default ctaText "Open")
        /\ cta <> "" /\ (String.length cta <= 20)%nat
        /\ Messages.field "flow_token" parameters
           = Some (Json.Str (or_default flowToken ("flow_" +:+ Messages.Itoa now)))
        /\ Messages.field "flow_action_payload" parameters
           = Some (Json.Obj [ ("screen", Json.Str (or_default firstScreen "FIRST_SCREEN")) ])).
Proof.
  intros send or_default. subst send. unfold Messages.SendFlowMessage.
  split; [intros ->; reflexivity|]. split.
  - intros Hf ->. apply String.eqb_neq in Hf. by rewrite Hf.
  - intros Hf Hb. apply String.eqb_neq in Hf, Hb. rewrite Hf, Hb.
    assert (Hcta : or_default ctaText "Open" <> "").
    { unfold or_default.
      destruct (String.eqb ctaText "") eqn:Ec; [discriminate|by apply String.eqb_neq]. }
    destruct (String.eqb headerText ""); cbn [negb];
      (eexists _, _, _, _; split; [reflexivity|];
       do 9 (split; [reflexivity|]);
       split; [apply truncate_substring|];
       split; [apply truncate_nonempty; [lia|exact Hcta]|];
       split; [apply truncate_spec|split; reflexivity]).
Qed.

Lemma flow_message_rendering_witness :
  let account := {| WhatsApp.PhoneID := "p1"; WhatsApp.AccessToken := "t" |} in
  let send :=
    @Messages.SendFlowMessage WhatsApp.echo_api 42 account "15551234567" "flow-7" ""
      "Pick a slot" "Choose your appointment now" "" "" in
  send = inl ("POST https://graph.example.com/p1/messages "
              +:+ "{messaging_product:whatsapp,recipient_type:individual,to:15551234567,"
              +:+ "type:interactive,interactive:{type:flow,body:{text:Pick a slot},"
              +:+ "action:{name:flow,parameters:{flow_message_version:3,flow_token:flow_42,"
              +:+ "flow_id:flow-7,flow_cta:Choose your appointm,flow_action:navigate,"
              +:+ "flow_action_payload:{screen:FIRST_SCREEN}}}}}")
  /\ exists payload interactive parameters,
      send = inl ("POST https://graph.example.com/p1/messages " +:+ WhatsApp.show payload)
      /\ Messages.field "interactive" payload = Some interactive
      /\ Messages.field "header" interactive = None
      /\ Messages.field "action" interactive
         = Some (Json.Obj [ ("name", Json.Str "flow"); ("parameters", parameters) ])
      /\ Messages.field "flow_cta" parameters = Some (Json.Str "Choose your appointm")
      /\ Messages.field "flow_token" parameters = Some (Json.Str "flow_42")
      /\ Messages.field "flow_action_payload" parameters
         = Some (Json.Obj [ ("screen", Json.Str "FIRST_SCREEN") ]).
Proof.
  intros account send. split; [vm_compute; reflexivity|].
  destruct (proj2 (proj2 (@flow_message_rendering WhatsApp.echo_api 42 account "15551234567"
                            "flow-7" "" "Pick a slot" "Choose your appointment now" "" ""))
              ltac:(discriminate) ltac:(discriminate))
    as (payload & interactive & parameters & cta & Hsend & _ & _ & Hint & _ & _ & Hhead
        & Hact & _ & Hcta & Hc & _ & _ & Htok & Hscreen).
  exists payload, interactive, parameters.
  split; [unfold send; rewrite Hsend; reflexivity|].
  split; [exact Hint|]. split; [exact Hhead|]. split; [exact Hact|].
  split; [rewrite Hcta, Hc; reflexivity|]. split; [exact Htok|exact Hscreen].
Defined.

(** X20. A call-to-action URL button is refused before anything is sent
    when the button text or the URL is empty. Otherwise one request is
    posted whose button text is the given text cut to 20 bytes, never
    empty, and whose URL and body text are the given ones, unchanged. *)
Theorem cta_url_button_rendering `{WhatsApp.Api} (account : WhatsApp.Account)
        (phoneNumber bodyText buttonText url : string) :
  let send := Messages.SendCTAURLButton account phoneNumber bodyText buttonText url in
  (buttonText = "" \/ url = "" -> send = inr "button text and URL are required")
  /\ (buttonText <> "" -> url <> "" ->
      let shown := String.substring 0 20 buttonText in
      shown <> "" /\ (String.length shown <= 20)%nat
      /\ Bytes.HasPrefix buttonText shown = true
      /\ send
         = Messages.finish_as "CTA URL button message"
             (WhatsApp.doRequest "POST" (WhatsApp.buildMessagesURL account)
                (Json.Obj
                   [ ("messaging_product", Json.Str "whatsapp");
                     ("recipient_type", Json.Str "individual");
                     ("to", Json.Str phoneNumber);
                     ("type", Json.Str "interactive");
                     ("interactive",
                      Json.Obj
                        [ ("type", Json.Str "cta_url");
                          ("body", Json.Obj [ ("text", Json.Str bodyText) ]);
                          ("action",
                           Json.Obj
                             [ ("name", Json.Str "cta_url");
                               ("parameters",
                                Json.Obj [ ("display_text", Json.Str shown);
                                           ("url", Json.Str url) ]) ]) ]) ])
                (WhatsApp.AccessToken account))).
Proof.
  intros send. subst send. unfold Messages.SendCTAURLButton. split.
  - intros [-> | ->]; [reflexivity|]. by rewrite orb_true_r.
  - intros Hb Hu. cbv zeta. rewrite <- truncate_substring.
    split; [apply truncate_nonempty; [lia|exact Hb]|].
    split; [apply truncate_spec|]. split; [apply truncate_spec|].
    apply String.eqb_neq in Hb, Hu. by rewrite Hb, Hu.
Qed.

Lemma cta_url_button_rendering_witness :
  let account := {| WhatsApp.PhoneID := "p1"; WhatsApp.AccessToken := "t" |} in
  @Messages.SendCTAURLButton WhatsApp.echo_api account "15551234567" "See the offer"
    "Open the offer in your browser" "https://shop.example.com/o/1"
  = inl ("POST https://graph.example.com/p1/messages "
         +:+ "{messaging_product:whatsapp,recipient_type:individual,to:15551234567,"
         +:+ "type:interactive,interactive:{type:cta_url,body:{text:See the offer},"
         +:+ "action:{name:cta_url,parameters:{display_text:Open the offer in yo,"
         +:+ "url:https://shop.example.com/o/1}}}}")
  /\ @Messages.SendCTAURLButton WhatsApp.echo_api account "15551234567" "See the offer"
       "Open" ""
     = inr "button text and URL are required".
Proof.
  intros account.
  destruct (@cta_url_button_rendering WhatsApp.echo_api account "15551234567" "See the offer"
              "Open the offer in your browser" "https://shop.example.com/o/1")
    as [_ Hposted].
  destruct (Hposted ltac:(discriminate) ltac:(discriminate)) as (_ & _ & _ & Hsend).
  split; [rewrite Hsend; vm_compute; reflexivity|].
  apply (@cta_url_button_rendering WhatsApp.echo_api account "15551234567" "See the offer"
           "Open" "").
  right. reflexivity.
Defined.

(** X21. [SendTemplateMessage] sends what
    [SendTemplateMessageWithComponents] sends for a single body
    component that holds one text parameter per body parameter, in
    order; without body parameters it sends what the latter sends
    without components, a template that has no [components] key. *)
Theorem template_message_is_component_message `{WhatsApp.Api} (account : WhatsApp.Account)
        (phoneNumber templateName languageCode : string) (bodyParams : list string) :
  let body :=
    Json.Obj [ ("type", Json.Str "body");
               ("parameters",
                Json.Arr (map (fun p => Json.Obj [ ("type", Json.Str "text");
                                                   ("text", Json.Str p) ]) bodyParams)) ] in
  Messages.SendTemplateMessage account phoneNumber templateName languageCode bodyParams
  = Messages.SendTemplateMessageWithComponents account phoneNumber templateName languageCode
      (match bodyParams with [] => [] | _ => [body] end)
  /\ (bodyParams = [] ->
      Messages.SendTemplateMessage account phoneNumber templateName languageCode bodyParams
      = Messages.post "template message" account
          (Json.Obj [ ("messaging_product", Json.Str "whatsapp");
                      ("to", Json.Str phoneNumber);
                      ("type", Json.Str "template");
                      ("template",
                       Json.Obj [ ("name", Json.Str templateName);
                                  ("language",
                                   Json.Obj [ ("code", Json.Str languageCode) ]) ]) ])).
Proof.
  intros body. unfold Messages.SendTemplateMessage, Messages.SendTemplateMessageWithComponents.
  split; [destruct bodyParams as [|p ps]; reflexivity|]. intros ->. reflexivity.
Qed.

(** ** What a sender returns *)

Section ReturnFacts.

Import WhatsApp Messages.
Context `{Api}.

Lemma finish_as_inl (what : string) (answer : string + string) (id : string) :
  finish_as what answer = inl id
  <-> exists respBody rest, answer = inl respBody /\ response_ids respBody = inl (id :: rest).
Proof.
  unfold finish_as. destruct answer as [respBody|err].
  - destruct (response_ids respBody) as [[|m rest]|err] eqn:Hr.
    + split; [discriminate|]. intros (b & r & [= <-] & Hr'). congruence.
    + split.
      * intros [= <-]. eauto.
      * intros (b & r & [= <-] & Hr'). congruence.
    + split; [discriminate|]. intros (b & r & [= <-] & Hr'). congruence.
  - split; [discriminate|]. intros (b & r & [=] & _).
Qed.

Lemma post_inl (what : string) (account : Account) (payload : Json.value) (id : string) :
  post what account payload = inl id ->
  exists respBody rest,
    doRequest "POST" (buildMessagesURL account) payload (AccessToken account) = inl respBody
    /\ response_ids respBody = inl (id :: rest).
Proof. unfold post. apply finish_as_inl. Qed.

End ReturnFacts.

(** X22. No sender makes up a message id. Whenever the text, CTA URL,
    template, component template or flow sender returns an id, it has
    posted one payload addressed to the given phone number to the
    account's messages URL with the account's token, the API has
    answered, and the id is the first message id of that answer. *)
Theorem senders_return_the_api_message_id `{WhatsApp.Api} (account : WhatsApp.Account)
        (phoneNumber id : string) :
  let answered send :=
    send = inl id ->
    exists payload respBody rest,
      Messages.field "messaging_product" payload = Some (Json.Str "whatsapp")
      /\ Messages.field "to" payload = Some (Json.Str phoneNumber)
      /\ WhatsApp.doRequest "POST" (WhatsApp.buildMessagesURL account) payload
                            (WhatsApp.AccessToken account) = inl respBody
      /\ WhatsApp.response_ids respBody = inl (id :: rest) in
  (forall text, answered (Messages.SendTextMessage account phoneNumber text))
  /\ (forall bodyText buttonText url,
         answered (Messages.SendCTAURLButton account phoneNumber bodyText buttonText url))
  /\ (forall templateName languageCode bodyParams,
         answered (Messages.SendTemplateMessage account phoneNumber templateName languageCode
                                                bodyParams))
  /\ (forall templateName languageCode components,
         answered (Messages.SendTemplateMessageWithComponents account phoneNumber templateName
                                                              languageCode components))
  /\ (forall now flowID headerText bodyText ctaText flowToken firstScreen,
         answered (Messages.SendFlowMessage now account phoneNumber flowID headerText bodyText
                                            ctaText flowToken firstScreen)).
Proof.
  intros answered. unfold answered. repeat split.
  - intros text Hs. apply post_inl in Hs as (b & r & Hd & Hr).
    eexists _, b, r. refine (conj _ (conj _ (conj Hd Hr))); reflexivity.
  - intros bodyText buttonText url. unfold Messages.SendCTAURLButton.
    destruct (_ || _); [discriminate|].
    intros Hs. apply post_inl in Hs as (b & r & Hd & Hr).
    eexists _, b, r. refine (conj _ (conj _ (conj Hd Hr))); reflexivity.
  - intros templateName languageCode bodyParams Hs.
    apply post_inl in Hs as (b & r & Hd & Hr).
    eexists _, b, r. refine (conj _ (conj _ (conj Hd Hr))); reflexivity.
  - intros templateName languageCode components Hs.
    apply post_inl in Hs as (b & r & Hd & Hr).
    eexists _, b, r. refine (conj _ (conj _ (conj Hd Hr))); reflexivity.
  - intros now flowID headerText bodyText ctaText flowToken firstScreen.
    unfold Messages.SendFlowMessage.
    destruct (String.eqb flowID ""); [discriminate|].
    destruct (String.eqb bodyText ""); [discriminate|].
    intros Hs. apply post_inl in Hs as (b & r & Hd & Hr).
    eexists _, b, r. refine (conj _ (conj _ (conj Hd Hr))); reflexivity.
Qed.

Lemma senders_return_the_api_message_id_witness :
  exists payload respBody rest,
    Messages.field "to" payload = Some (Json.Str "15551234567")
    /\ @WhatsApp.doRequest WhatsApp.example_api "POST"
         (@WhatsApp.buildMessagesURL WhatsApp.example_api
            {| WhatsApp.PhoneID := "p1"; WhatsApp.AccessToken := "t" |})
         payload "t" = inl respBody
    /\ @WhatsApp.response_ids WhatsApp.example_api respBody = inl ("wamid.1" :: rest).
Proof.
  destruct (@senders_return_the_api_message_id WhatsApp.example_api
              {| WhatsApp.PhoneID := "p1"; WhatsApp.AccessToken := "t" |}
              "15551234567" "wamid.1") as (Htext & _).
  destruct (Htext "hello") as (payload & respBody & rest & _ & Hto & Hd & Hr).
  - reflexivity.
  - exists payload, respBody, rest. auto.
Defined.

(** ** Rows of the outbox, over its whole life *)

Section RowFacts.

Import WebhookDelivery Outbox Handlers Dispatch Lifecycle.
Context `{Runtime} `{Ssrf.NetLib}.
Variable allowInternal : bool.

Lemma sound_step (id : UUID) (d d' : WebhookDelivery.t) :
  ID d' = ID d -> Event d' = Event d -> Payload d' = Payload d ->
  MaxAttempts d' = MaxAttempts d ->
  In (Status d') [ "pending"; "in_progress"; "delivered"; "failed" ] ->
  sound id d -> sound id d'.
Proof.
  intros Hi He Hp Hm Hs (Hid & _ & Hmax & now & data & Hpay). unfold sound.
  rewrite Hi, He, Hp, Hm. repeat split; auto. eauto.
Qed.

Lemma sound_update_delivery (db : DB) (k : UUID) (f : WebhookDelivery.t -> WebhookDelivery.t) :
  (forall id d, sound id d -> sound id (f d)) ->
  (forall id d, webhook_deliveries db !! id = Some d -> sound id d) ->
  forall id d, webhook_deliveries (update_delivery db k f) !! id = Some d -> sound id d.
Proof.
  intros Hf Hdb id d. destruct (decide (k = id)) as [<-|Hne].
  - destruct (webhook_deliveries db !! k) as [d0|] eqn:Hd0.
    + rewrite (update_delivery_eq _ _ _ _ Hd0). intros [= <-]. apply Hf, Hdb, Hd0.
    + unfold update_delivery. simpl. rewrite lookup_alter_eq, Hd0. discriminate.
  - rewrite update_delivery_ne by done. apply Hdb.
Qed.

Lemma sound_fail (now : Z) (r : WebhookDelivery.t) (c : Z) (m : string) (id : UUID)
      (d : WebhookDelivery.t) :
  sound id d -> sound id (fail_updates now r c m d).
Proof.
  unfold fail_updates.
  destruct (GoInt.add (Attempts r) 1 >=? _); cbn [String.eqb Ascii.eqb Bool.eqb];
    apply sound_step; simpl; auto.
Qed.

Lemma sound_process (db : DB) (now : Z) (delivery : WebhookDelivery.t) :
  (forall id d, webhook_deliveries db !! id = Some d -> sound id d) ->
  forall id d, webhook_deliveries (processWebhookDelivery db now delivery) !! id = Some d ->
               sound id d.
Proof.
  intros Hdb. unfold processWebhookDelivery, failWebhookDelivery.
  destruct (json_Marshal _); [destruct (sendWebhookRequest _ _ _ _)|];
    apply sound_update_delivery; auto; intros id d.
  - apply sound_fail.
  - apply sound_step; simpl; auto.
  - apply sound_fail.
Qed.

Lemma reachable_rows (db : DB) :
  reachable allowInternal db ->
  forall id d, webhook_deliveries db !! id = Some d -> sound id d.
Proof.
  induction 1 as [|db newID entropy r _ IH|db r _ IH|db r _ IH|db now r _ IH
                  |db orgID eventType data cache_err turns _ IH|db now k _ IH|db now k d0 _ IH Hd0].
  - intros id d. simpl. rewrite lookup_empty. discriminate.
  - by rewrite create_deliveries.
  - by rewrite update_deliveries.
  - by rewrite delete_deliveries.
  - destruct (retry_db db now r) as [[_ ->]|(o & w & wh & _ & _ & _ & ->)]; [exact IH|].
    intros id d. simpl. rewrite lookup_fmap.
    destruct (webhook_deliveries db !! id) as [d0|] eqn:Hd0; [|discriminate].
    simpl. intros [= <-]. destruct (retry_selects o w d0); [|by apply IH].
    apply (sound_step id d0); simpl; auto.
  - intros id d Hl. apply enqueue_origin in Hl as [Hl|(w & k & _ & -> & Hrow)]; [by apply IH|].
    cbv zeta in Hrow. destruct Hrow as [-> | ->]; unfold sound; simpl.
    + split; [reflexivity|]. split; [by left|]. split; [reflexivity|]. eauto.
    + split; [reflexivity|]. split; [by right; left|]. split; [reflexivity|]. eauto.
  - apply sound_update_delivery; [|exact IH].
    intros id d. apply sound_step; simpl; auto.
  - by apply sound_process.
Qed.

End RowFacts.

(** X23. In every store the handlers and the outbox can produce from an
    empty one, each delivery row is stored under its own id, its status
    is one of pending, in_progress, delivered and failed, its attempt
    ceiling is 6, and its payload is the envelope it was enqueued with,
    whose [delivery_id] is the row's id and whose [event] is the row's
    event: attempts, claims and the retry action never rewrite the
    payload, so every retry of a delivery carries the same
    [delivery_id]. *)
Theorem delivery_rows_keep_their_envelope `{Outbox.Runtime} `{Ssrf.NetLib}
        (allowInternal : bool) (db : DB) (id : UUID) (d : WebhookDelivery.t) :
  Dispatch.reachable allowInternal db ->
  webhook_deliveries db !! id = Some d ->
  WebhookDelivery.ID d = id
  /\ In (WebhookDelivery.Status d) [ "pending"; "in_progress"; "delivered"; "failed" ]
  /\ WebhookDelivery.MaxAttempts d = 6
  /\ exists now data,
      WebhookDelivery.Payload d
      = Json.Obj [ ("delivery_id", Json.Str id);
                   ("event", Json.Str (WebhookDelivery.Event d));
                   ("timestamp", Json.Str (Outbox.time_Format now)); ("data", data) ].
Proof. intros Hreach Hd. by apply (reachable_rows allowInternal db Hreach). Qed.

Lemma delivery_rows_keep_their_envelope_witness :
  let net := Ssrf.example_net [] in
  let created :=
    (@Handlers.CreateWebhook net false {| webhooks := ∅; webhook_deliveries := ∅ |} "w1"
       (fun i => Z.of_nat i)
       {| Handlers.org := Some "org1"; Handlers.path_id := None;
          Handlers.body :=
            Some {| Handlers.Name := "orders"; Handlers.URL := "https://hooks.example.com/in";
                    Handlers.Events := ["message.incoming"]; Handlers.Headers := None;
                    Handlers.Secret := ""; Handlers.IsActive := true |} |}).2 in
  let enqueued :=
    (@Dispatch.enqueueWebhookDeliveries (Examples.always 200) created "org1"
       "message.incoming" Json.Null false (Samples.calm Samples.fresh 5)).1 in
  exists d,
    webhook_deliveries enqueued !! "n-" = Some d
    /\ WebhookDelivery.ID d = "n-" /\ WebhookDelivery.MaxAttempts d = 6.
Proof.
  intros net created enqueued.
  assert (Hd : exists d, webhook_deliveries enqueued !! "n-" = Some d).
  { vm_compute. eauto. }
  destruct Hd as [d Hd]. exists d. split; [exact Hd|].
  destruct (@delivery_rows_keep_their_envelope (Examples.always 200) net false enqueued "n-" d)
    as (Hid & _ & Hmax & _).
  - apply Dispatch.reach_enqueue, Dispatch.reach_create, Dispatch.reach_empty.
  - exact Hd.
  - split; [exact Hid|exact Hmax].
Defined.

(** ** The address ranges the guard refuses *)

Section RangeFacts.

Lemma private_172 (b : Z) :
  Bytes.is_byte b -> (Z.land b 0xf0 =? 16) = (16 <=? b) && (b <=? 31).
Proof.
  intros Hb.
  apply Bool.eqb_prop. revert b Hb.
  apply (byte_cases (fun b => Bool.eqb (Z.land b 0xf0 =? 16) ((16 <=? b) && (b <=? 31)))).
  vm_compute. reflexivity.
Qed.

Lemma To4_v4 (a b c d : Z) : Net.To4 (Net.v4 a b c d) = Some [a; b; c; d].
Proof. reflexivity. Qed.

End RangeFacts.

(** X24. Of the IPv4 addresses, the guard of the URL check and of the
    dialer refuses exactly 127.0.0.0/8, 10.0.0.0/8, 172.16.0.0/12,
    192.168.0.0/16, 169.254.0.0/16, 224.0.0.0/24 and 0.0.0.0; every
    other IPv4 address passes it. *)
Theorem refused_ipv4_ranges (a b c d : Z) :
  Bytes.is_byte a -> Bytes.is_byte b -> Bytes.is_byte c -> Bytes.is_byte d ->
  Ssrf.internalIP (Net.v4 a b c d) = true
  <-> a = 127 \/ a = 10 \/ (a = 172 /\ 16 <= b <= 31) \/ (a = 192 /\ b = 168)
      \/ (a = 169 /\ b = 254) \/ (a = 224 /\ b = 0 /\ c = 0)
      \/ (a = 0 /\ b = 0 /\ c = 0 /\ d = 0).
Proof.
  intros Ha Hb Hc Hd.
  unfold Ssrf.internalIP, Net.IsLoopback, Net.IsPrivate, Net.IsLinkLocalUnicast,
    Net.IsLinkLocalMulticast, Net.IsUnspecified.
  rewrite To4_v4.
  assert (Hz : Net.Equal (Net.v4 a b c d) Net.IPv4zero
               = (a =? 0) && ((b =? 0) && ((c =? 0) && (d =? 0)))).
  { unfold Net.Equal, Net.bytes_eqb. cbn. by rewrite !andb_true_r. }
  assert (Hu : Net.Equal (Net.v4 a b c d) Net.IPv6unspecified = false) by reflexivity.
  rewrite Hz, Hu. unfold Net.at_. cbn [nth]. rewrite (private_172 b Hb).
  rewrite !orb_true_iff, !andb_true_iff, !Z.eqb_eq, !Z.leb_le.
  unfold Bytes.is_byte in *. split; intros Hcase; intuition lia.
Qed.

Lemma refused_ipv4_ranges_witness :
  Ssrf.internalIP (Net.v4 172 20 1 1) = true /\ Ssrf.internalIP (Net.v4 100 64 0 1) <> true.
Proof.
  split.
  - apply (proj2 (refused_ipv4_ranges 172 20 1 1 ltac:(unfold Bytes.is_byte; lia)
                    ltac:(unfold Bytes.is_byte; lia) ltac:(unfold Bytes.is_byte; lia)
                    ltac:(unfold Bytes.is_byte; lia))).
    do 2 right. left. lia.
  - intros Hi.
    apply (proj1 (refused_ipv4_ranges 100 64 0 1 ltac:(unfold Bytes.is_byte; lia)
                    ltac:(unfold Bytes.is_byte; lia) ltac:(unfold Bytes.is_byte; lia)
                    ltac:(unfold Bytes.is_byte; lia))) in Hi.
    lia.
Defined.

(** ** URLs in the store *)

Section UrlFacts.

Import Handlers Outbox Dispatch.
Context `{Runtime} `{Ssrf.NetLib}.
Variable allowInternal : bool.

Local Abbreviation checked url := (Ssrf.validateWebhookURL url allowInternal = None).

Lemma update_delivery_urls (db : DB) (k : UUID) (f : WebhookDelivery.t -> WebhookDelivery.t) :
  (forall d, WebhookDelivery.URL (f d) = WebhookDelivery.URL d) ->
  (forall id d, webhook_deliveries db !! id = Some d -> checked (WebhookDelivery.URL d)) ->
  forall id d, webhook_deliveries (update_delivery db k f) !! id = Some d ->
               checked (WebhookDelivery.URL d).
Proof.
  intros Hf Hdb id d. destruct (decide (k = id)) as [<-|Hne].
  - destruct (webhook_deliveries db !! k) as [d0|] eqn:Hd0.
    + rewrite (update_delivery_eq _ _ _ _ Hd0). intros [= <-]. rewrite Hf. eauto.
    + unfold update_delivery. simpl. rewrite lookup_alter_eq, Hd0. discriminate.
  - rewrite update_delivery_ne by done. apply Hdb.
Qed.

Lemma fail_updates_URL (now : Z) (r : WebhookDelivery.t) (c : Z) (m : string)
      (d : WebhookDelivery.t) :
  WebhookDelivery.URL (fail_updates now r c m d) = WebhookDelivery.URL d.
Proof.
  unfold fail_updates.
  destruct (GoInt.add _ 1 >=? _); cbn [String.eqb Ascii.eqb Bool.eqb]; reflexivity.
Qed.

Lemma reachable_urls (db : DB) :
  reachable allowInternal db ->
  (forall id w, webhooks db !! id = Some w -> checked (Webhook.URL w))
  /\ (forall id d, webhook_deliveries db !! id = Some d -> checked (WebhookDelivery.URL d)).
Proof.
  induction 1 as [|db newID entropy r _ [IHw IHd]|db r _ [IHw IHd]|db r _ [IHw IHd]
                  |db now r _ [IHw IHd]|db orgID eventType data cache_err turns _ [IHw IHd]
                  |db now k _ [IHw IHd]|db now k d0 _ [IHw IHd] Hd0].
  - split; intros id x; simpl; rewrite lookup_empty; discriminate.
  - rewrite create_deliveries. split; [|exact IHd].
    intros id w. unfold CreateWebhook.
    destruct (org r) as [orgID|]; [|apply IHw].
    destruct (body r) as [req|]; [|apply IHw].
    destruct (_ || _); [apply IHw|].
    destruct (Ssrf.validateWebhookURL _ _) eqn:Hv; [apply IHw|].
    destruct (Nat.eqb _ 0); [apply IHw|].
    destruct (webhooks db !! newID); [apply IHw|].
    cbn [snd with_webhooks webhooks]. destruct (decide (newID = id)) as [<-|Hne].
    + rewrite lookup_insert_eq. intros [= <-]. exact Hv.
    + rewrite lookup_insert_ne by done. apply IHw.
  - rewrite update_deliveries. split; [|exact IHd].
    intros id w. unfold UpdateWebhook.
    destruct (org r) as [orgID|]; [|apply IHw].
    destruct (path_id r) as [webhookID|]; [|apply IHw].
    destruct (findByIDAndOrg db webhookID orgID) as [old|] eqn:Hf; [|apply IHw].
    destruct (body r) as [req|]; [|apply IHw].
    destruct (String.eqb (URL req) "") eqn:Eu; cbn [negb].
    + cbn [snd with_webhooks webhooks].
      destruct (decide (Webhook.ID old = id)) as [<-|Hne].
      * rewrite lookup_insert_eq. intros [= <-]. cbn [Webhook.URL].
        apply find_stored in Hf. eauto.
      * rewrite lookup_insert_ne by done. apply IHw.
    + destruct (Ssrf.validateWebhookURL _ _) eqn:Hv; [apply IHw|].
      cbn [snd with_webhooks webhooks].
      destruct (decide (Webhook.ID old = id)) as [<-|Hne].
      * rewrite lookup_insert_eq. intros [= <-]. exact Hv.
      * rewrite lookup_insert_ne by done. apply IHw.
  - rewrite delete_deliveries. split; [|exact IHd].
    intros id w Hl. apply delete_stored in Hl. eauto.
  - destruct (retry_db db now r) as [[_ ->]|(o & w & wh & _ & _ & _ & ->)]; [by split|].
    split; [exact IHw|]. intros id d. simpl. rewrite lookup_fmap.
    destruct (webhook_deliveries db !! id) as [d1|] eqn:Hd1; [|discriminate].
    simpl. intros [= <-]. destruct (retry_selects o w d1); [simpl|]; eauto.
  - split.
    + rewrite enqueue_webhooks. exact IHw.
    + intros id d Hl.
      apply enqueue_origin in Hl as [Hl|(w & k & Hin & -> & Hrow)]; [eauto|].
      apply cached_stored in Hin as [wid Hw]. cbv zeta in Hrow.
      destruct Hrow as [-> | ->]; simpl; eauto.
  - split; [exact IHw|]. apply update_delivery_urls; [|exact IHd]. reflexivity.
  - split; [by rewrite process_webhooks|].
    unfold processWebhookDelivery, failWebhookDelivery.
    destruct (json_Marshal _); [destruct (sendWebhookRequest _ _ _ _)|];
      apply update_delivery_urls; auto using fail_updates_URL.
Qed.

End UrlFacts.

(** X25. In every store the handlers and the outbox can produce from an
    empty one, the URL of each webhook and of each delivery row is one
    the URL check accepts under the configured setting: the create and
    update handlers store no other URL, and a delivery row copies the
    URL of a stored webhook and keeps it. *)
Theorem stored_urls_passed_the_check `{Outbox.Runtime} `{Ssrf.NetLib} (allowInternal : bool)
        (db : DB) :
  Dispatch.reachable allowInternal db ->
  (forall id w, webhooks db !! id = Some w ->
                Ssrf.validateWebhookURL (Webhook.URL w) allowInternal = None)
  /\ (forall id d, webhook_deliveries db !! id = Some d ->
                   Ssrf.validateWebhookURL (WebhookDelivery.URL d) allowInternal = None).
Proof. apply reachable_urls. Qed.

Lemma stored_urls_passed_the_check_witness :
  let net := Ssrf.example_net [] in
  let created :=
    (@Handlers.CreateWebhook net false {| webhooks := ∅; webhook_deliveries := ∅ |} "w1"
       (fun i => Z.of_nat i)
       {| Handlers.org := Some "org1"; Handlers.path_id := None;
          Handlers.body :=
            Some {| Handlers.Name := "orders"; Handlers.URL := "https://hooks.example.com/in";
                    Handlers.Events := ["message.incoming"]; Handlers.Headers := None;
                    Handlers.Secret := ""; Handlers.IsActive := true |} |}).2 in
  exists w,
    webhooks created !! "w1" = Some w
    /\ @Ssrf.validateWebhookURL net (Webhook.URL w) false = None.
Proof.
  intros net created.
  assert (Hw : exists w, webhooks created !! "w1" = Some w).
  { vm_compute. eauto. }
  destruct Hw as [w Hw]. exists w. split; [exact Hw|].
  refine (proj1 (@stored_urls_passed_the_check (Examples.always 200) net false created _)
                "w1" w Hw).
  apply Dispatch.reach_create. apply Dispatch.reach_empty.
Defined.

(** ** An enqueueing pass, whatever fails *)

Section PassFacts.

Import WebhookDelivery Outbox Dispatch.
Context `{Runtime}.

(** The rows that were there stay as they are: an insert takes a free
    key only, and the update goes to the key just inserted. *)
Lemma enqueue_each_keeps (whs : list Webhook.t) (orgID : UUID) (eventType : string)
      (data : Json.value) (turns : nat -> Turn) (db : DB) (n : nat) (id : UUID)
      (d : WebhookDelivery.t) :
  webhook_deliveries db !! id = Some d ->
  webhook_deliveries (enqueue_each db orgID eventType data whs turns n).1 !! id = Some d.
Proof.
  revert db n. induction whs as [|w whs IH]; intros db n Hd; [exact Hd|].
  cbn [enqueue_each].
  destruct (negb (containsEvent _ _)); [by apply IH|].
  destruct (ctx_Err (turns n)); [exact Hd|].
  destruct (json_Marshal _); [|by apply IH].
  destruct (unmarshal_err (turns n)); [by apply IH|].
  destruct (Create _ _ _) as [db1|] eqn:Hc; [|by apply IH].
  apply Create_Some in Hc as (_ & Hfree & ->). cbn [newDelivery ID] in Hfree |- *.
  assert (Hne : uuid_New (turns n) <> id) by (intros Heq; rewrite Heq in Hfree; congruence).
  assert (Hd1 : webhook_deliveries
                  (with_deliveries db (<[uuid_New (turns n) :=
                       newDelivery orgID w (uuid_New (turns n)) (stamped (turns n))
                                   (due (turns n)) eventType data]>
                     (webhook_deliveries db))) !! id = Some d).
  { cbn [with_deliveries webhook_deliveries]. by rewrite lookup_insert_ne. }
  destruct (update_err (turns n)); [by apply IH|].
  destruct (enqueue_each _ orgID eventType data whs turns (S n)) as [db3 spawned] eqn:Hrec.
  cbn [fst]. change db3 with (db3, spawned).1. rewrite <- Hrec. apply IH.
  by rewrite update_delivery_ne.
Qed.

(** Every row handed to a goroutine is stored, as handed over. *)
Lemma enqueue_each_spawned (whs : list Webhook.t) (orgID : UUID) (eventType : string)
      (data : Json.value) (turns : nat -> Turn) (db : DB) (n : nat) (d : WebhookDelivery.t) :
  In d (enqueue_each db orgID eventType data whs turns n).2 ->
  webhook_deliveries (enqueue_each db orgID eventType data whs turns n).1 !! ID d = Some d
  /\ Status d = webhookStatusInProgress
  /\ exists w k, In w whs /\ containsEvent (Webhook.Events w) eventType = true
                 /\ update_err (turns k) = false
                 /\ d = mark_in_progress (startedAt (turns k))
                          (newDelivery orgID w (uuid_New (turns k)) (stamped (turns k))
                                       (due (turns k)) eventType data).
Proof.
  revert db n. induction whs as [|w whs IH]; intros db n Hin; [contradiction|].
  cbn [enqueue_each] in Hin |- *.
  assert (Hrest : forall db' n',
             In d (enqueue_each db' orgID eventType data whs turns n').2 ->
             webhook_deliveries (enqueue_each db' orgID eventType data whs turns n').1 !! ID d
             = Some d
             /\ Status d = webhookStatusInProgress
             /\ exists w' k, In w' (w :: whs)
                             /\ containsEvent (Webhook.Events w') eventType = true
                             /\ update_err (turns k) = false
                             /\ d = mark_in_progress (startedAt (turns k))
                                      (newDelivery orgID w' (uuid_New (turns k))
                                                   (stamped (turns k)) (due (turns k))
                                                   eventType data)).
  { intros db' n' Hin'. destruct (IH _ _ Hin') as (Hs & Hst & w' & k & Hw' & Hrow).
    split; [exact Hs|]. split; [exact Hst|]. exists w', k. split; [by right|exact Hrow]. }
  destruct (containsEvent (Webhook.Events w) eventType) eqn:Hsub; cbn [negb] in Hin |- *;
    [|by apply Hrest].
  destruct (ctx_Err (turns n)); [contradiction|].
  destruct (json_Marshal _); [|by apply Hrest].
  destruct (unmarshal_err (turns n)); [by apply Hrest|].
  destruct (Create _ _ _) as [db1|] eqn:Hc; [|by apply Hrest].
  apply Create_Some in Hc as (_ & Hfree & ->). cbn [newDelivery ID] in Hfree.
  destruct (update_err (turns n)) eqn:Hu; [by apply Hrest|].
  destruct (enqueue_each _ orgID eventType data whs turns (S n)) as [db3 spawned] eqn:Hrec.
  cbn [fst snd] in Hin |- *. destruct Hin as [<- | Hin].
  - split; [|split; [reflexivity|]].
    + change db3 with (db3, spawned).1. rewrite <- Hrec. apply enqueue_each_keeps.
      apply update_delivery_eq. cbn [with_deliveries webhook_deliveries newDelivery ID].
      apply lookup_insert_eq.
    + exists w, n. split; [by left|]. split; [exact Hsub|]. split; [exact Hu|reflexivity].
  - change db3 with (db3, spawned).1. change spawned with (db3, spawned).2 in Hin.
    rewrite <- Hrec in Hin |- *. by apply Hrest.
Qed.

(** A cancelled context ends the pass before anything is done. *)
Lemma enqueue_each_cancelled (whs : list Webhook.t) (orgID : UUID) (eventType : string)
      (data : Json.value) (turns : nat -> Turn) (db : DB) (n : nat) :
  ctx_Err (turns n) = true ->
  enqueue_each db orgID eventType data whs turns n = (db, []).
Proof.
  intros Hc. induction whs as [|w whs IH]; [reflexivity|]. cbn [enqueue_each].
  destruct (negb (containsEvent _ _)); [exact IH|]. by rewrite Hc.
Qed.

End PassFacts.

(** X27. Whatever fails during it, an enqueueing pass leaves the
    webhooks and every delivery row that was there as they are. A row it
    adds belongs to a webhook of the list and is the new row as
    inserted, pending and due from the instant read for it, or that row
    marked in progress. Every row handed to a delivery goroutine is
    stored as handed over, in progress, and belongs to a webhook that
    subscribes to the event. And when the context is cancelled by the
    first turn, nothing is stored and no goroutine is started. *)
Theorem enqueue_pass_keeps_and_tracks_rows `{Outbox.Runtime} (db : DB) (orgID eventType : string)
        (data : Json.value) (whs : list Webhook.t) (turns : nat -> Dispatch.Turn) (n : nat) :
  let out := Dispatch.enqueue_each db orgID eventType data whs turns n in
  let fresh w k :=
    Dispatch.newDelivery orgID w (Dispatch.uuid_New (turns k)) (Dispatch.stamped (turns k))
                         (Dispatch.due (turns k)) eventType data in
  webhooks out.1 = webhooks db
  /\ (forall id d, webhook_deliveries db !! id = Some d ->
                   webhook_deliveries out.1 !! id = Some d)
  /\ (forall id d,
         webhook_deliveries out.1 !! id = Some d -> webhook_deliveries db !! id = None ->
         exists w k,
           In w whs /\ id = Dispatch.uuid_New (turns k)
           /\ ((d = fresh w k
                /\ forall now', Outbox.claimable now' d = true
                                <-> Dispatch.due (turns k) <= now')
               \/ d = Outbox.mark_in_progress (Dispatch.startedAt (turns k)) (fresh w k)))
  /\ (forall d, In d out.2 ->
                webhook_deliveries out.1 !! WebhookDelivery.ID d = Some d
                /\ WebhookDelivery.Status d = "in_progress"
                /\ exists w k,
                    In w whs /\ Outbox.containsEvent (Webhook.Events w) eventType = true
                    /\ d = Outbox.mark_in_progress (Dispatch.startedAt (turns k)) (fresh w k))
  /\ (Dispatch.ctx_Err (turns n) = true -> out = (db, [])).
Proof.
  intros out fresh. split; [apply enqueue_each_webhooks|].
  split; [intros id d; apply enqueue_each_keeps|]. split; [|split].
  - intros id d Hl Hnew.
    apply enqueue_each_origin in Hl as [Hl|(w & k & Hin & -> & Hrow)]; [congruence|].
    exists w, k. split; [exact Hin|]. split; [reflexivity|]. cbv zeta in Hrow.
    destruct Hrow as [-> | ->]; [left|by right]. split; [reflexivity|].
    intros now'. unfold Outbox.claimable. cbn. rewrite orb_false_r. apply Z.leb_le.
  - intros d Hin. destruct (enqueue_each_spawned _ _ _ _ _ _ _ _ Hin)
      as (Hs & Hst & w & k & Hw & Hsub & _ & ->).
    split; [exact Hs|]. split; [reflexivity|]. exists w, k. auto.
  - apply enqueue_each_cancelled.
Qed.

Lemma enqueue_pass_keeps_and_tracks_rows_witness :
  let two := [ Examples.hook; Examples.hook ] in
  let failed_update :=
    @Dispatch.enqueue_each (Examples.always 200) (Examples.store Examples.delivery)
      "org1" "message.incoming" Json.Null two (Samples.rough 2 0 Samples.fresh 10) 0 in
  let cancelled :=
    @Dispatch.enqueue_each (Examples.always 200) (Examples.store Examples.delivery)
      "org1" "message.incoming" Json.Null two (Samples.rough 0 9 Samples.fresh 10) 0 in
  map (fun d => (WebhookDelivery.ID d, WebhookDelivery.Status d)) failed_update.2
  = [ ("n-x", "in_progress") ]
  /\ (fun d => (WebhookDelivery.Status d, WebhookDelivery.NextAttemptAt d))
       <$> webhook_deliveries failed_update.1 !! "n-" = Some ("pending", 11)
  /\ webhook_deliveries failed_update.1 !! "d1" = Some Examples.delivery
  /\ cancelled = (Examples.store Examples.delivery, []).
Proof.
  intros two failed_update cancelled.
  destruct (@enqueue_pass_keeps_and_tracks_rows (Examples.always 200)
              (Examples.store Examples.delivery) "org1" "message.incoming" Json.Null two
              (Samples.rough 2 0 Samples.fresh 10) 0) as (_ & Hkeep & _ & _ & _).
  destruct (@enqueue_pass_keeps_and_tracks_rows (Examples.always 200)
              (Examples.store Examples.delivery) "org1" "message.incoming" Json.Null two
              (Samples.rough 0 9 Samples.fresh 10) 0) as (_ & _ & _ & _ & Hcancel).
  split; [vm_compute; reflexivity|]. split; [vm_compute; reflexivity|].
  split; [apply Hkeep; reflexivity|apply Hcancel; reflexivity].
Defined.
